(** * sublime-scp: path mapping, connection registry and bulk transfer

    A shallow embedding of [core/scpfolder.py] and of the transfer commands of
    [commands.py].  A Python string is the [string] of the bytes of its UTF-8
    encoding; exceptions are an inductive type; the module-level list
    [connections], the local temporary files and everything the plugin says
    to the outside (status line, remote calls) live in an explicit state that
    is threaded through a small state-and-exception monad. *)

From Stdlib Require Import String Ascii List Bool Arith Lia DecimalString.
Import ListNotations.
Local Open Scope list_scope.
Local Open Scope string_scope.

(* ===================================================================== *)
(** ** Python [str] operations used by the sources *)
(* ===================================================================== *)

(** The operations below work byte by byte on the UTF-8 encoding.  That is
    the operation on the text for comparison, prefix and substring tests,
    and for splitting and replacing at an ASCII character: in UTF-8 the
    encoding of one character never occurs inside, or across, the encodings
    of others.  [str.strip()] is written out for the encodings of the
    characters Python takes for white space.  [str.lower()] depends on the
    Unicode case tables and on context, and is an operation of the platform
    (see [OsPath]). *)

Module Py.

(** [s.startswith(pre)] *)
Fixpoint startswith (s pre : string) {struct pre} : bool :=
  match pre with
  | EmptyString => true
  | String b pre' =>
      match s with
      | EmptyString => false
      | String a s' => Ascii.eqb a b && startswith s' pre'
      end
  end.

(** [sub in s]: the substring test. *)
Fixpoint contains (sub s : string) : bool :=
  if startswith s sub then true
  else match s with
       | EmptyString => false
       | String _ s' => contains sub s'
       end.

(** [s.endswith(c)] for a one-character [c]. *)
Fixpoint endswith (s : string) (c : ascii) : bool :=
  match s with
  | EmptyString => false
  | String a EmptyString => Ascii.eqb a c
  | String _ s' => endswith s' c
  end.

(** [s.replace(a, b)] for one-character [a] and [b]. *)
Fixpoint replace (a b : ascii) (s : string) : string :=
  match s with
  | EmptyString => EmptyString
  | String x s' => String (if Ascii.eqb x a then b else x) (replace a b s')
  end.

Definition lower_ascii (a : ascii) : ascii :=
  let n := nat_of_ascii a in
  if ((65 <=? n) && (n <=? 90))%nat then ascii_of_nat (n + 32) else a.

(** What [s.lower()] is when [s] is ASCII text: the letters [A] to [Z] are
    folded.  On other text Python folds more, and not character by
    character; the sources call the method on Windows only, where the
    platform's [str_lower] stands for it. *)
Fixpoint lower (s : string) : string :=
  match s with
  | EmptyString => EmptyString
  | String a s' => String (lower_ascii a) (lower s')
  end.

(** [s.split(sep)] for a one-character separator: never the empty list. *)
Fixpoint split (sep : ascii) (s : string) : list string :=
  match s with
  | EmptyString => [EmptyString]
  | String a s' =>
      if Ascii.eqb a sep then EmptyString :: split sep s'
      else match split sep s' with
           | [] => [String a EmptyString]
           | seg :: segs => String a seg :: segs
           end
  end.

(** [s.rstrip(chars)] and [s.lstrip(chars)], the character set given as a
    predicate. *)
Fixpoint rstrip (f : ascii -> bool) (s : string) : string :=
  match s with
  | EmptyString => EmptyString
  | String a s' =>
      match rstrip f s' with
      | EmptyString => if f a then EmptyString else String a EmptyString
      | r => String a r
      end
  end.

Fixpoint lstrip (f : ascii -> bool) (s : string) : string :=
  match s with
  | EmptyString => EmptyString
  | String a s' => if f a then lstrip f s' else s
  end.

(** The characters for which [str.isspace()] holds, by the bytes of their
    encoding: U+0009 to U+000D, U+001C to U+0020; U+0085 and U+00A0;
    U+1680, U+2000 to U+200A, U+2028, U+2029, U+202F, U+205F and U+3000. *)
Definition is_space1 (a : ascii) : bool :=
  let n := nat_of_ascii a in
  (((9 <=? n) && (n <=? 13)) || ((28 <=? n) && (n <=? 32)))%nat.

Definition is_space2 (a b : ascii) : bool :=
  let n := nat_of_ascii a in
  let m := nat_of_ascii b in
  ((n =? 194) && ((m =? 133) || (m =? 160)))%nat.

Definition is_space3 (a b c : ascii) : bool :=
  let n := nat_of_ascii a in
  let m := nat_of_ascii b in
  let k := nat_of_ascii c in
  (((n =? 225) && (m =? 154) && (k =? 128))
   || ((n =? 226) && (m =? 128)
       && ((((128 <=? k) && (k <=? 138)) || (k =? 168)) || (k =? 169) || (k =? 175)))
   || ((n =? 226) && (m =? 129) && (k =? 159))
   || ((n =? 227) && (m =? 128) && (k =? 128)))%nat.

(** The white space at the front of [s] removed; with [fwd] false the bytes
    of [s] come in reverse order, last byte first. *)
Fixpoint strip_front (fwd : bool) (s : string) : string :=
  match s with
  | EmptyString => EmptyString
  | String a r =>
      if is_space1 a then strip_front fwd r
      else
        match r with
        | String b r2 =>
            if (if fwd then is_space2 a b else is_space2 b a)
            then strip_front fwd r2
            else
              match r2 with
              | String c r3 =>
                  if (if fwd then is_space3 a b c else is_space3 c b a)
                  then strip_front fwd r3
                  else s
              | EmptyString => s
              end
        | EmptyString => s
        end
  end.

Fixpoint reverse_onto (s acc : string) : string :=
  match s with
  | EmptyString => acc
  | String a s' => reverse_onto s' (String a acc)
  end.

Definition reverse (s : string) : string := reverse_onto s EmptyString.

(** [s.strip()] *)
Definition strip (s : string) : string :=
  reverse (strip_front false (reverse (strip_front true s))).

(** Truthiness of a string: [if s:]. *)
Definition truthy (s : string) : bool :=
  match s with EmptyString => false | _ => true end.

(** [str(n)] for a natural number. *)
Definition str_of_nat (n : nat) : string :=
  NilEmpty.string_of_uint (Nat.to_uint n).

(** [template.format(a0, a1, ...)] with the replacement fields the sources use:
    [{}] (numbered automatically) and [{N}] for a one-digit [N].  A field
    whose index is out of range raises [IndexError] in Python; it is [None]
    here. *)
Definition digit_of (a : ascii) : option nat :=
  let n := nat_of_ascii a in
  if ((48 <=? n) && (n <=? 57))%nat then Some (n - 48) else None.

Fixpoint format_from (auto : nat) (t : string) (args : list string)
  : option string :=
  match t with
  | EmptyString => Some EmptyString
  | String a t1 =>
      if Ascii.eqb a "{" then
        match t1 with
        | EmptyString => None
        | String b t2 =>
            if Ascii.eqb b "}" then
              match nth_error args auto, format_from (S auto) t2 args with
              | Some v, Some r => Some (v ++ r)
              | _, _ => None
              end
            else
              match t2 with
              | EmptyString => None
              | String c t3 =>
                  if Ascii.eqb c "}" then
                    match digit_of b with
                    | Some i =>
                        match nth_error args i, format_from auto t3 args with
                        | Some v, Some r => Some (v ++ r)
                        | _, _ => None
                        end
                    | None => None
                    end
                  else None
              end
        end
      else
        match format_from auto t1 args with
        | Some r => Some (String a r)
        | None => None
        end
  end.

Definition format (t : string) (args : list string) : option string :=
  format_from 0 t args.

End Py.

(** The two names the transfer commands never send. *)
Definition DROPPED : list string := [".scp"; ".git"].

(** [any(f in path for f in ('.scp', '.git'))] *)
Definition dropped (path : string) : bool :=
  existsb (fun f => Py.contains f path) DROPPED.

(** A path has [c] as a component when [c] is one of its [/]-separated
    segments. *)
Definition has_component (c path : string) : Prop :=
  In c (Py.split "/" path).

Definition has_componentb (c path : string) : bool :=
  existsb (String.eqb c) (Py.split "/" path).

(* ===================================================================== *)
(** ** Exceptions *)
(* ===================================================================== *)

(** The exception classes that occur.  [core/scpfolder.py] declares
    [ScpNotConnectedError] and [ScpAbortError] itself, both directly under
    [Exception]; [commands.py] imports [SCPNotConnectedError] and
    [SCPCommandError] from [core.scpclient].  The names differ in case, so they
    are four classes, and an [except SCPNotConnectedError] clause does not
    match an instance of [ScpNotConnectedError]. *)
Inductive exn : Type :=
| ScpNotConnectedError (msg : string)
| ScpAbortError (msg : string)
| SCPNotConnectedError (msg : string)
| SCPCommandError (msg : string)
| ValueError (msg : string)
| IndexError (msg : string)
| OSError (msg : string)
| OtherError (cls msg : string).

Inductive result (A : Type) : Type :=
| Ok (a : A)
| Raise (e : exn).
Arguments Ok {A} a.
Arguments Raise {A} e.

Definition is_Ok {A} (r : result A) : bool :=
  match r with Ok _ => true | Raise _ => false end.

(* ===================================================================== *)
(** ** [os.path] *)
(* ===================================================================== *)

(** [os.path] is [posixpath] or [ntpath] depending on the platform; the
    sources use it through this interface, together with [sys.platform]. *)
Class OsPath : Type := {
  win32 : bool;                                   (* sys.platform == "win32" *)
  str_lower : string -> string;                   (* s.lower() *)
  str_lower_empty : str_lower "" = "";            (* nothing to fold *)
  sep : ascii;                                    (* os.sep *)
  path_join : string -> string -> string;         (* os.path.join(a, b) *)
  path_split : string -> string * string;         (* os.path.split(p) *)
  path_relpath : string -> string -> result string  (* os.path.relpath(p, start) *)
}.

Definition path_dirname `{OsPath} (p : string) : string := fst (path_split p).
Definition path_basename `{OsPath} (p : string) : string := snd (path_split p).

Definition backslash : ascii := Eval vm_compute in ascii_of_nat 92.

Module posixpath.

Definition is_sep (a : ascii) : bool := Ascii.eqb a "/".

(** [join(a, b)] *)
Definition join (a b : string) : string :=
  if Py.startswith b "/" then b
  else if negb (Py.truthy a) || Py.endswith a "/" then a ++ b
  else a ++ "/" ++ b.

(** [(p[:i], p[i:])] for [i = p.rfind('/') + 1]. *)
Fixpoint rpartition (p : string) : string * string :=
  match p with
  | EmptyString => (EmptyString, EmptyString)
  | String a p' =>
      match rpartition p' with
      | (EmptyString, t) =>
          if is_sep a then (String a EmptyString, t) else (EmptyString, String a t)
      | (h, t) => (String a h, t)
      end
  end.

Fixpoint all_sep (s : string) : bool :=
  match s with
  | EmptyString => true
  | String a s' => is_sep a && all_sep s'
  end.

(** [split(p)]: the head loses its trailing slashes unless it is all
    slashes. *)
Definition split (p : string) : string * string :=
  let (head, tail) := rpartition p in
  if Py.truthy head && negb (all_sep head)
  then (Py.rstrip is_sep head, tail) else (head, tail).

(** The components of [abspath(p)], for an absolute [p]: what [normpath]
    keeps, empty and [.] components skipped and [..] taking one back. *)
Fixpoint norm_comps (comps acc : list string) : list string :=
  match comps with
  | [] => rev acc
  | c :: comps' =>
      if (c =? "") || (c =? ".") then norm_comps comps' acc
      else if c =? ".." then norm_comps comps' (tl acc)
      else norm_comps comps' (c :: acc)
  end.

Definition abs_comps (cwd p : string) : list string :=
  let p' := if Py.startswith p "/" then p else join cwd p in
  norm_comps (Py.split "/" p') [].

Fixpoint common_len (a b : list string) : nat :=
  match a, b with
  | x :: a', y :: b' => if x =? y then S (common_len a' b') else 0
  | _, _ => 0
  end.

Fixpoint join_all (a : string) (l : list string) : string :=
  match l with
  | [] => a
  | b :: l' => join_all (join a b) l'
  end.

(** [relpath(path, start)], with [cwd] the current directory. *)
Definition relpath (cwd path start : string) : result string :=
  if negb (Py.truthy path) then Raise (ValueError "no path specified")
  else
    let start_list := abs_comps cwd start in
    let path_list := abs_comps cwd path in
    let i := common_len start_list path_list in
    let rel_list :=
      (repeat ".." (length start_list - i) ++ skipn i path_list)%list in
    match rel_list with
    | [] => Ok "."
    | r :: rs => Ok (join_all r rs)
    end.

End posixpath.

(** [os.path] on a POSIX platform whose current directory is [cwd]. *)
Definition posix (cwd : string) : OsPath := {|
  win32 := false;
  str_lower := Py.lower;
  str_lower_empty := eq_refl;
  sep := "/";
  path_join := posixpath.join;
  path_split := posixpath.split;
  path_relpath := posixpath.relpath cwd
|}.

(* ===================================================================== *)
(** ** Sessions, archive entries, the local tree *)
(* ===================================================================== *)

(** An [SCPFolder] object.  [oid] is the identity of the Python object: two
    sessions are the same object exactly when their [oid]s agree. *)
Record SCPFolder : Type := {
  oid : nat;
  root : string;
  host : string;
  port : nat;
  user : string;
  passwd : option string;
  remote_path : string
}.

(** The decoded content of a [.scp] file; absent keys are [None]. *)
Record Mapping : Type := {
  m_host : string;
  m_port : option nat;
  m_user : option string;
  m_passwd : option string;
  m_path : option string
}.

(** The fields of a [tarfile.TarInfo] the sources touch. *)
Record TarInfo : Type := {
  path : string;
  uid : nat;
  gid : nat;
  uname : string;
  gname : string;
  isdir : bool
}.

(** What [tar.add] finds at a local path: a file (readable or not) or a
    directory with its entries in listing order; [name] is the entry's own
    name in its directory. *)
Scheme All for list.

Inductive Node : Type :=
| NFile (name : string) (u g : nat) (un gn : string) (readable : bool)
| NDir (name : string) (u g : nat) (un gn : string) (children : list Node).

Definition node_name (n : Node) : string :=
  match n with
  | NFile name _ _ _ _ _ => name
  | NDir name _ _ _ _ _ => name
  end.

(** What the plugin does to the outside, in the order it happens. *)
Inductive event : Type :=
| Status (msg : string)                        (* sublime.status_message *)
| Print (msg : string)                         (* print *)
| TaskCancelAll                                (* task.cancel_all() *)
| TransportCancel (conn : nat)                 (* SCPClient.cancel *)
| ScpPut (conn : nat) (local remote : string)  (* SCPClient.putfile *)
| ScpGet (conn : nat) (remote local : string)  (* SCPClient.getfile *)
| ScpRemove (conn : nat) (remote : string)     (* SCPClient.remove *)
| Plink (conn : nat) (cmd : string)            (* SCPClient.plink *)
| Mkstemp (file : string)                      (* tempfile.mkstemp *)
| TarAdd (archive : string) (entries : list TarInfo)
| TarExtract (archive dir : string)
| OsRemove (file : string).                    (* os.remove *)

(** The environment: the local file system as far as it is only read, and
    the outcome of every call that leaves the process.  An outcome [None] is
    a normal return, [Some e] raises [e]. *)
Record World : Type := {
  exists_ : string -> bool;                    (* os.path.exists *)
  isfile : string -> bool;                     (* os.path.isfile *)
  tempdir : string;                            (* tempfile.gettempdir() *)
  active_file : option string;                 (* the active view's file name *)
  read_mapping : string -> option Mapping;     (* reading <root>/.scp; None: it raised *)
  most : list string -> result string;         (* core.commonpath.most *)
  lstat : string -> option Node;               (* None: no such file *)
  putfile_outcome : SCPFolder -> string -> string -> list nat * option exn;
  getfile_outcome : SCPFolder -> string -> string -> list nat * option exn;
  remove_outcome : SCPFolder -> string -> option exn;
  plink_outcome : SCPFolder -> string -> option exn;
  extract_outcome : string -> string -> option exn
}.

(** The mutable state: the module-level list [scpfolder.connections], the
    sessions whose transport has been told to cancel, the local temporary
    files that exist, and the trace of events, oldest first. *)
Record State : Type := {
  connections : list SCPFolder;
  next_oid : nat;
  cancelled : list nat;
  tmpfiles : list string;
  tmp_serial : nat;
  trace : list event
}.

Definition init_state : State := {|
  connections := []; next_oid := 0; cancelled := [];
  tmpfiles := []; tmp_serial := 0; trace := []
|}.

(* ===================================================================== *)
(** ** The state-and-exception monad *)
(* ===================================================================== *)

Definition M (A : Type) : Type := State -> State * result A.

Definition ret {A} (a : A) : M A := fun st => (st, Ok a).

Definition raise {A} (e : exn) : M A := fun st => (st, Raise e).

Definition bind {A B} (c : M A) (k : A -> M B) : M B :=
  fun st =>
    match c st with
    | (st1, Ok a) => k a st1
    | (st1, Raise e) => (st1, Raise e)
    end.

Notation "x <- c ;; k" := (bind c (fun x => k))
  (at level 61, c at next level, right associativity).
Notation "c ;; k" := (bind c (fun _ => k))
  (at level 61, right associativity).

Definition lift {A} (r : result A) : M A := fun st => (st, r).

(** [try: c  except <classes>: h]: the handler answers [Some h] for the
    exceptions its clause matches. *)
Definition try_except {A} (c : M A) (handler : exn -> option (M A)) : M A :=
  fun st =>
    match c st with
    | (st1, Ok a) => (st1, Ok a)
    | (st1, Raise e) =>
        match handler e with
        | Some h => h st1
        | None => (st1, Raise e)
        end
    end.

(** [try: c  finally: f]: [f] always runs; an exception of [f] replaces the
    outcome of [c]. *)
Definition try_finally {A} (c : M A) (f : M unit) : M A :=
  fun st =>
    match c st with
    | (st1, r) =>
        match f st1 with
        | (st2, Ok _) => (st2, r)
        | (st2, Raise e) => (st2, Raise e)
        end
    end.

(** A bare [except: pass]. *)
Definition except_pass (c : M unit) : M unit :=
  try_except c (fun _ => Some (ret tt)).

Fixpoint for_each {A} (f : A -> M unit) (l : list A) : M unit :=
  match l with
  | [] => ret tt
  | x :: l' => f x ;; for_each f l'
  end.

(** The state after one more event. *)
Definition push (e : event) (st : State) : State :=
  {| connections := connections st; next_oid := next_oid st;
     cancelled := cancelled st; tmpfiles := tmpfiles st;
     tmp_serial := tmp_serial st; trace := (trace st ++ [e])%list |}.

Definition emit (e : event) : M unit := fun st => (push e st, Ok tt).

Definition status_message (msg : string) : M unit := emit (Status msg).

(** [os.path.exists] of a local temporary file. *)
Definition tmp_exists (st : State) (file : string) : bool :=
  existsb (String.eqb file) (tmpfiles st).

Fixpoint remove_all (file : string) (l : list string) : list string :=
  match l with
  | [] => []
  | x :: l' => if x =? file then remove_all file l' else x :: remove_all file l'
  end.

(** [tempfile.mkstemp(prefix)] followed by [os.close]: a new empty file under
    a name no earlier call has returned. *)
Definition mkstemp (w : World) (prefix : string) : M string :=
  fun st =>
    let name := tempdir w ++ "/" ++ prefix ++ Py.str_of_nat (tmp_serial st) in
    ({| connections := connections st; next_oid := next_oid st;
        cancelled := cancelled st; tmpfiles := name :: tmpfiles st;
        tmp_serial := S (tmp_serial st);
        trace := (trace st ++ [Mkstemp name])%list |}, Ok name).

(** [os.remove(file)] *)
Definition os_remove (file : string) : M unit :=
  fun st =>
    if tmp_exists st file then
      ({| connections := connections st; next_oid := next_oid st;
          cancelled := cancelled st; tmpfiles := remove_all file (tmpfiles st);
          tmp_serial := tmp_serial st;
          trace := (trace st ++ [OsRemove file])%list |}, Ok tt)
    else (st, Raise (OSError "No such file or directory")).

(* ===================================================================== *)
(** ** [core/scpclient.py]: the transport *)
(* ===================================================================== *)

(** The transport class [SCPClient] is outside the sources at hand.  Its
    transfer methods are calls into the environment: each is recorded in the
    trace, reports the progress percentages the environment gives to the
    callback, and returns or raises as the environment says. *)
Module SCPClient.
Section Transport.
Context (w : World).

Definition report (cb : option (nat -> M unit)) (pcts : list nat) : M unit :=
  match cb with
  | Some f => for_each f pcts
  | None => ret tt
  end.

Definition outcome (o : option exn) : M unit :=
  match o with
  | None => ret tt
  | Some e => raise e
  end.

Definition putfile (self : SCPFolder) (local remote : string)
    (cb : option (nat -> M unit)) : M unit :=
  emit (ScpPut (oid self) local remote) ;;
  report cb (fst (putfile_outcome w self local remote)) ;;
  outcome (snd (putfile_outcome w self local remote)).

Definition getfile (self : SCPFolder) (remote local : string)
    (cb : option (nat -> M unit)) : M unit :=
  emit (ScpGet (oid self) remote local) ;;
  report cb (fst (getfile_outcome w self remote local)) ;;
  outcome (snd (getfile_outcome w self remote local)).

Definition remove (self : SCPFolder) (remote : string) : M unit :=
  emit (ScpRemove (oid self) remote) ;;
  outcome (remove_outcome w self remote).

Definition plink (self : SCPFolder) (cmd : string) : M unit :=
  emit (Plink (oid self) cmd) ;;
  outcome (plink_outcome w self cmd).

(** Modelled from the spec: [SCPClient.cancel] is not among the sources; the
    spec says that cancelling sets the cancellation flag and asks the
    underlying transport to abort in-flight I/O. *)
Definition cancel (self : SCPFolder) : M unit :=
  fun st =>
    ({| connections := connections st; next_oid := next_oid st;
        cancelled := oid self :: cancelled st; tmpfiles := tmpfiles st;
        tmp_serial := tmp_serial st;
        trace := (trace st ++ [TransportCancel (oid self)])%list |}, Ok tt).

End Transport.
End SCPClient.

(* ===================================================================== *)
(** ** [core/scpfolder.py] *)
(* ===================================================================== *)

Module scpfolder.
Section Registry.
Context {os_path : OsPath} (w : World).

(** [path.lower() if sys.platform == "win32" else path] *)
Definition platform_case (path : string) : string :=
  if win32 then str_lower path else path.

(** [connection(path)] *)
Definition connection (path : string) : M SCPFolder :=
  fun st =>
    if Py.truthy path then
      match find (fun client => Py.startswith (platform_case path) (root client))
                 (connections st) with
      | Some client => (st, Ok client)
      | None => (st, Raise (ScpNotConnectedError
                              ("No SCP connection for " ++ path ++ "!")))
      end
    else (st, Raise (ScpNotConnectedError
                       ("No SCP connection for " ++ path ++ "!"))).

(** [is_connected(path)] *)
Definition is_connected (path : string) (st : State) : bool :=
  if Py.truthy path then
    existsb (fun client => Py.startswith (platform_case path) (root client))
            (connections st)
  else false.

(** The loop of [root_dir]; [None] is the [False] it returns.  Every turn
    either returns or replaces [path] by its head, so a fuel of one more than
    the length of the file name is never used up on a platform whose [split]
    shortens its argument. *)
Fixpoint root_dir_loop (fuel : nat) (path name : string) : option string :=
  match fuel with
  | O => None
  | S fuel' =>
      if Py.truthy path && Py.truthy name && negb (name =? ".scp") then
        if Py.truthy path && exists_ w (path_join path ".scp") then Some path
        else let (path', name') := path_split path in
             root_dir_loop fuel' path' name'
      else None
  end.

(** [root_dir(file_name)] *)
Definition root_dir (file_name : string) : option string :=
  if Py.truthy file_name
  then root_dir_loop (S (String.length file_name)) file_name "."
  else None.

Definition default {A} (o : option A) (d : A) : A :=
  match o with Some a => a | None => d end.

(** [SCPFolder.__init__(path)]: a new object, with the next free identity. *)
Definition new_SCPFolder (path : string) : M SCPFolder :=
  fun st =>
    match root_dir path with
    | None => (st, Raise (ValueError "Not within a mapped folder"))
    | Some r =>
        match read_mapping w r with
        | None => (st, Raise (OtherError "Exception" "cannot read the mapping"))
        | Some client =>
            ({| connections := connections st; next_oid := S (next_oid st);
                cancelled := cancelled st; tmpfiles := tmpfiles st;
                tmp_serial := tmp_serial st; trace := trace st |},
             Ok {| oid := next_oid st; root := r;
                   host := m_host client;
                   port := default (m_port client) 22;
                   user := default (m_user client) "guest";
                   passwd := m_passwd client;
                   remote_path := default (m_path client) "/" |})
        end
    end.

Definition append_connection (client : SCPFolder) : M unit :=
  fun st =>
    ({| connections := (connections st ++ [client])%list;
        next_oid := next_oid st; cancelled := cancelled st;
        tmpfiles := tmpfiles st; tmp_serial := tmp_serial st;
        trace := trace st |}, Ok tt).

(** [connect(path)]; [None] is the [False] of a failed connection. *)
Definition connect (path : string) : M (option SCPFolder) :=
  try_except
    (client <- connection path ;; ret (Some client))
    (fun e =>
       match e with
       | ScpNotConnectedError _ =>
           Some (try_except
                   (client <- new_SCPFolder (platform_case path) ;;
                    append_connection client ;;
                    ret (Some client))
                   (fun _ => Some (ret None)))
       | _ => None
       end).

(** [connections.remove(client)]: the first element that is [client]. *)
Fixpoint list_remove (client : SCPFolder) (l : list SCPFolder)
  : option (list SCPFolder) :=
  match l with
  | [] => None
  | c :: l' =>
      if (oid c =? oid client)%nat then Some l'
      else match list_remove client l' with
           | Some r => Some (c :: r)
           | None => None
           end
  end.

Definition remove_connection (client : SCPFolder) : M unit :=
  fun st =>
    match list_remove client (connections st) with
    | Some l =>
        ({| connections := l; next_oid := next_oid st;
            cancelled := cancelled st; tmpfiles := tmpfiles st;
            tmp_serial := tmp_serial st; trace := trace st |}, Ok tt)
    | None => (st, Raise (ValueError "list.remove(x): x not in list"))
    end.

(** The [while True] of [disconnect]: every turn removes one session, so the
    number of sessions bounds the turns. *)
Fixpoint disconnect_loop (fuel : nat) (path : string) : M unit :=
  match fuel with
  | O => ret tt
  | S fuel' =>
      client <- connection path ;;
      remove_connection client ;;
      disconnect_loop fuel' path
  end.

(** [disconnect(path)] *)
Definition disconnect (path : string) : M unit :=
  fun st =>
    try_except (disconnect_loop (S (length (connections st))) path)
      (fun e =>
         match e with
         | IndexError _ | ScpNotConnectedError _ => Some (ret tt)
         | _ => None
         end) st.

(** [SCPFolder.to_remote_path(path)] *)
Definition to_remote_path (self : SCPFolder) (path : string) : result string :=
  if path =? root self then Ok (remote_path self)
  else
    match path_relpath path (root self) with
    | Raise e => Raise e
    | Ok rel =>
        let remote_path :=
          Py.replace backslash "/" (path_join (remote_path self) rel) in
        if Py.contains ".." remote_path then Raise (ValueError "Invalid path!")
        else Ok remote_path
    end.

(** [SCPFolder.to_remote_parent(path)] *)
Definition to_remote_parent (self : SCPFolder) (path : string) : result string :=
  if path =? root self
  then Ok (Py.replace backslash "/" (path_dirname (remote_path self)))
  else to_remote_path self (path_dirname path).

(** [SCPFolder.cancel()] *)
Definition cancel (self : SCPFolder) : M unit :=
  SCPClient.cancel self ;;
  raise (ScpAbortError "Aborted by user!").

(** [SCPFolder.remove(path)] *)
Definition remove (self : SCPFolder) (path : string) : M unit :=
  remote <- lift (to_remote_path self path) ;;
  SCPClient.remove w self remote.

(** [SCPFolder.putfile(path)] *)
Definition putfile (self : SCPFolder) (path : string) : M unit :=
  remote <- lift (to_remote_path self path) ;;
  SCPClient.putfile w self path remote None.

(** [SCPFolder.getfile(path)] *)
Definition getfile (self : SCPFolder) (path : string) : M unit :=
  remote <- lift (to_remote_path self path) ;;
  SCPClient.getfile w self remote path None.

End Registry.
End scpfolder.

(* ===================================================================== *)
(** ** [commands.py] *)
(* ===================================================================== *)

Module commands.
Section Commands.
Context {os_path : OsPath} (w : World).

(** [_ScpWindowCommand.ensure_paths(paths)]; no paths is the empty list. *)
Definition ensure_paths (paths : list string) : list string :=
  match paths with
  | _ :: _ => paths
  | [] =>
      match active_file w with
      | Some name => if Py.truthy name && exists_ w name then [name] else []
      | None => []
      end
  end.

(** The [groups] dictionary: sessions are keys by identity, and the entries
    keep the order in which the keys were first inserted. *)
Definition groups : Type := list (SCPFolder * list string).

(** [groups.setdefault(conn, []).append(path)] *)
Fixpoint setdefault_append (g : groups) (conn : SCPFolder) (path : string)
  : groups :=
  match g with
  | [] => [(conn, [path])]
  | (c, ps) :: g' =>
      if (oid c =? oid conn)%nat then (c, (ps ++ [path])%list) :: g'
      else (c, ps) :: setdefault_append g' conn path
  end.

(** The clause [except SCPNotConnectedError: h], with the class imported
    from [core.scpclient]. *)
Definition except_SCPNotConnectedError {A} (h : M A) (e : exn) : option (M A) :=
  match e with
  | SCPNotConnectedError _ => Some h
  | _ => None
  end.

(** The first loop of both executors. *)
Fixpoint group_paths (paths : list string) (g : groups) : M groups :=
  match paths with
  | [] => ret g
  | path :: rest =>
      if dropped path then group_paths rest g
      else
        g' <- try_except
                (conn <- scpfolder.connection path ;;
                 ret (setdefault_append g conn path))
                (except_SCPNotConnectedError (ret g)) ;;
        group_paths rest g'
  end.

(** [template.format(a, b)] where the template is a constant. *)
Definition format2 (template a b : string) : M string :=
  match Py.format template [a; b] with
  | Some s => ret s
  | None => raise (IndexError "Replacement index out of range")
  end.

Definition format1 (template a : string) : M string :=
  match Py.format template [a] with
  | Some s => ret s
  | None => raise (IndexError "Replacement index out of range")
  end.

(** The [except SCPCommandError as err] clause of both pipelines. *)
Definition on_command_error (failed : string) (e : exn) : option (M unit) :=
  match e with
  | SCPCommandError err =>
      Some (emit (Print (Py.strip err)) ;; status_message failed)
  | _ => None
  end.

End Commands.

Module ScpCancelCommand.
Section Cancel.
Context {os_path : OsPath} (w : World).

(** The loop of [run]. *)
Fixpoint cancel_paths (paths : list string) : M unit :=
  match paths with
  | [] => ret tt
  | path :: rest =>
      try_except
        (conn <- scpfolder.connection path ;; scpfolder.cancel conn)
        (except_SCPNotConnectedError (ret tt)) ;;
      cancel_paths rest
  end.

(** [ScpCancelCommand.run(paths)] *)
Definition run (paths : list string) : M unit :=
  emit TaskCancelAll ;;
  cancel_paths (ensure_paths w paths) ;;
  status_message "SCP: Aborted!".

End Cancel.
End ScpCancelCommand.

Module ScpGetCommand.
Section Get.
Context {os_path : OsPath} (w : World).

Definition progress (pct : nat) : M unit :=
  msg <- format1 "SCP: downloading [{}%] ..." (Py.str_of_nat pct) ;;
  status_message msg.

(** The [with tarfile.open(local_tmp, "r")] block: the directory is made,
    entered, and the archive extracted there, all of it.  Entering the
    directory changes the current directory of the process, which
    [os.path.relpath] reads for relative paths only ([relpath_absolute]);
    the platform's [path_relpath] is the function for the absolute paths
    that the editor hands to the commands. *)
Definition extract (local_tmp local_dir : string) : M unit :=
  match extract_outcome w local_tmp local_dir with
  | None => emit (TarExtract local_tmp local_dir)
  | Some e => raise e
  end.

(** The [try ... except SCPCommandError ... finally] statement of
    [gettree]. *)
Definition get_try (conn : SCPFolder) (local_dir remote_dir local_tmp : string)
  : M unit :=
  let remote_tmp := "/tmp/" ++ path_basename local_tmp in
  try_finally
    (try_except
       (status_message "SCP: preparing download ..." ;;
        cmd <- format2 "tar -C {0} -cf {1} ." remote_dir remote_tmp ;;
        SCPClient.plink w conn cmd ;;
        SCPClient.getfile w conn remote_tmp local_tmp (Some progress) ;;
        status_message "SCP: extracting ..." ;;
        extract local_tmp local_dir ;;
        status_message ("SCP: Downloaded " ++ local_dir ++ "!"))
       (on_command_error ("SCP: Failed to download " ++ local_dir ++ "!")))
    (except_pass (SCPClient.remove w conn remote_tmp) ;;
     except_pass (os_remove local_tmp)).

(** [ScpGetCommand.gettree(conn, paths)] *)
Definition gettree (conn : SCPFolder) (paths : list string) : M unit :=
  local_dir <- lift (most w paths) ;;
  remote_dir <- lift (scpfolder.to_remote_path conn local_dir) ;;
  local_tmp <- mkstemp w "scp_" ;;
  get_try conn local_dir remote_dir local_tmp.

(** The body of the second loop of [executor]. *)
Definition get_group (g : SCPFolder * list string) : M unit :=
  let (conn, paths) := g in
  match paths with
  | [p] =>
      if isfile w p then
        scpfolder.getfile w conn p ;;
        status_message ("SCP: Downloaded " ++ p ++ "!")
      else gettree conn paths
  | _ => gettree conn paths
  end.

(** [ScpGetCommand.executor(task, paths)] *)
Definition executor (paths : list string) : M unit :=
  g <- group_paths paths [] ;;
  for_each get_group g.

End Get.
End ScpGetCommand.

Module ScpPutCommand.
Section Put.
Context {os_path : OsPath} (w : World).

Definition progress (pct : nat) : M unit :=
  msg <- format1 "SCP: uploading tarfile [{}%] ..." (Py.str_of_nat pct) ;;
  status_message msg.

(** The loop of [tarfilter] over [('.scp', '.git')], then the ownership. *)
Fixpoint tarfilter_from (names : list string) (tarinfo : TarInfo)
  : option TarInfo :=
  match names with
  | f :: names' =>
      if Py.contains f (path tarinfo) then None
      else tarfilter_from names' tarinfo
  | [] =>
      Some {| path := path tarinfo; uid := 0; gid := 0;
              uname := "root"; gname := "root"; isdir := isdir tarinfo |}
  end.

(** [tarfilter(tarinfo)] *)
Definition tarfilter (tarinfo : TarInfo) : option TarInfo :=
  tarfilter_from DROPPED tarinfo.

(** [TarFile.gettarinfo]: the member name is the archive name with forward
    slashes and without leading ones. *)
Definition gettarinfo (arcname : string) (u g : nat) (un gn : string)
    (d : bool) : TarInfo :=
  {| path := Py.lstrip (fun a => Ascii.eqb a "/") (Py.replace sep "/" arcname);
     uid := u; gid := g; uname := un; gname := gn; isdir := d |}.

(** The loop of [TarFile.add] over the entries of a directory: the first
    exception ends it. *)
Fixpoint add_each {A} (add : A -> result (list TarInfo)) (l : list A)
  : result (list TarInfo) :=
  match l with
  | [] => Ok []
  | child :: l' =>
      match add child with
      | Raise e => Raise e
      | Ok es =>
          match add_each add l' with
          | Raise e => Raise e
          | Ok es' => Ok (es ++ es')%list
          end
      end
  end.

(** [TarFile.add(name, arcname, filter=filter)]: the entries it writes.  A
    filtered-out entry is skipped with everything below it; a directory is
    written before its entries, which are added under
    [os.path.join(arcname, f)]. *)
Fixpoint tar_add (filter : TarInfo -> option TarInfo) (arcname : string)
    (n : Node) {struct n} : result (list TarInfo) :=
  match n with
  | NFile _ u g un gn readable =>
      match filter (gettarinfo arcname u g un gn false) with
      | None => Ok []
      | Some tarinfo =>
          if readable then Ok [tarinfo]
          else Raise (OSError "Permission denied")
      end
  | NDir _ u g un gn children =>
      match filter (gettarinfo arcname u g un gn true) with
      | None => Ok []
      | Some tarinfo =>
          match add_each
                  (fun child =>
                     tar_add filter (path_join arcname (node_name child)) child)
                  children with
          | Raise e => Raise e
          | Ok es => Ok (tarinfo :: es)
          end
      end
  end.

(** One turn of the packing loop: [tar.add(path, arcname=relpath, filter)]. *)
Definition add_path (local_tmp local_dir path : string) : M unit :=
  arcname <- lift (path_relpath path local_dir) ;;
  match lstat w path with
  | None => raise (OSError "No such file or directory")
  | Some n =>
      entries <- lift (tar_add tarfilter arcname n) ;;
      emit (TarAdd local_tmp entries)
  end.

(** The [with tarfile.open(local_tmp, "w")] block: the loop over [paths]. *)
Definition pack (local_tmp local_dir : string) (paths : list string) : M unit :=
  for_each (add_path local_tmp local_dir) paths.

(** The [try ... except SCPCommandError ... finally] statement of
    [puttree]. *)
Definition put_try (conn : SCPFolder) (local_dir remote_dir local_tmp : string)
  : M unit :=
  try_finally
    (try_except
       (let remote_tmp := "/tmp/" ++ path_basename local_tmp in
        SCPClient.putfile w conn local_tmp remote_tmp (Some progress) ;;
        status_message "SCP: extracting uploaded tarfile ..." ;;
        cmd <- format2 "mkdir -p {0}; tar -C {0} -xf {1}; rm {1}"
                       remote_dir remote_tmp ;;
        SCPClient.plink w conn cmd ;;
        status_message ("SCP: Uploaded " ++ local_dir ++ "!"))
       (on_command_error ("SCP: Failed to upload " ++ local_dir ++ "!")))
    (os_remove local_tmp).

(** [ScpPutCommand.puttree(conn, paths)] *)
Definition puttree (conn : SCPFolder) (paths : list string) : M unit :=
  local_dir <- lift (most w paths) ;;
  remote_dir <- lift (scpfolder.to_remote_path conn local_dir) ;;
  local_tmp <- mkstemp w "scp_" ;;
  status_message "SCP: preparing upload ..." ;;
  pack local_tmp local_dir paths ;;
  put_try conn local_dir remote_dir local_tmp.

(** The body of the second loop of [executor]. *)
Definition put_group (g : SCPFolder * list string) : M unit :=
  let (conn, paths) := g in
  match paths with
  | [p] =>
      if isfile w p then
        scpfolder.putfile w conn p ;;
        status_message ("SCP: Uploaded " ++ p ++ "!")
      else puttree conn paths
  | _ => puttree conn paths
  end.

(** [ScpPutCommand.executor(task, paths)] *)
Definition executor (paths : list string) : M unit :=
  g <- group_paths paths [] ;;
  for_each put_group g.

End Put.
End ScpPutCommand.

Module ScpWindowCommand.
Section Window.
Context {os_path : OsPath} (w : World).

(** [_ScpWindowCommand.is_visible(paths)] *)
Definition is_visible (paths : list string) (st : State) : bool :=
  existsb (fun path => scpfolder.is_connected path st) (ensure_paths w paths).

End Window.
End ScpWindowCommand.

Module ScpMapToRemoteCommand.
Section Map.
Context {os_path : OsPath} (w : World).

(** The truth value of [scpfolder.root_dir(path)]: a non-empty string. *)
Definition mapped (path : string) : bool :=
  match scpfolder.root_dir w path with
  | Some r => Py.truthy r
  | None => false
  end.

(** [ScpMapToRemoteCommand.is_visible(paths)] *)
Definition is_visible (paths : list string) : bool :=
  negb (existsb mapped (ensure_paths w paths)).

End Map.
End ScpMapToRemoteCommand.

Module ScpConnectCommand.
Section Connect.
Context {os_path : OsPath} (w : World).

(** [ScpConnectCommand.is_visible(paths)] *)
Definition is_visible (paths : list string) (st : State) : bool :=
  existsb (fun path =>
             ScpMapToRemoteCommand.mapped w path
             && negb (scpfolder.is_connected path st))
          (ensure_paths w paths).

(** [all(scpfolder.connect(path) for path in paths)]: the generator is
    consumed up to the first path whose connection fails. *)
Fixpoint connect_all (paths : list string) : M bool :=
  match paths with
  | [] => ret true
  | path :: rest =>
      client <- scpfolder.connect w path ;;
      match client with
      | Some _ => connect_all rest
      | None => ret false
      end
  end.

End Connect.
End ScpConnectCommand.

Module ScpDisconnectCommand.
Section Disconnect.
Context {os_path : OsPath} (w : World).

(** [ScpDisconnectCommand.run(paths)] *)
Definition run (paths : list string) : M unit :=
  for_each scpfolder.disconnect (ensure_paths w paths) ;;
  status_message "SCP: Disconnected!".

End Disconnect.
End ScpDisconnectCommand.

Module ScpDelCommand.
Section Del.
Context {os_path : OsPath} (w : World).

(** The two [except] clauses of the loop of [executor]. *)
Definition on_error (path : string) (e : exn) : option (M unit) :=
  match e with
  | SCPNotConnectedError _ => Some (ret tt)
  | SCPCommandError err =>
      Some (emit (Print (Py.strip err)) ;;
            status_message ("SCP: Could not delete " ++ path ++ "!"))
  | _ => None
  end.

(** The body of the loop of [executor]. *)
Definition del_path (path : string) : M unit :=
  try_except
    (conn <- scpfolder.connection path ;;
     scpfolder.remove w conn path ;;
     status_message ("SCP: Deleted " ++ path ++ "!"))
    (on_error path).

(** [ScpDelCommand.executor(task, paths)] *)
Definition executor (paths : list string) : M unit :=
  for_each del_path paths.

End Del.
End ScpDelCommand.

End commands.

(* ===================================================================== *)
(** ** Vocabulary of the properties *)
(* ===================================================================== *)

(** The test both lookups apply to a registered session. *)
Definition owns `{OsPath} (path : string) (client : SCPFolder) : bool :=
  Py.startswith (scpfolder.platform_case path) (root client).

(** Every session has a root: [SCPFolder.__init__] raises without one. *)
Definition rooted (st : State) : Prop :=
  Forall (fun client => root client <> "") (connections st).

(** The turns the loop of [root_dir] can still take. *)
Definition turns (path name : string) : nat :=
  match name with
  | EmptyString => 1
  | _ => S (String.length path)
  end.

(** The events of a kind, in the order they happened. *)
Definition sel (kind : event -> bool) (st : State) : list event :=
  filter kind (trace st).

Definition is_plink (e : event) : bool :=
  match e with Plink _ _ => true | _ => false end.

(** Creating a temporary file or writing archive entries into one. *)
Definition is_archive (e : event) : bool :=
  match e with Mkstemp _ | TarAdd _ _ => true | _ => false end.

(** The state after several more events. *)
Definition pushes (evs : list event) (st : State) : State :=
  fold_left (fun s e => push e s) evs st.

(** A computation leaves an observation of the state as it was. *)
Definition preserves {A X : Type} (f : State -> X) (c : M A) : Prop :=
  forall st, f (fst (c st)) = f st.

(** An observation does not see an event. *)
Definition blind {X : Type} (f : State -> X) (e : event) : Prop :=
  forall st, f (push e st) = f st.

(** The name the next [mkstemp] of the pipelines returns, and the remote
    archive that goes with it. *)
Definition next_tmp (w : World) (st : State) : string :=
  tempdir w ++ "/" ++ "scp_" ++ Py.str_of_nat (tmp_serial st).

Definition remote_tmp_of `{OsPath} (w : World) (st : State) : string :=
  "/tmp/" ++ path_basename (next_tmp w st).

(** The state right after that [mkstemp]. *)
Definition created (w : World) (st : State) : State :=
  fst (mkstemp w "scp_" st).

(** An outcome as the result of the call. *)
Definition as_result (o : option exn) : result unit :=
  match o with None => Ok tt | Some e => Raise e end.

(** What an outcome of the transport means for the pipelines: it returned,
    or it raised the [SCPCommandError] that they catch. *)
Definition returns_or_command_error (o : option exn) : Prop :=
  match o with
  | None => True
  | Some (SCPCommandError _) => True
  | Some _ => False
  end.

(** What a pipeline returns when its transport call had outcome [o] and the
    rest of the [try] block gives [rest]: [SCPCommandError] is caught. *)
Definition caught (o : option exn) (rest : result unit) : result unit :=
  match o with
  | None => rest
  | Some (SCPCommandError _) => Ok tt
  | Some e => Raise e
  end.

(** The status lines of the progress callbacks. *)
Definition put_status (pct : nat) : event :=
  Status ("SCP: uploading tarfile [" ++ Py.str_of_nat pct ++ "%] ...").

Definition get_status (pct : nat) : event :=
  Status ("SCP: downloading [" ++ Py.str_of_nat pct ++ "%] ...").

(** The remote commands of the two pipelines. *)
Definition pack_command (dir archive : string) : string :=
  "tar -C " ++ dir ++ " -cf " ++ archive ++ " .".

Definition unpack_command (dir archive : string) : string :=
  "mkdir -p " ++ dir ++ "; tar -C " ++ dir ++ " -xf " ++ archive
  ++ "; rm " ++ archive.

(** An archive entry as [tarfilter] lets it through: none of the dropped
    names occurs in its path, and it belongs to root. *)
Definition neutral (ti : TarInfo) : Prop :=
  dropped (path ti) = false
  /\ uid ti = 0 /\ gid ti = 0 /\ uname ti = "root" /\ gname ti = "root".

(** [neutral] as a test, and an event that writes an entry failing it. *)
Definition neutralb (ti : TarInfo) : bool :=
  negb (dropped (path ti)) && (uid ti =? 0)%nat && (gid ti =? 0)%nat
  && (uname ti =? "root") && (gname ti =? "root").

Definition is_foreign (e : event) : bool :=
  match e with
  | TarAdd _ entries => negb (forallb neutralb entries)
  | _ => false
  end.

(** A path is in one of the groups. *)
Definition grouped (g : commands.groups) (p : string) : Prop :=
  exists conn ps, In (conn, ps) g /\ In p ps.


(** The state with another list of sessions. *)
Definition set_connections (l : list SCPFolder) (st : State) : State :=
  {| connections := l; next_oid := next_oid st; cancelled := cancelled st;
     tmpfiles := tmpfiles st; tmp_serial := tmp_serial st; trace := trace st |}.

(** The sessions that [disconnect(path)] leaves. *)
Definition others `{OsPath} (path : string) (l : list SCPFolder) : list SCPFolder :=
  if Py.truthy path then filter (fun client => negb (owns path client)) l else l.

(** A registry as [connect] and [disconnect] build it: every session has a
    root, a declaration file lies directly under each root, and the sessions
    are different objects, all older than the next one. *)
Definition wf_registry `{OsPath} (w : World) (st : State) : Prop :=
  rooted st
  /\ Forall (fun client => exists_ w (path_join (root client) ".scp") = true)
            (connections st)
  /\ NoDup (map oid (connections st))
  /\ Forall (fun client => oid client < next_oid st) (connections st).

(** The session [SCPFolder.__init__] builds from a root and its decoded
    declaration, as the object number [i]. *)
Definition session_of (i : nat) (r : string) (m : Mapping) : SCPFolder :=
  {| oid := i; root := r; host := m_host m;
     port := scpfolder.default (m_port m) 22;
     user := scpfolder.default (m_user m) "guest";
     passwd := m_passwd m;
     remote_path := scpfolder.default (m_path m) "/" |}.

(** The state after a session has been constructed and appended. *)
Definition registered (client : SCPFolder) (st : State) : State :=
  {| connections := (connections st ++ [client])%list;
     next_oid := S (next_oid st); cancelled := cancelled st;
     tmpfiles := tmpfiles st; tmp_serial := tmp_serial st; trace := trace st |}.

(** A plain path component: a name, with no separator in it, that is
    neither [.] nor [..]. *)
Definition plain (c : string) : Prop :=
  c <> "" /\ Py.contains "/" c = false /\ c <> "." /\ c <> "..".

(** The absolute POSIX path with these components. *)
Definition absolute (comps : list string) : string :=
  "/" ++ String.concat "/" comps.

(** A request to remove a remote file. *)
Definition is_remove (e : event) : bool :=
  match e with ScpRemove _ _ => true | _ => false end.

(** An outcome that the delete command takes in its stride: the call
    returned, or raised one of the two exceptions of its [except] clauses. *)
Definition tolerated (o : option exn) : Prop :=
  match o with
  | None => True
  | Some (SCPCommandError _) => True
  | Some (SCPNotConnectedError _) => True
  | Some _ => False
  end.

(** A path the delete command can work on: the first session owning it
    translates it, and the outcome of the remote removal is tolerated. *)
Definition deletable `{OsPath} (w : World) (l : list SCPFolder) (p : string)
  : Prop :=
  Py.truthy p = true
  /\ exists conn remote,
       find (owns p) l = Some conn
       /\ scpfolder.to_remote_path conn p = Ok remote
       /\ tolerated (remove_outcome w conn remote).

(** The removal the delete command asks for a path. *)
Definition del_request `{OsPath} (l : list SCPFolder) (p : string) : list event :=
  match find (owns p) l with
  | Some conn =>
      match scpfolder.to_remote_path conn p with
      | Ok remote => [ScpRemove (oid conn) remote]
      | Raise _ => []
      end
  | None => []
  end.

(** The paths that the groups hold for the session number [i]. *)
Definition members (g : commands.groups) (i : nat) : list string :=
  flat_map (fun x => if (oid (fst x) =? i)%nat then snd x else []) g.

(** The first session owning a path is the session number [i]. *)
Definition owner_is `{OsPath} (l : list SCPFolder) (i : nat) (p : string) : bool :=
  match find (owns p) l with
  | Some conn => (oid conn =? i)%nat
  | None => false
  end.

(** The sessions of the groups, by number, in the order of the groups. *)
Definition group_ids (g : commands.groups) : list nat :=
  map (fun x => oid (fst x)) g.

(** A line on the status bar, and the creation of a temporary file. *)
Definition is_status (e : event) : bool :=
  match e with Status _ => true | _ => false end.

Definition is_mkstemp (e : event) : bool :=
  match e with Mkstemp _ => true | _ => false end.

(** The last status line of a bulk put whose upload had outcome [o_up] and
    whose remote command had outcome [o_cmd], and of a bulk get, when the
    pipeline ended normally. *)
Definition put_verdict (local_dir : string) (o_up o_cmd : option exn) : string :=
  match o_up, o_cmd with
  | None, None => "SCP: Uploaded " ++ local_dir ++ "!"
  | _, _ => "SCP: Failed to upload " ++ local_dir ++ "!"
  end.

Definition get_verdict (local_dir : string) (o_cmd o_down o_ex : option exn)
  : string :=
  match o_cmd, o_down, o_ex with
  | None, None, None => "SCP: Downloaded " ++ local_dir ++ "!"
  | _, _, _ => "SCP: Failed to download " ++ local_dir ++ "!"
  end.

(** How the loop over the groups goes on after a group that ended with [r]
    in the state [st1]. *)
Definition goes_on (r : result unit) (st1 : State) (rest : M unit)
  : State * result unit :=
  match r with
  | Ok _ => rest st1
  | Raise e => (st1, Raise e)
  end.

(** A transfer of the local file [p] itself, in either direction. *)
Definition moves (p : string) (e : event) : bool :=
  match e with
  | ScpPut _ local _ => local =? p
  | ScpGet _ _ local => local =? p
  | _ => false
  end.

(** A name that [mkstemp] gives to a temporary archive. *)
Definition scratch (w : World) (p : string) : Prop :=
  exists n, p = tempdir w ++ "/" ++ "scp_" ++ Py.str_of_nat n.

(** The events of the steps around a transfer: every event but a transfer
    and the creation of a temporary file. *)
Definition incidental (e : event) : bool :=
  match e with
  | ScpPut _ _ _ | ScpGet _ _ _ | Mkstemp _ => false
  | _ => true
  end.

(** The loop of [root_dir] turn by turn: the values of [path] and [name]
    after [n] more turns that neither returned nor left the loop; whether a
    turn ends the loop, by its condition or by its [return]; and what the
    function answers then. *)
Fixpoint root_walk `{OsPath} (n : nat) (pn : string * string) : string * string :=
  match n with
  | O => pn
  | S n' => root_walk n' (path_split (fst pn))
  end.

Definition root_loops (pn : string * string) : bool :=
  Py.truthy (fst pn) && Py.truthy (snd pn) && negb (snd pn =? ".scp").

Definition root_stops `{OsPath} (w : World) (pn : string * string) : bool :=
  negb (root_loops pn) || exists_ w (path_join (fst pn) ".scp").

Definition root_answer (pn : string * string) : option string :=
  if root_loops pn then Some (fst pn) else None.

(* ===================================================================== *)
(** ** Scenarios *)
(* ===================================================================== *)

(** Concrete sessions and environments on a POSIX host, for the examples. *)
Module Scenario.

Definition posix_root : OsPath := posix "/".

Definition session (i : nat) (r remote : string) : SCPFolder :=
  {| oid := i; root := r; host := "192.168.0.1"; port := 22;
     user := "guest"; passwd := Some "guest"; remote_path := remote |}.

(** The mapping of the end-to-end scenario. *)
Definition proj : SCPFolder := session 0 "/proj" "/home/guest/proj".

(** A second mapping, on another host directory. *)
Definition docs : SCPFolder := session 1 "/docs" "/srv/docs".

(** A mapping whose configured remote path goes through [..]. *)
Definition shared : SCPFolder := session 0 "/proj" "/srv/../www".

Definition registry (l : list SCPFolder) : State :=
  {| connections := l; next_oid := length l; cancelled := [];
     tmpfiles := []; tmp_serial := 0; trace := [] |}.

Definition file (name : string) : Node :=
  NFile name 1000 1000 "alice" "staff" true.

(** [/proj/src]: a repository directory, two files whose names only contain
    [.git] and [.scp], and one plain file. *)
Definition src : Node :=
  NDir "src" 1000 1000 "alice" "staff"
    [NDir ".git" 1000 1000 "alice" "staff" [file "HEAD"];
     file ".gitignore"; file "main.py"; file "notes.scpx"].

Definition local_files : list string :=
  ["/proj/README.md"; "/proj/secret.key"; "/proj/src/main.py"; "/docs/index.md"].

(** A host on which every remote call returns.  [/proj/secret.key] exists
    but cannot be read. *)
Definition host : World := {|
  exists_ := fun p =>
    existsb (String.eqb p)
      ("/proj" :: "/proj/.scp" :: "/proj/src" :: "/docs" :: "/docs/.scp"
       :: local_files);
  isfile := fun p => existsb (String.eqb p) local_files;
  tempdir := "/tmp";
  active_file := None;
  read_mapping := fun r =>
    if r =? "/proj" then
      Some {| m_host := "192.168.0.1"; m_port := None; m_user := None;
              m_passwd := Some "guest"; m_path := Some "/home/guest/proj" |}
    else None;
  most := fun paths =>
    match paths with
    | [] => Raise (ValueError "no paths")
    | p :: _ => if Py.startswith p "/docs" then Ok "/docs" else Ok "/proj"
    end;
  lstat := fun p =>
    if p =? "/proj/src" then Some src
    else if p =? "/proj/README.md" then Some (file "README.md")
    else if p =? "/proj/secret.key"
         then Some (NFile "secret.key" 0 0 "root" "root" false)
    else if p =? "/docs/index.md" then Some (file "index.md")
    else None;
  putfile_outcome := fun _ _ _ => ([50; 100], None);
  getfile_outcome := fun _ _ _ => ([50; 100], None);
  remove_outcome := fun _ _ => None;
  plink_outcome := fun _ _ => None;
  extract_outcome := fun _ _ => None
|}.

(** The same host when every upload through the session of [/proj] fails
    with a command error. *)
Definition offline : World := {|
  exists_ := exists_ host; isfile := isfile host; tempdir := tempdir host;
  active_file := active_file host; read_mapping := read_mapping host;
  most := most host; lstat := lstat host;
  putfile_outcome := fun conn _ _ =>
    if (oid conn =? 0)%nat then ([], Some (SCPCommandError "lost connection"))
    else ([100], None);
  getfile_outcome := getfile_outcome host;
  remove_outcome := remove_outcome host;
  plink_outcome := plink_outcome host;
  extract_outcome := extract_outcome host
|}.

(** The same host when the remote [README.md] of [/proj] cannot be
    removed. *)
Definition readonly : World := {|
  exists_ := exists_ host; isfile := isfile host; tempdir := tempdir host;
  active_file := active_file host; read_mapping := read_mapping host;
  most := most host; lstat := lstat host;
  putfile_outcome := putfile_outcome host;
  getfile_outcome := getfile_outcome host;
  remove_outcome := fun _ remote =>
    if remote =? "/home/guest/proj/README.md"
    then Some (SCPCommandError "rm: Permission denied") else None;
  plink_outcome := plink_outcome host;
  extract_outcome := extract_outcome host
|}.

End Scenario.

(* ===================================================================== *)
(** * Properties *)
(* ===================================================================== *)

(** ** Strings: prefixes, substrings, components *)

Section StringFacts.

Lemma append_nil_r (s : string) : s ++ "" = s.
Proof. induction s; simpl; congruence. Qed.

Lemma append_assoc (a b c : string) : (a ++ b) ++ c = a ++ b ++ c.
Proof. induction a; simpl; congruence. Qed.

Lemma startswith_app (s pre : string) :
  Py.startswith s pre = true <-> exists post, s = pre ++ post.
Proof.
  revert s; induction pre as [|b pre IH]; intros s; simpl.
  - split; [intros _; now exists s | reflexivity].
  - destruct s as [|a s].
    + split; [discriminate | intros [post H]; discriminate].
    + rewrite andb_true_iff, IH. split.
      * intros [Hab [post ->]]. apply Ascii.eqb_eq in Hab. subst. now exists post.
      * intros [post H]. injection H as -> ->. split.
        -- apply Ascii.eqb_refl.
        -- now exists post.
Qed.

Lemma startswith_refl (s : string) : Py.startswith s s = true.
Proof. apply startswith_app. exists "". now rewrite append_nil_r. Qed.

Lemma contains_app (sub s : string) :
  Py.contains sub s = true <-> exists a b, s = a ++ sub ++ b.
Proof.
  induction s as [|x s IH]; simpl.
  - destruct (Py.startswith "" sub) eqn:E.
    + split; [intros _ | reflexivity].
      apply startswith_app in E as [post E]. exists "", post. exact E.
    + split; [discriminate |].
      intros (a & b & H). destruct a; simpl in H.
      * assert (Py.startswith "" sub = true) by (apply startswith_app; now exists b).
        congruence.
      * discriminate.
  - destruct (Py.startswith (String x s) sub) eqn:E.
    + split; [intros _ | reflexivity].
      apply startswith_app in E as [post E]. exists "", post. exact E.
    + rewrite IH. split.
      * intros (a & b & ->). now exists (String x a), b.
      * intros (a & b & H). destruct a as [|y a]; simpl in H.
        -- assert (Py.startswith (String x s) sub = true)
             by (apply startswith_app; now exists b).
           congruence.
        -- injection H as _ ->. now exists a, b.
Qed.

Lemma split_head (sep : ascii) (s : string) :
  exists hd tl rest, Py.split sep s = hd :: tl /\ s = hd ++ rest.
Proof.
  induction s as [|x s (hd & tl & rest & E & Hs)]; simpl.
  - now exists "", [], "".
  - destruct (Ascii.eqb x sep).
    + now exists "", (Py.split sep s), (String x s).
    + rewrite E. exists (String x hd), tl, rest. simpl. now rewrite <- Hs.
Qed.

(** A segment of [s.split(sep)] occurs in [s]. *)
Lemma split_segment (sep : ascii) (c s : string) :
  In c (Py.split sep s) -> exists a b, s = a ++ c ++ b.
Proof.
  induction s as [|x s IH]; simpl.
  - intros [<- | []]. now exists "", "".
  - destruct (Ascii.eqb x sep).
    + intros [<- | H].
      * now exists "", (String x s).
      * destruct (IH H) as (a & b & ->). now exists (String x a), b.
    + destruct (split_head sep s) as (hd & tl & rest & E & Hs).
      rewrite E in *. intros [<- | H].
      * exists "", rest. simpl. now rewrite <- Hs.
      * destruct (IH (or_intror H)) as (a & b & ->). now exists (String x a), b.
Qed.

(** A path that has [c] as a component contains [c] as a substring. *)
Lemma component_contains (c p : string) :
  has_component c p -> Py.contains c p = true.
Proof. intros H. apply contains_app. exact (split_segment _ _ _ H). Qed.

Lemma has_componentb_spec (c p : string) :
  has_componentb c p = true <-> has_component c p.
Proof.
  unfold has_componentb, has_component. rewrite existsb_exists. split.
  - intros (x & Hin & E). apply String.eqb_eq in E. now subst.
  - intros H. exists c. split; [exact H | apply String.eqb_refl].
Qed.

Lemma startswith_truthy (s pre : string) :
  Py.startswith s pre = true -> pre <> "" -> Py.truthy s = true.
Proof. destruct pre; [congruence |]. now destruct s. Qed.

End StringFacts.

(** ** PathMapper: [to_remote_path] *)

Section PathMapper.
Context {os_path : OsPath}.

Lemma to_remote_path_root (m : SCPFolder) :
  scpfolder.to_remote_path m (root m) = Ok (remote_path m).
Proof. unfold scpfolder.to_remote_path. now rewrite String.eqb_refl. Qed.

(** What a path other than the root maps to: the joined path, when it holds
    no two dots in a row. *)
Lemma to_remote_path_below (m : SCPFolder) (p rel : string) :
  p <> root m ->
  path_relpath p (root m) = Ok rel ->
  scpfolder.to_remote_path m p =
    let joined := Py.replace backslash "/" (path_join (remote_path m) rel) in
    if Py.contains ".." joined then Raise (ValueError "Invalid path!")
    else Ok joined.
Proof.
  intros Hp Hrel. unfold scpfolder.to_remote_path.
  apply String.eqb_neq in Hp. now rewrite Hp, Hrel.
Qed.

(** C1 (as amended).  For every mapping [m] and every local path [p] other
    than [m]'s root: a remote path that [to_remote_path] returns holds no
    [..], neither as a substring nor as a segment; and whenever joining the
    relative path onto the remote root gives a path with a [..] segment, the
    call raises [ValueError("Invalid path!")].  For the root itself the
    configured remote path is returned as it is. *)
Theorem to_remote_path_never_dotdot (m : SCPFolder) (p : string)
    (Hp : p <> root m) :
  (forall r, scpfolder.to_remote_path m p = Ok r ->
             Py.contains ".." r = false /\ ~ has_component ".." r)
  /\ (forall rel,
        path_relpath p (root m) = Ok rel ->
        has_component ".." (Py.replace backslash "/" (path_join (remote_path m) rel)) ->
        scpfolder.to_remote_path m p = Raise (ValueError "Invalid path!"))
  /\ scpfolder.to_remote_path m (root m) = Ok (remote_path m).
Proof.
  split; [| split].
  - intros r Hr.
    assert (Py.contains ".." r = false) as Hc.
    { unfold scpfolder.to_remote_path in Hr.
      apply String.eqb_neq in Hp. rewrite Hp in Hr.
      destruct (path_relpath p (root m)) as [rel|e]; [| discriminate].
      destruct (Py.contains ".." _) eqn:E; [discriminate |].
      injection Hr as <-. exact E. }
    split; [exact Hc |].
    intros Hseg. apply component_contains in Hseg. congruence.
  - intros rel Hrel Hseg.
    rewrite (to_remote_path_below m p rel Hp Hrel). cbv zeta.
    now rewrite (component_contains _ _ Hseg).
  - apply to_remote_path_root.
Qed.

End PathMapper.

(** C1, witness: a file below the root of the scenario's mapping. *)
Lemma to_remote_path_never_dotdot_witness :
  "/proj/src/main.py" <> root Scenario.proj
  /\ @scpfolder.to_remote_path Scenario.posix_root Scenario.proj "/proj/src/main.py"
     = Ok "/home/guest/proj/src/main.py"
  /\ ~ has_component ".." "/home/guest/proj/src/main.py".
Proof.
  assert ("/proj/src/main.py" <> root Scenario.proj) as Hp by discriminate.
  split; [exact Hp |].
  split; [reflexivity |].
  destruct (@to_remote_path_never_dotdot Scenario.posix_root Scenario.proj
              "/proj/src/main.py" Hp) as (H & _ & _).
  exact (proj2 (H "/home/guest/proj/src/main.py" eq_refl)).
Defined.

(** C1, counterexample to the claim as stated: the root of a mapping lies
    under that root, and for it [to_remote_path] returns the configured
    remote path unchecked, here one with a [..] segment. *)
Lemma to_remote_path_root_keeps_dotdot :
  Py.startswith "/proj" (root Scenario.shared) = true
  /\ @scpfolder.to_remote_path Scenario.posix_root Scenario.shared "/proj"
     = Ok "/srv/../www"
  /\ has_component ".." "/srv/../www".
Proof.
  split; [reflexivity |]. split; [reflexivity |].
  unfold has_component. simpl. auto.
Qed.

(** ** ConnectionRegistry: [connection], [is_connected], [connect] *)

Section RegistryFacts.
Context {os_path : OsPath}.

Lemma platform_case_truthy (path : string) :
  Py.truthy (scpfolder.platform_case path) = true -> Py.truthy path = true.
Proof.
  unfold scpfolder.platform_case. destruct path; [| reflexivity].
  destruct win32; [now rewrite str_lower_empty | auto].
Qed.

Lemma find_first {A} (f : A -> bool) (l : list A) (x : A) :
  find f l = Some x <->
  exists l1 l2, l = (l1 ++ x :: l2)%list /\ f x = true
                /\ Forall (fun y => f y = false) l1.
Proof.
  induction l as [|a l IH]; simpl.
  - split; [discriminate |]. intros (l1 & l2 & H & _). now destruct l1.
  - destruct (f a) eqn:E.
    + split.
      * intros [= <-]. now exists [], l.
      * intros (l1 & l2 & H & Hx & Hl1). destruct l1 as [|b l1]; simpl in H.
        -- now injection H as ->.
        -- injection H as -> _. inversion Hl1; congruence.
    + rewrite IH. split.
      * intros (l1 & l2 & -> & Hx & Hl1). exists (a :: l1), l2. auto.
      * intros (l1 & l2 & H & Hx & Hl1). destruct l1 as [|b l1]; simpl in H.
        -- injection H as -> _. congruence.
        -- injection H as -> ->. inversion Hl1; subst. now exists l1, l2.
Qed.

Lemma connection_result (path : string) (st : State) :
  scpfolder.connection path st =
    (st, if Py.truthy path then
           match find (owns path) (connections st) with
           | Some client => Ok client
           | None => Raise (ScpNotConnectedError
                              ("No SCP connection for " ++ path ++ "!"))
           end
         else Raise (ScpNotConnectedError
                       ("No SCP connection for " ++ path ++ "!"))).
Proof.
  unfold scpfolder.connection, owns. destruct (Py.truthy path); [| reflexivity].
  now destruct (find _ _).
Qed.

Lemma is_connected_connection (path : string) (st : State) :
  scpfolder.is_connected path st = is_Ok (snd (scpfolder.connection path st)).
Proof.
  rewrite connection_result. unfold scpfolder.is_connected. fold (owns path).
  destruct (Py.truthy path); [| reflexivity]. simpl.
  induction (connections st) as [|c l IH]; simpl; [reflexivity |].
  destruct (owns path c); [reflexivity | exact IH].
Qed.

Lemma connected_connection (path : string) (st : State) :
  scpfolder.is_connected path st = true ->
  exists client, scpfolder.connection path st = (st, Ok client)
                 /\ In client (connections st) /\ owns path client = true.
Proof.
  rewrite is_connected_connection, connection_result. simpl.
  destruct (Py.truthy path); [| discriminate].
  destruct (find _ _) as [c|] eqn:E; [| discriminate].
  intros _. exists c. apply find_some in E. tauto.
Qed.

(** C8.  In a registry whose sessions all have a root, [connection(p)]
    returns exactly the first session, in registration order, whose root is a
    prefix, character by character, of the query: of [p.lower()] when the
    platform is Windows, of [p] as it is otherwise; the roots are compared as
    they were registered.  It raises [ScpNotConnectedError] when there is
    none, and [is_connected(p)] holds exactly when some session passes the
    same test.  Nothing looks at path components: a session rooted at
    [/proj] is the connection of [/project2], and on Windows of every path
    that [lower()] sends to [/project2]; there, two paths with the same
    lower-case form have the same connection. *)
Theorem connection_first_prefix (st : State) (Hroots : rooted st) :
  (forall p client,
     snd (scpfolder.connection p st) = Ok client <->
     exists l1 l2,
       connections st = (l1 ++ client :: l2)%list
       /\ Py.startswith (if win32 then str_lower p else p) (root client) = true
       /\ Forall (fun c =>
                    Py.startswith (if win32 then str_lower p else p) (root c) = false)
                 l1)
  /\ (forall p,
        (forall c, In c (connections st) ->
                   Py.startswith (if win32 then str_lower p else p) (root c) = false) ->
        snd (scpfolder.connection p st)
        = Raise (ScpNotConnectedError ("No SCP connection for " ++ p ++ "!")))
  /\ (forall p,
        scpfolder.is_connected p st = true <->
        exists c, In c (connections st)
                  /\ Py.startswith (if win32 then str_lower p else p) (root c) = true)
  /\ (forall l1 client l2 p,
        connections st = (l1 ++ client :: l2)%list ->
        root client = "/proj" ->
        (if win32 then str_lower p else p) = "/project2" ->
        Forall (fun c => Py.startswith "/project2" (root c) = false) l1 ->
        scpfolder.connection p st = (st, Ok client)
        /\ scpfolder.is_connected p st = true)
  /\ (win32 = true ->
      forall p q client,
        str_lower p = str_lower q ->
        (snd (scpfolder.connection p st) = Ok client
         <-> snd (scpfolder.connection q st) = Ok client))
  /\ (win32 = false ->
      forall client l2,
        connections st = client :: l2 ->
        forall more,
          scpfolder.connection (root client ++ more) st = (st, Ok client)).
Proof.
  assert (forall p c, In c (connections st) -> owns p c = true -> Py.truthy p = true)
    as Htruthy.
  { intros p c Hin Ho. unfold rooted in Hroots. rewrite Forall_forall in Hroots.
    apply platform_case_truthy.
    exact (startswith_truthy _ _ Ho (Hroots c Hin)). }
  assert (forall p client,
     snd (scpfolder.connection p st) = Ok client <->
     exists l1 l2,
       connections st = (l1 ++ client :: l2)%list /\ owns p client = true
       /\ Forall (fun c => owns p c = false) l1) as Hfirst.
  { intros p client. rewrite connection_result. simpl. split.
    - destruct (Py.truthy p); [| discriminate].
      destruct (find _ _) as [c|] eqn:E; [| discriminate].
      intros [= ->]. now apply find_first.
    - intros (l1 & l2 & Hl & Ho & Hl1).
      assert (Py.truthy p = true) as ->.
      { apply (Htruthy p client); [| exact Ho]. rewrite Hl. apply in_elt. }
      assert (find (owns p) (connections st) = Some client) as ->; [| reflexivity].
      apply find_first. now exists l1, l2. }
  split; [exact Hfirst |]. split; [| split; [| split; [| split]]].
  - intros p Hnone. rewrite connection_result. simpl.
    destruct (Py.truthy p); [| reflexivity].
    destruct (find _ _) as [c|] eqn:E; [| reflexivity].
    apply find_some in E as [Hin Ho]. unfold owns, scpfolder.platform_case in Ho.
    rewrite (Hnone c Hin) in Ho. discriminate.
  - intros p. split.
    + intros H. destruct (connected_connection p st H) as (c & _ & Hin & Ho).
      now exists c.
    + intros (c & Hin & Ho). unfold scpfolder.is_connected. fold (owns p).
      rewrite (Htruthy p c Hin Ho). apply existsb_exists. now exists c.
  - intros l1 client l2 p Hl Hroot Hcase Hl1.
    assert (snd (scpfolder.connection p st) = Ok client) as Hc.
    { apply Hfirst. exists l1, l2. unfold owns, scpfolder.platform_case.
      rewrite Hcase, Hroot. auto. }
    split.
    + rewrite connection_result in Hc |- *. f_equal. exact Hc.
    + now rewrite is_connected_connection, Hc.
  - intros Hwin p q client Hpq. rewrite !Hfirst.
    unfold owns, scpfolder.platform_case. rewrite Hwin, Hpq. reflexivity.
  - intros Hposix client l2 Hl more.
    assert (snd (scpfolder.connection (root client ++ more) st) = Ok client) as Hc.
    { apply Hfirst. exists [], l2. split; [exact Hl |]. split; [| constructor].
      unfold owns, scpfolder.platform_case. rewrite Hposix.
      apply startswith_app. now exists more. }
    rewrite connection_result in Hc |- *. f_equal. exact Hc.
Qed.

(** The case conversion of [connect] is the one of [connection]. *)
Lemma connect_connected (w : World) (path : string) (st : State) (client : SCPFolder) :
  scpfolder.connection path st = (st, Ok client) ->
  scpfolder.connect w path st = (st, Ok (Some client)).
Proof.
  intros H. unfold scpfolder.connect, try_except, bind. now rewrite H.
Qed.

(** C6.  For a path that has an active session, [connect(path)] returns that
    session, the one [connection(path)] finds, and leaves the state as it
    was: no session is constructed, nothing is appended to [connections].  A
    second call therefore returns the identical session again. *)
Theorem connect_idempotent (w : World) (path : string) (st : State)
    (Hactive : scpfolder.is_connected path st = true) :
  exists client,
    scpfolder.connection path st = (st, Ok client)
    /\ scpfolder.connect w path st = (st, Ok (Some client))
    /\ scpfolder.connect w path (fst (scpfolder.connect w path st))
       = (st, Ok (Some client)).
Proof.
  destruct (connected_connection path st Hactive) as (client & Hc & _ & _).
  exists client. split; [exact Hc |].
  rewrite (connect_connected w path st client Hc). simpl.
  split; [reflexivity |]. exact (connect_connected w path st client Hc).
Qed.

End RegistryFacts.

(** C8, witness: with [/proj] and [/docs] registered, the unrelated path
    [/project2] is answered by the session rooted at [/proj]. *)
Lemma connection_first_prefix_witness :
  rooted (Scenario.registry [Scenario.proj; Scenario.docs])
  /\ @scpfolder.connection Scenario.posix_root "/project2"
       (Scenario.registry [Scenario.proj; Scenario.docs])
     = (Scenario.registry [Scenario.proj; Scenario.docs], Ok Scenario.proj)
  /\ has_componentb "proj" "/project2" = false.
Proof.
  assert (rooted (Scenario.registry [Scenario.proj; Scenario.docs])) as Hr.
  { repeat constructor; discriminate. }
  split; [exact Hr |]. split; [| reflexivity].
  destruct (@connection_first_prefix Scenario.posix_root _ Hr) as (_ & _ & _ & H & _).
  apply (H [] Scenario.proj [Scenario.docs] "/project2");
    [reflexivity | reflexivity | reflexivity | constructor].
Defined.

(** C6, witness: connecting a file of the already connected [/proj]. *)
Lemma connect_idempotent_witness :
  @scpfolder.is_connected Scenario.posix_root "/proj/src/main.py"
    (Scenario.registry [Scenario.proj]) = true
  /\ exists client,
       @scpfolder.connection Scenario.posix_root "/proj/src/main.py"
         (Scenario.registry [Scenario.proj])
       = (Scenario.registry [Scenario.proj], Ok client)
       /\ @scpfolder.connect Scenario.posix_root Scenario.host "/proj/src/main.py"
            (Scenario.registry [Scenario.proj])
          = (Scenario.registry [Scenario.proj], Ok (Some client))
       /\ @scpfolder.connect Scenario.posix_root Scenario.host "/proj/src/main.py"
            (fst (@scpfolder.connect Scenario.posix_root Scenario.host
                    "/proj/src/main.py" (Scenario.registry [Scenario.proj])))
          = (Scenario.registry [Scenario.proj], Ok (Some client)).
Proof.
  split; [reflexivity |].
  apply (@connect_idempotent Scenario.posix_root Scenario.host "/proj/src/main.py"
           (Scenario.registry [Scenario.proj])).
  reflexivity.
Defined.

(** ** Frame rules of the monad *)

Section Frames.
Context {X : Type} (f : State -> X).

Lemma preserves_ret {A} (a : A) : preserves f (ret a).
Proof. now intros st. Qed.

Lemma preserves_raise {A} (e : exn) : preserves f (@raise A e).
Proof. now intros st. Qed.

Lemma preserves_lift {A} (r : result A) : preserves f (lift r).
Proof. now intros st. Qed.

Lemma preserves_bind {A B} (c : M A) (k : A -> M B) :
  preserves f c -> (forall a, preserves f (k a)) -> preserves f (bind c k).
Proof.
  intros Hc Hk st. unfold bind. specialize (Hc st).
  destruct (c st) as [st1 [a|e]]; simpl in *; [| exact Hc].
  now rewrite Hk.
Qed.

Lemma preserves_try_except {A} (c : M A) (handler : exn -> option (M A)) :
  preserves f c ->
  (forall e h, handler e = Some h -> preserves f h) ->
  preserves f (try_except c handler).
Proof.
  intros Hc Hh st. unfold try_except. specialize (Hc st).
  destruct (c st) as [st1 [a|e]]; simpl in *; [exact Hc |].
  destruct (handler e) as [h|] eqn:E; simpl; [| exact Hc].
  now rewrite (Hh e h E).
Qed.

Lemma preserves_try_finally {A} (c : M A) (fin : M unit) :
  preserves f c -> preserves f fin -> preserves f (try_finally c fin).
Proof.
  intros Hc Hf st. unfold try_finally. specialize (Hc st).
  destruct (c st) as [st1 r]. specialize (Hf st1).
  destruct (fin st1) as [st2 [[]|e]]; simpl in *; congruence.
Qed.

Lemma preserves_except_pass (c : M unit) :
  preserves f c -> preserves f (except_pass c).
Proof.
  intros Hc. apply preserves_try_except; [exact Hc |].
  intros e h [= <-]. apply preserves_ret.
Qed.

Lemma preserves_for_each {A} (g : A -> M unit) (l : list A) :
  (forall a, preserves f (g a)) -> preserves f (for_each g l).
Proof.
  intros Hg. induction l as [|a l IH]; simpl.
  - apply preserves_ret.
  - apply preserves_bind; auto.
Qed.

Lemma preserves_emit (e : event) : blind f e -> preserves f (emit e).
Proof. intros H st. exact (H st). Qed.

Lemma preserves_outcome (o : option exn) : preserves f (SCPClient.outcome o).
Proof. destruct o; [apply preserves_raise | apply preserves_ret]. Qed.

Lemma preserves_format1 (t a : string) : preserves f (commands.format1 t a).
Proof.
  unfold commands.format1.
  destruct (Py.format t [a]); [apply preserves_ret | apply preserves_raise].
Qed.

Lemma preserves_format2 (t a b : string) : preserves f (commands.format2 t a b).
Proof.
  unfold commands.format2.
  destruct (Py.format t [a; b]); [apply preserves_ret | apply preserves_raise].
Qed.

End Frames.

Lemma blind_tmpfiles (e : event) : blind tmpfiles e.
Proof. now intros st. Qed.

Lemma blind_tmp_serial (e : event) : blind tmp_serial e.
Proof. now intros st. Qed.

Lemma blind_connections (e : event) : blind connections e.
Proof. now intros st. Qed.

Lemma sel_push (kind : event -> bool) (e : event) (st : State) :
  sel kind (push e st) = (sel kind st ++ if kind e then [e] else [])%list.
Proof. unfold sel. simpl. rewrite filter_app. simpl. now destruct (kind e). Qed.

Lemma blind_sel (kind : event -> bool) (e : event) :
  kind e = false -> blind (sel kind) e.
Proof. intros H st. rewrite sel_push, H. apply app_nil_r. Qed.

Create HintDb frames.

#[local] Hint Resolve preserves_ret preserves_raise preserves_lift
  preserves_emit preserves_outcome preserves_format1 preserves_format2
  preserves_except_pass blind_tmpfiles blind_tmp_serial blind_connections
  : frames.
#[local] Hint Extern 1 (blind (sel _) _) =>
  (apply blind_sel; reflexivity) : frames.
#[local] Hint Extern 2 (preserves _ (bind _ _)) =>
  (apply preserves_bind; [| intros ?]) : frames.
#[local] Hint Extern 2 (preserves _ (for_each _ _)) =>
  (apply preserves_for_each; intros ?) : frames.
#[local] Hint Extern 2 (preserves _ (try_finally _ _)) =>
  (apply preserves_try_finally) : frames.

Ltac frame := auto 20 with frames.

(** ** What the transport and the pipelines' steps leave untouched *)

Section StepFrames.
Context {os_path : OsPath} (w : World) {X : Type} (f : State -> X).

Lemma preserves_report (cb : option (nat -> M unit)) (pcts : list nat) :
  (forall g n, cb = Some g -> preserves f (g n)) ->
  preserves f (SCPClient.report cb pcts).
Proof.
  intros H. destruct cb as [g|]; simpl; [| apply preserves_ret].
  apply preserves_for_each. intros n. now apply H.
Qed.

Lemma preserves_putfile (self : SCPFolder) (local remote : string)
    (cb : option (nat -> M unit)) :
  blind f (ScpPut (oid self) local remote) ->
  (forall g n, cb = Some g -> preserves f (g n)) ->
  preserves f (SCPClient.putfile w self local remote cb).
Proof.
  intros Hb Hcb. unfold SCPClient.putfile.
  apply preserves_bind; [frame | intros _].
  apply preserves_bind; [now apply preserves_report | intros _]. frame.
Qed.

Lemma preserves_getfile (self : SCPFolder) (remote local : string)
    (cb : option (nat -> M unit)) :
  blind f (ScpGet (oid self) remote local) ->
  (forall g n, cb = Some g -> preserves f (g n)) ->
  preserves f (SCPClient.getfile w self remote local cb).
Proof.
  intros Hb Hcb. unfold SCPClient.getfile.
  apply preserves_bind; [frame | intros _].
  apply preserves_bind; [now apply preserves_report | intros _]. frame.
Qed.

Lemma preserves_remove (self : SCPFolder) (remote : string) :
  blind f (ScpRemove (oid self) remote) ->
  preserves f (SCPClient.remove w self remote).
Proof. intros Hb. unfold SCPClient.remove. frame. Qed.

Lemma preserves_plink (self : SCPFolder) (cmd : string) :
  blind f (Plink (oid self) cmd) ->
  preserves f (SCPClient.plink w self cmd).
Proof. intros Hb. unfold SCPClient.plink. frame. Qed.

Lemma preserves_status (msg : string) :
  blind f (Status msg) -> preserves f (status_message msg).
Proof. intros Hb. unfold status_message. frame. Qed.

Lemma preserves_on_command_error (failed : string) (e : exn) (h : M unit) :
  (forall msg, blind f (Status msg)) -> (forall msg, blind f (Print msg)) ->
  commands.on_command_error failed e = Some h -> preserves f h.
Proof.
  intros Hs Hp. destruct e; try discriminate. intros [= <-].
  apply preserves_bind; [frame | intros _]. now apply preserves_status.
Qed.

Lemma preserves_get_progress (pct : nat) :
  (forall msg, blind f (Status msg)) ->
  preserves f (commands.ScpGetCommand.progress pct).
Proof.
  intros Hs. unfold commands.ScpGetCommand.progress.
  apply preserves_bind; [frame | intros msg]. now apply preserves_status.
Qed.

Lemma preserves_put_progress (pct : nat) :
  (forall msg, blind f (Status msg)) ->
  preserves f (commands.ScpPutCommand.progress pct).
Proof.
  intros Hs. unfold commands.ScpPutCommand.progress.
  apply preserves_bind; [frame | intros msg]. now apply preserves_status.
Qed.

Lemma preserves_extract (local_tmp local_dir : string) :
  blind f (TarExtract local_tmp local_dir) ->
  preserves f (commands.ScpGetCommand.extract w local_tmp local_dir).
Proof.
  intros Hb. unfold commands.ScpGetCommand.extract.
  destruct (extract_outcome w local_tmp local_dir); frame.
Qed.

Lemma preserves_add_path (local_tmp local_dir p : string) :
  (forall es, blind f (TarAdd local_tmp es)) ->
  preserves f (commands.ScpPutCommand.add_path w local_tmp local_dir p).
Proof.
  intros Hb. unfold commands.ScpPutCommand.add_path.
  apply preserves_bind; [frame | intros arcname].
  destruct (lstat w p); [| frame].
  apply preserves_bind; [frame | intros es]. frame.
Qed.

Lemma preserves_scpfolder_putfile (self : SCPFolder) (p : string) :
  (forall remote, blind f (ScpPut (oid self) p remote)) ->
  preserves f (scpfolder.putfile w self p).
Proof.
  intros Hb. unfold scpfolder.putfile.
  apply preserves_bind; [frame | intros remote].
  apply preserves_putfile; [apply Hb | discriminate].
Qed.

Lemma preserves_scpfolder_getfile (self : SCPFolder) (p : string) :
  (forall remote, blind f (ScpGet (oid self) remote p)) ->
  preserves f (scpfolder.getfile w self p).
Proof.
  intros Hb. unfold scpfolder.getfile.
  apply preserves_bind; [frame | intros remote].
  apply preserves_getfile; [apply Hb | discriminate].
Qed.

End StepFrames.

(** [os.remove] changes the files, not the events of another kind. *)
Lemma preserves_os_remove_sel (kind : event -> bool) (file : string) :
  kind (OsRemove file) = false -> preserves (sel kind) (os_remove file).
Proof.
  intros H st. unfold os_remove. destruct (tmp_exists st file); [| reflexivity].
  simpl. unfold sel. simpl. rewrite filter_app. simpl. rewrite H. apply app_nil_r.
Qed.

(** After [os.remove(file)] the file is gone, whether the call returned or
    raised. *)
Lemma os_remove_gone (file : string) (st : State) :
  tmp_exists (fst (os_remove file st)) file = false.
Proof.
  unfold os_remove. destruct (tmp_exists st file) eqn:E; [| exact E].
  simpl. unfold tmp_exists. simpl.
  induction (tmpfiles st) as [|x l IH]; simpl; [reflexivity |].
  destruct (x =? file) eqn:Ex; [exact IH |]. simpl.
  rewrite String.eqb_sym, Ex. exact IH.
Qed.

(** ** The pipelines, seen through one kind of event *)

Section KindFrames.
Context {os_path : OsPath} (w : World) (kind : event -> bool).
Hypothesis quiet : forall e, incidental e = true -> kind e = false.

Lemma quiet_blind (e : event) : incidental e = true -> blind (sel kind) e.
Proof. intros H. apply blind_sel. now apply quiet. Qed.

Lemma put_try_kind (conn : SCPFolder) (ld rd tmp : string) :
  kind (ScpPut (oid conn) tmp ("/tmp/" ++ path_basename tmp)) = false ->
  preserves (sel kind) (commands.ScpPutCommand.put_try w conn ld rd tmp).
Proof.
  intros Hput. unfold commands.ScpPutCommand.put_try.
  apply preserves_try_finally.
  - apply preserves_try_except.
    + apply preserves_bind.
      { apply preserves_putfile; [now apply blind_sel |].
        intros g n [= <-]. apply preserves_put_progress.
        intros msg. now apply quiet_blind. }
      intros _. apply preserves_bind;
        [apply preserves_status; now apply quiet_blind | intros _].
      apply preserves_bind; [apply preserves_format2 | intros cmd].
      apply preserves_bind;
        [apply preserves_plink; now apply quiet_blind | intros _].
      apply preserves_status. now apply quiet_blind.
    + intros e h. apply preserves_on_command_error; intros msg;
        now apply quiet_blind.
  - apply preserves_os_remove_sel. now apply quiet.
Qed.

Lemma pack_kind (tmp ld : string) (paths : list string) :
  preserves (sel kind) (commands.ScpPutCommand.pack w tmp ld paths).
Proof.
  apply preserves_for_each. intros p. apply preserves_add_path.
  intros es. now apply quiet_blind.
Qed.

Lemma get_try_kind (conn : SCPFolder) (ld rd tmp : string) :
  kind (ScpGet (oid conn) ("/tmp/" ++ path_basename tmp) tmp) = false ->
  preserves (sel kind) (commands.ScpGetCommand.get_try w conn ld rd tmp).
Proof.
  intros Hget. unfold commands.ScpGetCommand.get_try.
  apply preserves_try_finally.
  - apply preserves_try_except.
    + apply preserves_bind;
        [apply preserves_status; now apply quiet_blind | intros _].
      apply preserves_bind; [apply preserves_format2 | intros cmd].
      apply preserves_bind;
        [apply preserves_plink; now apply quiet_blind | intros _].
      apply preserves_bind.
      { apply preserves_getfile; [now apply blind_sel |].
        intros g n [= <-]. apply preserves_get_progress.
        intros msg. now apply quiet_blind. }
      intros _. apply preserves_bind;
        [apply preserves_status; now apply quiet_blind | intros _].
      apply preserves_bind;
        [apply preserves_extract; now apply quiet_blind | intros _].
      apply preserves_status. now apply quiet_blind.
    + intros e h. apply preserves_on_command_error; intros msg;
        now apply quiet_blind.
  - apply preserves_bind.
    + apply preserves_except_pass. apply preserves_remove. now apply quiet_blind.
    + intros _. apply preserves_except_pass. apply preserves_os_remove_sel.
      now apply quiet.
Qed.

(** The pipelines after their [mkstemp], started in the state and with the
    name that [mkstemp] gave. *)
Lemma puttree_from_mkstemp (conn : SCPFolder) (paths : list string) (st : State)
    (ld rd : string) :
  most w paths = Ok ld ->
  scpfolder.to_remote_path conn ld = Ok rd ->
  commands.ScpPutCommand.puttree w conn paths st
  = (status_message "SCP: preparing upload ..." ;;
     commands.ScpPutCommand.pack w (next_tmp w st) ld paths ;;
     commands.ScpPutCommand.put_try w conn ld rd (next_tmp w st)) (created w st).
Proof.
  intros Hm Hd. unfold commands.ScpPutCommand.puttree.
  unfold bind at 1, lift. rewrite Hm.
  unfold bind at 1, lift. rewrite Hd.
  unfold bind at 1. reflexivity.
Qed.

Lemma gettree_from_mkstemp (conn : SCPFolder) (paths : list string) (st : State)
    (ld rd : string) :
  most w paths = Ok ld ->
  scpfolder.to_remote_path conn ld = Ok rd ->
  commands.ScpGetCommand.gettree w conn paths st
  = commands.ScpGetCommand.get_try w conn ld rd (next_tmp w st) (created w st).
Proof.
  intros Hm Hd. unfold commands.ScpGetCommand.gettree.
  unfold bind at 1, lift. rewrite Hm.
  unfold bind at 1, lift. rewrite Hd.
  unfold bind at 1. reflexivity.
Qed.

Lemma puttree_kind (conn : SCPFolder) (paths : list string) (st : State)
    (ld rd : string) :
  most w paths = Ok ld ->
  scpfolder.to_remote_path conn ld = Ok rd ->
  kind (ScpPut (oid conn) (next_tmp w st) ("/tmp/" ++ path_basename (next_tmp w st)))
  = false ->
  sel kind (fst (commands.ScpPutCommand.puttree w conn paths st))
  = sel kind (created w st).
Proof.
  intros Hm Hd Hput. rewrite (puttree_from_mkstemp conn paths st ld rd Hm Hd).
  apply (preserves_bind (sel kind));
    [apply preserves_status; now apply quiet_blind | intros _].
  apply preserves_bind; [apply pack_kind | intros _].
  now apply put_try_kind.
Qed.

Lemma gettree_kind (conn : SCPFolder) (paths : list string) (st : State)
    (ld rd : string) :
  most w paths = Ok ld ->
  scpfolder.to_remote_path conn ld = Ok rd ->
  kind (ScpGet (oid conn) ("/tmp/" ++ path_basename (next_tmp w st)) (next_tmp w st))
  = false ->
  sel kind (fst (commands.ScpGetCommand.gettree w conn paths st))
  = sel kind (created w st).
Proof.
  intros Hm Hd Hget. rewrite (gettree_from_mkstemp conn paths st ld rd Hm Hd).
  now apply get_try_kind.
Qed.

End KindFrames.

Lemma created_sel_mkstemp (w : World) (st : State) :
  sel is_mkstemp (created w st)
  = (sel is_mkstemp st ++ [Mkstemp (next_tmp w st)])%list.
Proof. unfold sel. simpl. rewrite filter_app. reflexivity. Qed.

(** ** BulkTransferEngine: the strategy of a group *)

Section Strategy.
Context {os_path : OsPath} (w : World).

Lemma put_single_run (conn : SCPFolder) (p : string) (st : State) :
  isfile w p = true ->
  commands.ScpPutCommand.put_group w (conn, [p]) st =
    match scpfolder.to_remote_path conn p with
    | Raise e => (st, Raise e)
    | Ok remote =>
        match snd (putfile_outcome w conn p remote) with
        | None => (push (Status ("SCP: Uploaded " ++ p ++ "!"))
                     (push (ScpPut (oid conn) p remote) st), Ok tt)
        | Some e => (push (ScpPut (oid conn) p remote) st, Raise e)
        end
    end.
Proof.
  intros Hf. unfold commands.ScpPutCommand.put_group. rewrite Hf.
  unfold scpfolder.putfile, SCPClient.putfile, bind, lift. simpl.
  destruct (scpfolder.to_remote_path conn p) as [remote|e]; [| reflexivity].
  now destruct (snd (putfile_outcome w conn p remote)).
Qed.

Lemma get_single_run (conn : SCPFolder) (p : string) (st : State) :
  isfile w p = true ->
  commands.ScpGetCommand.get_group w (conn, [p]) st =
    match scpfolder.to_remote_path conn p with
    | Raise e => (st, Raise e)
    | Ok remote =>
        match snd (getfile_outcome w conn remote p) with
        | None => (push (Status ("SCP: Downloaded " ++ p ++ "!"))
                     (push (ScpGet (oid conn) remote p) st), Ok tt)
        | Some e => (push (ScpGet (oid conn) remote p) st, Raise e)
        end
    end.
Proof.
  intros Hf. unfold commands.ScpGetCommand.get_group. rewrite Hf.
  unfold scpfolder.getfile, SCPClient.getfile, bind, lift. simpl.
  destruct (scpfolder.to_remote_path conn p) as [remote|e]; [| reflexivity].
  now destruct (snd (getfile_outcome w conn remote p)).
Qed.

(** A group that is not one regular file goes through the pipeline. *)
Lemma bulk_group_run (conn : SCPFolder) (paths : list string) :
  (forall p, paths = [p] -> isfile w p = false) ->
  commands.ScpPutCommand.put_group w (conn, paths)
  = commands.ScpPutCommand.puttree w conn paths
  /\ commands.ScpGetCommand.get_group w (conn, paths)
     = commands.ScpGetCommand.gettree w conn paths.
Proof.
  intros Hnot. unfold commands.ScpPutCommand.put_group,
    commands.ScpGetCommand.get_group.
  destruct paths as [|p [|q rest]]; [auto | | auto].
  now rewrite (Hnot p eq_refl).
Qed.

(** C4.  A group of exactly one path that is a regular file is transferred
    directly: the translation of the path, then one call of the transport
    with the path and its remote counterpart, [putfile] for a put and
    [getfile] for a get, then the status line; nothing else happens, no
    temporary file is created and no archive entry is written.  Every other
    group goes through [puttree] (or [gettree]), which creates the temporary
    archive as soon as the common folder and its remote counterpart are
    known. *)
Theorem single_file_bypasses_archive (conn : SCPFolder) (paths : list string) :
  (forall p, paths = [p] -> isfile w p = true ->
     forall st,
       commands.ScpPutCommand.put_group w (conn, paths) st
       = match scpfolder.to_remote_path conn p with
         | Raise e => (st, Raise e)
         | Ok remote =>
             match snd (putfile_outcome w conn p remote) with
             | None => (push (Status ("SCP: Uploaded " ++ p ++ "!"))
                          (push (ScpPut (oid conn) p remote) st), Ok tt)
             | Some e => (push (ScpPut (oid conn) p remote) st, Raise e)
             end
         end
       /\ commands.ScpGetCommand.get_group w (conn, paths) st
          = match scpfolder.to_remote_path conn p with
            | Raise e => (st, Raise e)
            | Ok remote =>
                match snd (getfile_outcome w conn remote p) with
                | None => (push (Status ("SCP: Downloaded " ++ p ++ "!"))
                             (push (ScpGet (oid conn) remote p) st), Ok tt)
                | Some e => (push (ScpGet (oid conn) remote p) st, Raise e)
                end
            end
       /\ (let st' := fst (commands.ScpPutCommand.put_group w (conn, paths) st) in
           tmpfiles st' = tmpfiles st /\ tmp_serial st' = tmp_serial st
           /\ sel is_archive st' = sel is_archive st)
       /\ (let st' := fst (commands.ScpGetCommand.get_group w (conn, paths) st) in
           tmpfiles st' = tmpfiles st /\ tmp_serial st' = tmp_serial st
           /\ sel is_archive st' = sel is_archive st))
  /\ ((forall p, paths = [p] -> isfile w p = false) ->
      commands.ScpPutCommand.put_group w (conn, paths)
      = commands.ScpPutCommand.puttree w conn paths
      /\ commands.ScpGetCommand.get_group w (conn, paths)
         = commands.ScpGetCommand.gettree w conn paths
      /\ forall st ld rd,
           most w paths = Ok ld ->
           scpfolder.to_remote_path conn ld = Ok rd ->
           sel is_mkstemp (fst (commands.ScpPutCommand.put_group w (conn, paths) st))
           = (sel is_mkstemp st ++ [Mkstemp (next_tmp w st)])%list
           /\ sel is_mkstemp (fst (commands.ScpGetCommand.get_group w (conn, paths) st))
              = (sel is_mkstemp st ++ [Mkstemp (next_tmp w st)])%list).
Proof.
  split.
  - intros p -> Hf st.
    rewrite put_single_run, get_single_run by exact Hf.
    split; [reflexivity |]. split; [reflexivity |].
    destruct (scpfolder.to_remote_path conn p) as [remote|e]; simpl.
    + destruct (snd (putfile_outcome w conn p remote)),
               (snd (getfile_outcome w conn remote p));
        simpl; rewrite ?sel_push; simpl; rewrite ?app_nil_r; auto.
    + auto.
  - intros Hnot. destruct (bulk_group_run conn paths Hnot) as [Hput Hget].
    split; [exact Hput |]. split; [exact Hget |].
    intros st ld rd Hm Hd. rewrite Hput, Hget.
    assert (forall e, incidental e = true -> is_mkstemp e = false) as Hq
      by (intros []; simpl; congruence).
    rewrite (puttree_kind w is_mkstemp Hq conn paths st ld rd Hm Hd eq_refl).
    rewrite (gettree_kind w is_mkstemp Hq conn paths st ld rd Hm Hd eq_refl).
    split; apply created_sel_mkstemp.
Qed.

End Strategy.

(** C4, witness: one regular file is sent directly; a directory and a file
    together go through the archive. *)
Lemma single_file_bypasses_archive_witness :
  @commands.ScpPutCommand.put_group Scenario.posix_root Scenario.host
    (Scenario.proj, ["/proj/README.md"]) (Scenario.registry [Scenario.proj])
  = (pushes [ScpPut 0 "/proj/README.md" "/home/guest/proj/README.md";
             Status "SCP: Uploaded /proj/README.md!"]
       (Scenario.registry [Scenario.proj]), Ok tt)
  /\ @commands.ScpGetCommand.get_group Scenario.posix_root Scenario.host
       (Scenario.proj, ["/proj/README.md"]) (Scenario.registry [Scenario.proj])
     = (pushes [ScpGet 0 "/home/guest/proj/README.md" "/proj/README.md";
                Status "SCP: Downloaded /proj/README.md!"]
          (Scenario.registry [Scenario.proj]), Ok tt)
  /\ @commands.ScpPutCommand.put_group Scenario.posix_root Scenario.host
       (Scenario.proj, ["/proj/src"; "/proj/README.md"])
     = @commands.ScpPutCommand.puttree Scenario.posix_root Scenario.host
         Scenario.proj ["/proj/src"; "/proj/README.md"]
  /\ sel is_mkstemp
       (fst (@commands.ScpPutCommand.put_group Scenario.posix_root Scenario.host
               (Scenario.proj, ["/proj/src"; "/proj/README.md"])
               (Scenario.registry [Scenario.proj])))
     = [Mkstemp "/tmp/scp_0"].
Proof.
  destruct (@single_file_bypasses_archive Scenario.posix_root Scenario.host
              Scenario.proj ["/proj/README.md"]) as (H & _).
  destruct (H "/proj/README.md" eq_refl eq_refl (Scenario.registry [Scenario.proj]))
    as (Hput & Hget & _).
  split; [exact Hput |]. split; [exact Hget |].
  destruct (@single_file_bypasses_archive Scenario.posix_root Scenario.host
              Scenario.proj ["/proj/src"; "/proj/README.md"]) as (_ & H2).
  assert (forall p, ["/proj/src"; "/proj/README.md"] = [p] ->
                    isfile Scenario.host p = false) as Hbulk by discriminate.
  destruct (H2 Hbulk) as (Hp & _ & Hm).
  split; [exact Hp |].
  exact (proj1 (Hm (Scenario.registry [Scenario.proj]) "/proj" "/home/guest/proj"
                  eq_refl eq_refl)).
Defined.

(** ** Running the steps of the pipelines *)

Section Runs.
Context {os_path : OsPath} (w : World).

Lemma tmpfiles_pushes (evs : list event) (st : State) :
  tmpfiles (pushes evs st) = tmpfiles st.
Proof. revert st; induction evs as [|e evs IH]; intros st; simpl; [reflexivity |]. now rewrite IH. Qed.

Lemma trace_pushes (evs : list event) (st : State) :
  trace (pushes evs st) = (trace st ++ evs)%list.
Proof.
  revert st; induction evs as [|e evs IH]; intros st; simpl.
  - now rewrite app_nil_r.
  - rewrite IH. simpl. now rewrite <- app_assoc.
Qed.

Lemma sel_pushes (kind : event -> bool) (evs : list event) (st : State) :
  sel kind (pushes evs st) = (sel kind st ++ filter kind evs)%list.
Proof. unfold sel. now rewrite trace_pushes, filter_app. Qed.

Lemma filter_status (kind : event -> bool) (msgs : list string) :
  (forall msg, kind (Status msg) = false) ->
  filter kind (map Status msgs) = [].
Proof.
  intros H. induction msgs as [|m l IH]; simpl; [reflexivity |]. now rewrite H.
Qed.

Lemma format_pack (d a : string) :
  Py.format "tar -C {0} -cf {1} ." [d; a]
  = Some ("tar -C " ++ d ++ " -cf " ++ a ++ " .").
Proof. reflexivity. Qed.

Lemma format_unpack (d a : string) :
  Py.format "mkdir -p {0}; tar -C {0} -xf {1}; rm {1}" [d; a]
  = Some ("mkdir -p " ++ d ++ "; tar -C " ++ d ++ " -xf " ++ a ++ "; rm " ++ a).
Proof.
  transitivity
    (Some ("mkdir -p " ++ d ++ "; tar -C " ++ d ++ " -xf " ++ a ++ "; rm " ++ a ++ "")).
  - reflexivity.
  - now rewrite append_nil_r.
Qed.

Lemma put_progress_run (pct : nat) (st : State) :
  commands.ScpPutCommand.progress pct st
  = (push (Status ("SCP: uploading tarfile [" ++ Py.str_of_nat pct ++ "%] ...")) st,
     Ok tt).
Proof. reflexivity. Qed.

Lemma get_progress_run (pct : nat) (st : State) :
  commands.ScpGetCommand.progress pct st
  = (push (Status ("SCP: downloading [" ++ Py.str_of_nat pct ++ "%] ...")) st,
     Ok tt).
Proof. reflexivity. Qed.

Lemma for_each_pushes {A} (g : A -> M unit) (ev : A -> event) (l : list A) :
  (forall a st, g a st = (push (ev a) st, Ok tt)) ->
  forall st, for_each g l st = (pushes (map ev l) st, Ok tt).
Proof.
  intros Hg. induction l as [|a l IH]; intros st; simpl; [reflexivity |].
  unfold bind. now rewrite Hg, IH.
Qed.

Lemma outcome_run (o : option exn) (st : State) :
  SCPClient.outcome o st = (st, as_result o).
Proof. now destruct o. Qed.

End Runs.

Section Blocks.
Context {os_path : OsPath} (w : World).

Lemma putfile_progress_run (self : SCPFolder) (local remote : string) (st : State) :
  SCPClient.putfile w self local remote (Some commands.ScpPutCommand.progress) st
  = (pushes (map put_status (fst (putfile_outcome w self local remote)))
       (push (ScpPut (oid self) local remote) st),
     as_result (snd (putfile_outcome w self local remote))).
Proof.
  unfold SCPClient.putfile, bind. simpl.
  rewrite (for_each_pushes _ put_status) by apply put_progress_run.
  now rewrite outcome_run.
Qed.

Lemma getfile_progress_run (self : SCPFolder) (remote local : string) (st : State) :
  SCPClient.getfile w self remote local (Some commands.ScpGetCommand.progress) st
  = (pushes (map get_status (fst (getfile_outcome w self remote local)))
       (push (ScpGet (oid self) remote local) st),
     as_result (snd (getfile_outcome w self remote local))).
Proof.
  unfold SCPClient.getfile, bind. simpl.
  rewrite (for_each_pushes _ get_status) by apply get_progress_run.
  now rewrite outcome_run.
Qed.

Lemma tmp_exists_push (e : event) (st : State) (file : string) :
  tmp_exists (push e st) file = tmp_exists st file.
Proof. reflexivity. Qed.

Lemma tmp_exists_pushes (evs : list event) (st : State) (file : string) :
  tmp_exists (pushes evs st) file = tmp_exists st file.
Proof. unfold tmp_exists. now rewrite tmpfiles_pushes. Qed.

(** [os.remove] of a file that exists returns, and the file is gone. *)
Lemma os_remove_ok (file : string) (st : State) :
  tmp_exists st file = true ->
  exists st', os_remove file st = (st', Ok tt)
              /\ tmp_exists st' file = false
              /\ forall kind, kind (OsRemove file) = false ->
                              sel kind st' = sel kind st.
Proof.
  intros H. pose proof (os_remove_gone file st) as Hg.
  assert (forall kind, kind (OsRemove file) = false ->
            sel kind (fst (os_remove file st)) = sel kind st) as Hs.
  { intros kind Hk. exact (preserves_os_remove_sel kind file Hk st). }
  unfold os_remove in *. rewrite H in *. eauto.
Qed.

End Blocks.

Section TryBlocks.
Context {os_path : OsPath} (w : World).

Lemma bind_run {A B} (c : M A) (k : A -> M B) (st st1 : State) (r : result A) :
  c st = (st1, r) ->
  bind c k st = match r with Ok a => k a st1 | Raise e => (st1, Raise e) end.
Proof. intros H. unfold bind. now rewrite H. Qed.

Lemma status_run (msg : string) (st : State) :
  status_message msg st = (push (Status msg) st, Ok tt).
Proof. reflexivity. Qed.

Lemma plink_run (self : SCPFolder) (cmd : string) (st : State) :
  SCPClient.plink w self cmd st
  = (push (Plink (oid self) cmd) st, as_result (plink_outcome w self cmd)).
Proof. unfold SCPClient.plink, bind. simpl. now rewrite outcome_run. Qed.

Lemma format2_unpack_run (d a : string) (st : State) :
  commands.format2 "mkdir -p {0}; tar -C {0} -xf {1}; rm {1}" d a st
  = (st, Ok (unpack_command d a)).
Proof. unfold commands.format2. now rewrite format_unpack. Qed.

Lemma on_command_error_run (failed : string) (e : exn) (st : State) :
  match commands.on_command_error failed e with
  | Some h => h st
  | None => (st, Raise e)
  end
  = match e with
    | SCPCommandError err =>
        (push (Status failed) (push (Print (Py.strip err)) st), Ok tt)
    | _ => (st, Raise e)
    end.
Proof. now destruct e. Qed.

Lemma put_try_spec (conn : SCPFolder) (ld rd tmp : string) (s : State) :
  tmp_exists s tmp = true ->
  let rtmp := "/tmp/" ++ path_basename tmp in
  let o := snd (putfile_outcome w conn tmp rtmp) in
  let cmd := unpack_command rd rtmp in
  exists s',
    commands.ScpPutCommand.put_try w conn ld rd tmp s
    = (s', caught o (caught (plink_outcome w conn cmd) (Ok tt)))
    /\ tmp_exists s' tmp = false
    /\ sel is_plink s'
       = (sel is_plink s ++ match o with None => [Plink (oid conn) cmd] | Some _ => [] end)%list.
Proof.
  intros Htmp rtmp o cmd.
  set (s1 := pushes (map put_status (fst (putfile_outcome w conn tmp rtmp)))
               (push (ScpPut (oid conn) tmp rtmp) s)).
  assert (tmp_exists s1 tmp = true) as H1
    by (subst s1; now rewrite tmp_exists_pushes, tmp_exists_push).
  assert (sel is_plink s1 = sel is_plink s) as P1.
  { subst s1. rewrite sel_pushes, sel_push. simpl.
    unfold put_status. rewrite <- map_map. rewrite filter_status by reflexivity.
    now rewrite !app_nil_r. }
  assert (exists s2,
            try_except
              (SCPClient.putfile w conn tmp rtmp (Some commands.ScpPutCommand.progress) ;;
               status_message "SCP: extracting uploaded tarfile ..." ;;
               cmd <- commands.format2 "mkdir -p {0}; tar -C {0} -xf {1}; rm {1}" rd rtmp ;;
               SCPClient.plink w conn cmd ;;
               status_message ("SCP: Uploaded " ++ ld ++ "!"))
              (commands.on_command_error ("SCP: Failed to upload " ++ ld ++ "!")) s
            = (s2, caught o (caught (plink_outcome w conn cmd) (Ok tt)))
            /\ tmp_exists s2 tmp = true
            /\ sel is_plink s2
               = (sel is_plink s ++ match o with None => [Plink (oid conn) cmd] | Some _ => [] end)%list)
    as (s2 & Hrun & H2 & P2).
  { unfold try_except.
    rewrite (bind_run _ _ _ _ _ (putfile_progress_run w conn tmp rtmp s)).
    fold s1. fold o. destruct o as [e|]; cbn [as_result].
    - rewrite on_command_error_run.
      destruct e; cbn [caught]; eexists; (split; [reflexivity |]);
        rewrite ?tmp_exists_push, ?sel_push; cbn [is_plink];
        rewrite ?app_nil_r; auto.
    - rewrite (bind_run _ _ _ _ _ (status_run _ s1)).
      rewrite (bind_run _ _ _ _ _ (format2_unpack_run rd rtmp _)).
      rewrite (bind_run _ _ _ _ _ (plink_run conn _ _)). fold cmd.
      destruct (plink_outcome w conn cmd) as [e|]; cbn [as_result].
      + rewrite on_command_error_run.
        destruct e; cbn [caught]; eexists; (split; [reflexivity |]);
          rewrite ?tmp_exists_push, ?sel_push; cbn [is_plink];
          rewrite ?app_nil_r, ?P1; auto.
      + rewrite status_run. cbn [caught]. eexists. split; [reflexivity |].
        rewrite ?tmp_exists_push, ?sel_push; cbn [is_plink].
        rewrite ?app_nil_r, ?P1; auto. }
  destruct (os_remove_ok tmp s2 H2) as (s3 & Hrm & H3 & P3).
  exists s3. unfold commands.ScpPutCommand.put_try, try_finally.
  fold rtmp. cbv zeta. rewrite Hrun, Hrm. split; [reflexivity |].
  split; [exact H3 |]. rewrite P3 by reflexivity. exact P2.
Qed.

Lemma format2_pack_run (d a : string) (st : State) :
  commands.format2 "tar -C {0} -cf {1} ." d a st = (st, Ok (pack_command d a)).
Proof. unfold commands.format2. now rewrite format_pack. Qed.

Lemma extract_run (local_tmp local_dir : string) (st : State) :
  exists st',
    commands.ScpGetCommand.extract w local_tmp local_dir st
    = (st', as_result (extract_outcome w local_tmp local_dir))
    /\ tmpfiles st' = tmpfiles st /\ sel is_plink st' = sel is_plink st.
Proof.
  unfold commands.ScpGetCommand.extract.
  destruct (extract_outcome w local_tmp local_dir); eexists;
    (split; [reflexivity |]); rewrite ?sel_push; simpl; rewrite ?app_nil_r; auto.
Qed.

(** The [finally] of [gettree] always returns, and the local archive is
    gone after it. *)
Lemma get_finally_run (conn : SCPFolder) (rtmp tmp : string) (st : State) :
  exists st',
    (except_pass (SCPClient.remove w conn rtmp) ;; except_pass (os_remove tmp)) st
    = (st', Ok tt)
    /\ tmp_exists st' tmp = false
    /\ sel is_plink st' = sel is_plink st.
Proof.
  assert (exists s1, except_pass (SCPClient.remove w conn rtmp) st = (s1, Ok tt)
                     /\ sel is_plink s1 = sel is_plink st) as (s1 & H1 & P1).
  { unfold except_pass, try_except, SCPClient.remove, bind. simpl.
    rewrite outcome_run. destruct (remove_outcome w conn rtmp); simpl;
      eexists; (split; [reflexivity |]); rewrite sel_push; apply app_nil_r. }
  rewrite (bind_run _ _ _ _ _ H1).
  pose proof (os_remove_gone tmp s1) as Hg.
  pose proof (preserves_os_remove_sel is_plink tmp eq_refl s1) as Hs.
  unfold except_pass, try_except.
  destruct (os_remove tmp s1) as [s2 [[]|e]]; simpl in *;
    eexists; (split; [reflexivity |]); split; congruence.
Qed.

End TryBlocks.

Section Pipelines.
Context {os_path : OsPath} (w : World).

Lemma get_try_spec (conn : SCPFolder) (ld rd tmp : string) (s : State) :
  let rtmp := "/tmp/" ++ path_basename tmp in
  let cmd := pack_command rd rtmp in
  exists s',
    commands.ScpGetCommand.get_try w conn ld rd tmp s
    = (s', caught (plink_outcome w conn cmd)
             (caught (snd (getfile_outcome w conn rtmp tmp))
                (caught (extract_outcome w tmp ld) (Ok tt))))
    /\ tmp_exists s' tmp = false
    /\ sel is_plink s' = (sel is_plink s ++ [Plink (oid conn) cmd])%list.
Proof.
  intros rtmp cmd.
  assert (exists s2,
            try_except
              (status_message "SCP: preparing download ..." ;;
               cmd <- commands.format2 "tar -C {0} -cf {1} ." rd rtmp ;;
               SCPClient.plink w conn cmd ;;
               SCPClient.getfile w conn rtmp tmp (Some commands.ScpGetCommand.progress) ;;
               status_message "SCP: extracting ..." ;;
               commands.ScpGetCommand.extract w tmp ld ;;
               status_message ("SCP: Downloaded " ++ ld ++ "!"))
              (commands.on_command_error ("SCP: Failed to download " ++ ld ++ "!")) s
            = (s2, caught (plink_outcome w conn cmd)
                     (caught (snd (getfile_outcome w conn rtmp tmp))
                        (caught (extract_outcome w tmp ld) (Ok tt))))
            /\ sel is_plink s2 = (sel is_plink s ++ [Plink (oid conn) cmd])%list)
    as (s2 & Hrun & P2).
  { unfold try_except.
    rewrite (bind_run _ _ _ _ _ (status_run _ s)).
    rewrite (bind_run _ _ _ _ _ (format2_pack_run rd rtmp _)).
    rewrite (bind_run _ _ _ _ _ (plink_run w conn _ _)). fold cmd.
    set (s1 := push (Plink (oid conn) cmd) _).
    assert (sel is_plink s1 = (sel is_plink s ++ [Plink (oid conn) cmd])%list) as P1.
    { subst s1. rewrite !sel_push. simpl. now rewrite app_nil_r. }
    destruct (plink_outcome w conn cmd) as [e|]; cbn [as_result].
    - rewrite on_command_error_run.
      destruct e; cbn [caught]; eexists; (split; [reflexivity |]);
        rewrite ?sel_push; cbn [is_plink]; rewrite ?app_nil_r; auto.
    - rewrite (bind_run _ _ _ _ _ (getfile_progress_run w conn rtmp tmp s1)).
      set (s3 := pushes _ (push _ s1)).
      assert (sel is_plink s3 = sel is_plink s1) as P3.
      { subst s3. rewrite sel_pushes, sel_push. simpl.
        unfold get_status. rewrite <- map_map. rewrite filter_status by reflexivity.
        now rewrite !app_nil_r. }
      destruct (snd (getfile_outcome w conn rtmp tmp)) as [e|]; cbn [as_result].
      + rewrite on_command_error_run.
        destruct e; cbn [caught]; eexists; (split; [reflexivity |]);
          rewrite ?sel_push; cbn [is_plink]; rewrite ?app_nil_r; congruence.
      + rewrite (bind_run _ _ _ _ _ (status_run _ s3)).
        destruct (extract_run w tmp ld (push (Status "SCP: extracting ...") s3))
          as (s4 & Hex & _ & P4).
        rewrite sel_push in P4. simpl in P4. rewrite app_nil_r in P4.
        rewrite (bind_run _ _ _ _ _ Hex).
        destruct (extract_outcome w tmp ld) as [e|]; cbn [as_result].
        * rewrite on_command_error_run.
          destruct e; cbn [caught]; eexists; (split; [reflexivity |]);
            rewrite ?sel_push; cbn [is_plink]; rewrite ?app_nil_r; congruence.
        * rewrite status_run. cbn [caught]. eexists. split; [reflexivity |].
          rewrite sel_push. cbn [is_plink]. rewrite app_nil_r. congruence. }
  destruct (get_finally_run w conn rtmp tmp s2) as (s5 & Hfin & H5 & P5).
  exists s5. unfold commands.ScpGetCommand.get_try, try_finally.
  fold rtmp. cbv zeta. rewrite Hrun, Hfin. split; [reflexivity |].
  split; [exact H5 | congruence].
Qed.

Lemma mkstemp_run (st : State) :
  mkstemp w "scp_" st = (created w st, Ok (next_tmp w st)).
Proof. reflexivity. Qed.

Lemma created_exists (st : State) :
  tmp_exists (created w st) (next_tmp w st) = true.
Proof. unfold tmp_exists. simpl. fold (next_tmp w st). now rewrite String.eqb_refl. Qed.

Lemma created_sel (kind : event -> bool) (st : State) :
  (forall file, kind (Mkstemp file) = false) ->
  sel kind (created w st) = sel kind st.
Proof.
  intros H. unfold sel. simpl. rewrite filter_app. simpl. rewrite H. apply app_nil_r.
Qed.

Lemma gettree_run (conn : SCPFolder) (paths : list string) (st : State)
    (ld rd : string) :
  most w paths = Ok ld ->
  scpfolder.to_remote_path conn ld = Ok rd ->
  commands.ScpGetCommand.gettree w conn paths st
  = commands.ScpGetCommand.get_try w conn ld rd (next_tmp w st) (created w st).
Proof.
  intros Hm Ht. unfold commands.ScpGetCommand.gettree, bind, lift.
  now rewrite Hm, Ht, mkstemp_run.
Qed.

Lemma puttree_run (conn : SCPFolder) (paths : list string) (st : State)
    (ld rd : string) :
  most w paths = Ok ld ->
  scpfolder.to_remote_path conn ld = Ok rd ->
  commands.ScpPutCommand.puttree w conn paths st
  = (commands.ScpPutCommand.pack w (next_tmp w st) ld paths ;;
     commands.ScpPutCommand.put_try w conn ld rd (next_tmp w st))
      (push (Status "SCP: preparing upload ...") (created w st)).
Proof.
  intros Hm Ht. unfold commands.ScpPutCommand.puttree.
  unfold bind at 1, lift. rewrite Hm.
  unfold bind at 1, lift. rewrite Ht.
  unfold bind at 1. rewrite mkstemp_run.
  unfold bind at 1. now rewrite status_run.
Qed.

Lemma preserves_pack {X} (f : State -> X) (tmp ld : string) (paths : list string) :
  (forall es, blind f (TarAdd tmp es)) ->
  preserves f (commands.ScpPutCommand.pack w tmp ld paths).
Proof.
  intros H. apply preserves_for_each. intros p. now apply preserves_add_path.
Qed.

(** The state in which [puttree] has packed, or has failed to pack: the
    temporary file is there, and no remote command has been issued. *)
Lemma pack_state (tmp ld : string) (paths : list string) (s : State) :
  exists s' r,
    commands.ScpPutCommand.pack w tmp ld paths s = (s', r)
    /\ tmpfiles s' = tmpfiles s /\ sel is_plink s' = sel is_plink s.
Proof.
  pose proof (preserves_pack tmpfiles tmp ld paths (fun es => blind_tmpfiles _) s) as H1.
  pose proof (preserves_pack (sel is_plink) tmp ld paths
                (fun es => blind_sel is_plink (TarAdd tmp es) eq_refl) s) as H2.
  destruct (commands.ScpPutCommand.pack w tmp ld paths s) as [s' r].
  now exists s', r.
Qed.

End Pipelines.

(** ** BulkTransferEngine: the remote commands *)

Section RemoteCommands.
Context {os_path : OsPath} (w : World).

Lemma gettree_spec (conn : SCPFolder) (paths : list string) (st : State)
    (ld rd : string) :
  most w paths = Ok ld ->
  scpfolder.to_remote_path conn ld = Ok rd ->
  exists st',
    commands.ScpGetCommand.gettree w conn paths st
    = (st', caught (plink_outcome w conn (pack_command rd (remote_tmp_of w st)))
              (caught (snd (getfile_outcome w conn (remote_tmp_of w st) (next_tmp w st)))
                 (caught (extract_outcome w (next_tmp w st) ld) (Ok tt))))
    /\ tmp_exists st' (next_tmp w st) = false
    /\ sel is_plink st'
       = (sel is_plink st
          ++ [Plink (oid conn) (pack_command rd (remote_tmp_of w st))])%list.
Proof.
  intros Hm Ht. rewrite (gettree_run w conn paths st ld rd Hm Ht).
  destruct (get_try_spec w conn ld rd (next_tmp w st) (created w st))
    as (st' & Hrun & Hgone & Hsel).
  exists st'. rewrite created_sel in Hsel by reflexivity. auto.
Qed.

Lemma puttree_spec (conn : SCPFolder) (paths : list string) (st : State)
    (ld rd : string) :
  most w paths = Ok ld ->
  scpfolder.to_remote_path conn ld = Ok rd ->
  (forall st0, snd (commands.ScpPutCommand.pack w (next_tmp w st) ld paths st0) = Ok tt) ->
  exists st',
    commands.ScpPutCommand.puttree w conn paths st
    = (st', caught (snd (putfile_outcome w conn (next_tmp w st) (remote_tmp_of w st)))
              (caught (plink_outcome w conn (unpack_command rd (remote_tmp_of w st)))
                 (Ok tt)))
    /\ tmp_exists st' (next_tmp w st) = false
    /\ sel is_plink st'
       = (sel is_plink st
          ++ match snd (putfile_outcome w conn (next_tmp w st) (remote_tmp_of w st)) with
             | None => [Plink (oid conn) (unpack_command rd (remote_tmp_of w st))]
             | Some _ => []
             end)%list.
Proof.
  intros Hm Ht Hpack. rewrite (puttree_run w conn paths st ld rd Hm Ht).
  set (s0 := push _ (created w st)).
  destruct (pack_state w (next_tmp w st) ld paths s0) as (s1 & r & Hrun & Htmp & Hsel).
  specialize (Hpack s0). rewrite Hrun in Hpack. simpl in Hpack. subst r.
  rewrite (bind_run _ _ _ _ _ Hrun).
  assert (tmp_exists s1 (next_tmp w st) = true) as Hex.
  { unfold tmp_exists. rewrite Htmp. exact (created_exists w st). }
  destruct (put_try_spec w conn ld rd (next_tmp w st) s1 Hex)
    as (st' & Hrun' & Hgone & Hsel').
  exists st'. split; [exact Hrun' |]. split; [exact Hgone |].
  rewrite Hsel', Hsel. subst s0. rewrite sel_push. simpl.
  rewrite app_nil_r, created_sel by reflexivity. reflexivity.
Qed.

(** When packing raises, [puttree] raises the same exception and the
    temporary file stays: the packing loop runs before the [try]. *)
Lemma puttree_pack_failure (conn : SCPFolder) (paths : list string) (st : State)
    (ld rd : string) (e : exn) :
  most w paths = Ok ld ->
  scpfolder.to_remote_path conn ld = Ok rd ->
  (forall st0, snd (commands.ScpPutCommand.pack w (next_tmp w st) ld paths st0) = Raise e) ->
  snd (commands.ScpPutCommand.puttree w conn paths st) = Raise e
  /\ tmp_exists (fst (commands.ScpPutCommand.puttree w conn paths st)) (next_tmp w st)
     = true
  /\ sel is_plink (fst (commands.ScpPutCommand.puttree w conn paths st))
     = sel is_plink st.
Proof.
  intros Hm Ht Hpack. rewrite (puttree_run w conn paths st ld rd Hm Ht).
  set (s0 := push _ (created w st)).
  destruct (pack_state w (next_tmp w st) ld paths s0) as (s1 & r & Hrun & Htmp & Hsel).
  specialize (Hpack s0). rewrite Hrun in Hpack. simpl in Hpack. subst r.
  rewrite (bind_run _ _ _ _ _ Hrun). simpl. split; [reflexivity |]. split.
  - unfold tmp_exists. rewrite Htmp. exact (created_exists w st).
  - rewrite Hsel. subst s0. rewrite sel_push. simpl.
    rewrite app_nil_r, created_sel by reflexivity. reflexivity.
Qed.

(** C5.  With [dir] the remote path of the common root and [archive] the
    remote archive [/tmp/<basename of the local archive>]: the get pipeline
    issues exactly one remote command, [tar -C dir -cf archive .]; the put
    pipeline, once the archive is packed and uploaded, issues exactly one
    remote command, [mkdir -p dir; tar -C dir -xf archive; rm archive], and
    none when the upload raised or packing failed. *)
Theorem remote_command_forms (conn : SCPFolder) (paths : list string)
    (st : State) (ld dir : string)
    (Hmost : most w paths = Ok ld)
    (Hdir : scpfolder.to_remote_path conn ld = Ok dir) :
  let archive := "/tmp/" ++ path_basename (next_tmp w st) in
  sel is_plink (fst (commands.ScpGetCommand.gettree w conn paths st))
  = (sel is_plink st
     ++ [Plink (oid conn) ("tar -C " ++ dir ++ " -cf " ++ archive ++ " .")])%list
  /\ ((forall st0,
         snd (commands.ScpPutCommand.pack w (next_tmp w st) ld paths st0) = Ok tt) ->
      sel is_plink (fst (commands.ScpPutCommand.puttree w conn paths st))
      = (sel is_plink st
         ++ match snd (putfile_outcome w conn (next_tmp w st) archive) with
            | None =>
                [Plink (oid conn)
                   ("mkdir -p " ++ dir ++ "; tar -C " ++ dir ++ " -xf " ++ archive
                    ++ "; rm " ++ archive)]
            | Some _ => []
            end)%list)
  /\ (forall e,
        (forall st0,
           snd (commands.ScpPutCommand.pack w (next_tmp w st) ld paths st0) = Raise e) ->
        sel is_plink (fst (commands.ScpPutCommand.puttree w conn paths st))
        = sel is_plink st).
Proof.
  intros archive. split; [| split].
  - destruct (gettree_spec conn paths st ld dir Hmost Hdir) as (st' & Hrun & _ & Hsel).
    rewrite Hrun. exact Hsel.
  - intros Hpack.
    destruct (puttree_spec conn paths st ld dir Hmost Hdir Hpack)
      as (st' & Hrun & _ & Hsel).
    rewrite Hrun. exact Hsel.
  - intros e Hpack.
    exact (proj2 (proj2 (puttree_pack_failure conn paths st ld dir e Hmost Hdir Hpack))).
Qed.

End RemoteCommands.

(** C5, witness: the end-to-end scenario, uploading and downloading
    [/proj/src] and [/proj/README.md]. *)
Lemma remote_command_forms_witness :
  sel is_plink
    (fst (@commands.ScpGetCommand.gettree Scenario.posix_root Scenario.host
            Scenario.proj ["/proj/src"; "/proj/README.md"]
            (Scenario.registry [Scenario.proj])))
  = [Plink 0 "tar -C /home/guest/proj -cf /tmp/scp_0 ."]
  /\ sel is_plink
       (fst (@commands.ScpPutCommand.puttree Scenario.posix_root Scenario.host
               Scenario.proj ["/proj/src"; "/proj/README.md"]
               (Scenario.registry [Scenario.proj])))
     = [Plink 0 "mkdir -p /home/guest/proj; tar -C /home/guest/proj -xf /tmp/scp_0; rm /tmp/scp_0"].
Proof.
  destruct (@remote_command_forms Scenario.posix_root Scenario.host Scenario.proj
              ["/proj/src"; "/proj/README.md"] (Scenario.registry [Scenario.proj])
              "/proj" "/home/guest/proj" eq_refl eq_refl) as (Hget & Hput & _).
  split; [exact Hget |].
  apply Hput. intros st0. reflexivity.
Defined.

(** ** BulkTransferEngine: failures and the groups that follow *)

Section GroupFailures.
Context {os_path : OsPath} (w : World).

Lemma caught_returns (o : option exn) :
  returns_or_command_error o -> caught o (Ok tt) = Ok tt.
Proof. destruct o as [[]|]; simpl; tauto. Qed.

Lemma for_each_cons_ok {A} (g : A -> M unit) (a : A) (l : list A)
    (st st1 : State) :
  g a st = (st1, Ok tt) -> for_each g (a :: l) st = for_each g l st1.
Proof. intros H. simpl. unfold bind. now rewrite H. Qed.

Lemma for_each_cons_raise {A} (g : A -> M unit) (a : A) (l : list A)
    (st st1 : State) (e : exn) :
  g a st = (st1, Raise e) -> for_each g (a :: l) st = (st1, Raise e).
Proof. intros H. simpl. unfold bind. now rewrite H. Qed.

(** The [try ... except SCPCommandError] of [puttree], step by step. *)
Lemma put_body_run (conn : SCPFolder) (ld rd tmp : string) (s : State) :
  let rtmp := "/tmp/" ++ path_basename tmp in
  let s1 := pushes (map put_status (fst (putfile_outcome w conn tmp rtmp)))
              (push (ScpPut (oid conn) tmp rtmp) s) in
  let s2 := push (Plink (oid conn) (unpack_command rd rtmp))
              (push (Status "SCP: extracting uploaded tarfile ...") s1) in
  let failed := "SCP: Failed to upload " ++ ld ++ "!" in
  try_except
    (SCPClient.putfile w conn tmp rtmp (Some commands.ScpPutCommand.progress) ;;
     status_message "SCP: extracting uploaded tarfile ..." ;;
     cmd <- commands.format2 "mkdir -p {0}; tar -C {0} -xf {1}; rm {1}" rd rtmp ;;
     SCPClient.plink w conn cmd ;;
     status_message ("SCP: Uploaded " ++ ld ++ "!"))
    (commands.on_command_error failed) s
  = match snd (putfile_outcome w conn tmp rtmp) with
    | Some (SCPCommandError err) =>
        (push (Status failed) (push (Print (Py.strip err)) s1), Ok tt)
    | Some e => (s1, Raise e)
    | None =>
        match plink_outcome w conn (unpack_command rd rtmp) with
        | Some (SCPCommandError err) =>
            (push (Status failed) (push (Print (Py.strip err)) s2), Ok tt)
        | Some e => (s2, Raise e)
        | None => (push (Status ("SCP: Uploaded " ++ ld ++ "!")) s2, Ok tt)
        end
    end.
Proof.
  intros rtmp s1 s2 failed. unfold try_except.
  rewrite (bind_run _ _ _ _ _ (putfile_progress_run w conn tmp rtmp s)).
  fold s1. destruct (snd (putfile_outcome w conn tmp rtmp)) as [e|]; cbn [as_result].
  - rewrite on_command_error_run. now destruct e.
  - rewrite (bind_run _ _ _ _ _ (status_run _ s1)).
    rewrite (bind_run _ _ _ _ _ (format2_unpack_run rd rtmp _)).
    rewrite (bind_run _ _ _ _ _ (plink_run w conn _ _)). fold s2.
    destruct (plink_outcome w conn (unpack_command rd rtmp)) as [e|]; cbn [as_result].
    + rewrite on_command_error_run. now destruct e.
    + now rewrite status_run.
Qed.

(** The [try ... except SCPCommandError] of [gettree], step by step. *)
Lemma get_body_run (conn : SCPFolder) (ld rd tmp : string) (s : State) :
  let rtmp := "/tmp/" ++ path_basename tmp in
  let s1 := push (Plink (oid conn) (pack_command rd rtmp))
              (push (Status "SCP: preparing download ...") s) in
  let s2 := pushes (map get_status (fst (getfile_outcome w conn rtmp tmp)))
              (push (ScpGet (oid conn) rtmp tmp) s1) in
  let s3 := push (TarExtract tmp ld) (push (Status "SCP: extracting ...") s2) in
  let failed := "SCP: Failed to download " ++ ld ++ "!" in
  try_except
    (status_message "SCP: preparing download ..." ;;
     cmd <- commands.format2 "tar -C {0} -cf {1} ." rd rtmp ;;
     SCPClient.plink w conn cmd ;;
     SCPClient.getfile w conn rtmp tmp (Some commands.ScpGetCommand.progress) ;;
     status_message "SCP: extracting ..." ;;
     commands.ScpGetCommand.extract w tmp ld ;;
     status_message ("SCP: Downloaded " ++ ld ++ "!"))
    (commands.on_command_error failed) s
  = match plink_outcome w conn (pack_command rd rtmp) with
    | Some (SCPCommandError err) =>
        (push (Status failed) (push (Print (Py.strip err)) s1), Ok tt)
    | Some e => (s1, Raise e)
    | None =>
        match snd (getfile_outcome w conn rtmp tmp) with
        | Some (SCPCommandError err) =>
            (push (Status failed) (push (Print (Py.strip err)) s2), Ok tt)
        | Some e => (s2, Raise e)
        | None =>
            match extract_outcome w tmp ld with
            | Some (SCPCommandError err) =>
                (push (Status failed)
                   (push (Print (Py.strip err))
                      (push (Status "SCP: extracting ...") s2)), Ok tt)
            | Some e => (push (Status "SCP: extracting ...") s2, Raise e)
            | None => (push (Status ("SCP: Downloaded " ++ ld ++ "!")) s3, Ok tt)
            end
        end
    end.
Proof.
  intros rtmp s1 s2 s3 failed. unfold try_except.
  rewrite (bind_run _ _ _ _ _ (status_run _ s)).
  rewrite (bind_run _ _ _ _ _ (format2_pack_run rd rtmp _)).
  rewrite (bind_run _ _ _ _ _ (plink_run w conn _ _)). fold s1.
  destruct (plink_outcome w conn (pack_command rd rtmp)) as [e|]; cbn [as_result].
  - rewrite on_command_error_run. now destruct e.
  - rewrite (bind_run _ _ _ _ _ (getfile_progress_run w conn rtmp tmp s1)). fold s2.
    destruct (snd (getfile_outcome w conn rtmp tmp)) as [e|]; cbn [as_result].
    + rewrite on_command_error_run. now destruct e.
    + rewrite (bind_run _ _ _ _ _ (status_run _ s2)).
      unfold commands.ScpGetCommand.extract, bind at 1.
      destruct (extract_outcome w tmp ld) as [e|].
      * simpl. destruct e; reflexivity.
      * reflexivity.
Qed.

(** The pipeline of a put from packing on: what it answers and, when it
    ends normally, its last status line. *)
Lemma put_try_verdict (conn : SCPFolder) (ld rd tmp : string) (s : State) :
  tmp_exists s tmp = true ->
  let rtmp := "/tmp/" ++ path_basename tmp in
  let o_up := snd (putfile_outcome w conn tmp rtmp) in
  let o_cmd := plink_outcome w conn (unpack_command rd rtmp) in
  exists s',
    commands.ScpPutCommand.put_try w conn ld rd tmp s
    = (s', caught o_up (caught o_cmd (Ok tt)))
    /\ (caught o_up (caught o_cmd (Ok tt)) = Ok tt ->
        exists earlier,
          sel is_status s' = (earlier ++ [Status (put_verdict ld o_up o_cmd)])%list).
Proof.
  intros Htmp rtmp o_up o_cmd.
  pose proof (put_body_run conn ld rd tmp s) as Hbody. cbv zeta in Hbody.
  unfold commands.ScpPutCommand.put_try, try_finally.
  rewrite Hbody. clear Hbody. fold rtmp. fold o_up o_cmd.
  set (s1 := pushes _ (push (ScpPut (oid conn) tmp rtmp) s)).
  assert (tmp_exists s1 tmp = true) as H1
    by (subst s1; now rewrite tmp_exists_pushes, tmp_exists_push).
  assert (forall sb r,
            tmp_exists sb tmp = true ->
            exists s', (let (st2, o) := os_remove tmp sb in
                        match o with
                        | Ok _ => (st2, r)
                        | Raise e => (st2, @Raise unit e)
                        end) = (s', r)
                       /\ sel is_status s' = sel is_status sb) as Hfin.
  { intros sb r Hsb. destruct (os_remove_ok tmp sb Hsb) as (s3 & Hrm & _ & Hsel).
    exists s3. rewrite Hrm. split; [reflexivity | now apply Hsel]. }
  destruct o_up as [[]|]; [.. | destruct o_cmd as [[]|]]; cbn [caught];
    lazymatch goal with
    | |- exists s', (let (st2, o) := os_remove tmp ?sb in _) = (s', ?r) /\ _ =>
        destruct (Hfin sb r H1) as (s' & Hrun & Hsel);
        exists s'; split; [exact Hrun |]
    end;
    try discriminate;
    intros _; rewrite Hsel, !sel_push; cbn [is_status put_verdict];
    rewrite ?app_nil_r; eexists; reflexivity.
Qed.

(** The pipeline of a get after [mkstemp]. *)
Lemma get_try_verdict (conn : SCPFolder) (ld rd tmp : string) (s : State) :
  let rtmp := "/tmp/" ++ path_basename tmp in
  let o_cmd := plink_outcome w conn (pack_command rd rtmp) in
  let o_down := snd (getfile_outcome w conn rtmp tmp) in
  let o_ex := extract_outcome w tmp ld in
  exists s',
    commands.ScpGetCommand.get_try w conn ld rd tmp s
    = (s', caught o_cmd (caught o_down (caught o_ex (Ok tt))))
    /\ (caught o_cmd (caught o_down (caught o_ex (Ok tt))) = Ok tt ->
        exists earlier,
          sel is_status s'
          = (earlier ++ [Status (get_verdict ld o_cmd o_down o_ex)])%list).
Proof.
  intros rtmp o_cmd o_down o_ex.
  pose proof (get_body_run conn ld rd tmp s) as Hbody. cbv zeta in Hbody.
  unfold commands.ScpGetCommand.get_try, try_finally. cbv zeta.
  rewrite Hbody. clear Hbody. fold rtmp. fold o_cmd o_down o_ex.
  assert (forall sb r,
            exists s', (let (st2, o) :=
                          (except_pass (SCPClient.remove w conn rtmp) ;;
                           except_pass (os_remove tmp)) sb in
                        match o with
                        | Ok _ => (st2, r)
                        | Raise e => (st2, @Raise unit e)
                        end) = (s', r)
                       /\ sel is_status s' = sel is_status sb) as Hfin.
  { intros sb r.
    destruct (get_finally_run w conn rtmp tmp sb) as (s3 & Hrun & _ & _).
    assert (sel is_status s3 = sel is_status sb) as Hsel.
    { replace s3 with (fst ((except_pass (SCPClient.remove w conn rtmp) ;;
                             except_pass (os_remove tmp)) sb))
        by now rewrite Hrun.
      apply (preserves_bind (sel is_status)).
      - apply preserves_except_pass. apply preserves_remove.
        now apply blind_sel.
      - intros _. apply preserves_except_pass. now apply preserves_os_remove_sel. }
    exists s3. rewrite Hrun. now split. }
  destruct o_cmd as [[]|]; [.. | destruct o_down as [[]|];
                                   [.. | destruct o_ex as [[]|]]];
    cbn [caught];
    lazymatch goal with
    | |- exists s', (let (st2, o) := _ ?sb in _) = (s', ?r) /\ _ =>
        destruct (Hfin sb r) as (s' & Hrun & Hsel);
        exists s'; split; [exact Hrun |]
    end;
    try discriminate;
    intros _; rewrite Hsel, !sel_push; cbn [is_status get_verdict];
    rewrite ?app_nil_r; eexists; reflexivity.
Qed.

(** C3 (as amended).  The groups are processed one after the other, and
    nothing around the processing of a group catches anything.

    A group that goes through the archive pipeline, once the common folder
    and its remote counterpart are known and (for a put) the archive is
    packed: an [SCPCommandError] of the transfer or of the remote command,
    for a get also of the extraction, is caught inside the pipeline; the
    group then ends normally, its last status line is the failure line
    [SCP: Failed to upload <folder>!] (or [... download ...]), and the
    groups after it are processed.  Any other exception of those steps
    leaves the pipeline and the loop: the groups after it are not
    processed.

    A group of one regular file: whatever the translation of the path or
    the transfer raises, an [SCPCommandError] included, leaves the loop.

    A failure before the pipeline's [try], of the search for the common
    folder, of its translation or of the packing, leaves the loop too. *)
Theorem command_error_keeps_groups_going (conn : SCPFolder)
    (paths : list string) (st : State)
    (rest : list (SCPFolder * list string)) :
  ((forall p, paths = [p] -> isfile w p = false) ->
   forall ld rd,
     most w paths = Ok ld ->
     scpfolder.to_remote_path conn ld = Ok rd ->
     (forall st0,
        snd (commands.ScpPutCommand.pack w (next_tmp w st) ld paths st0) = Ok tt) ->
     let o_up := snd (putfile_outcome w conn (next_tmp w st) (remote_tmp_of w st)) in
     let o_cmd := plink_outcome w conn (unpack_command rd (remote_tmp_of w st)) in
     exists st1,
       commands.ScpPutCommand.put_group w (conn, paths) st
       = (st1, caught o_up (caught o_cmd (Ok tt)))
       /\ (caught o_up (caught o_cmd (Ok tt)) = Ok tt ->
           exists earlier,
             sel is_status st1
             = (earlier ++ [Status (put_verdict ld o_up o_cmd)])%list)
       /\ for_each (commands.ScpPutCommand.put_group w) ((conn, paths) :: rest) st
          = goes_on (caught o_up (caught o_cmd (Ok tt))) st1
              (for_each (commands.ScpPutCommand.put_group w) rest))
  /\ ((forall p, paths = [p] -> isfile w p = false) ->
      forall ld rd,
        most w paths = Ok ld ->
        scpfolder.to_remote_path conn ld = Ok rd ->
        let o_cmd := plink_outcome w conn (pack_command rd (remote_tmp_of w st)) in
        let o_down :=
          snd (getfile_outcome w conn (remote_tmp_of w st) (next_tmp w st)) in
        let o_ex := extract_outcome w (next_tmp w st) ld in
        exists st1,
          commands.ScpGetCommand.get_group w (conn, paths) st
          = (st1, caught o_cmd (caught o_down (caught o_ex (Ok tt))))
          /\ (caught o_cmd (caught o_down (caught o_ex (Ok tt))) = Ok tt ->
              exists earlier,
                sel is_status st1
                = (earlier ++ [Status (get_verdict ld o_cmd o_down o_ex)])%list)
          /\ for_each (commands.ScpGetCommand.get_group w) ((conn, paths) :: rest) st
             = goes_on (caught o_cmd (caught o_down (caught o_ex (Ok tt)))) st1
                 (for_each (commands.ScpGetCommand.get_group w) rest))
  /\ (forall p, paths = [p] -> isfile w p = true ->
        for_each (commands.ScpPutCommand.put_group w) ((conn, paths) :: rest) st
        = match scpfolder.to_remote_path conn p with
          | Raise e => (st, Raise e)
          | Ok remote =>
              match snd (putfile_outcome w conn p remote) with
              | None =>
                  for_each (commands.ScpPutCommand.put_group w) rest
                    (push (Status ("SCP: Uploaded " ++ p ++ "!"))
                       (push (ScpPut (oid conn) p remote) st))
              | Some e => (push (ScpPut (oid conn) p remote) st, Raise e)
              end
          end
        /\ for_each (commands.ScpGetCommand.get_group w) ((conn, paths) :: rest) st
           = match scpfolder.to_remote_path conn p with
             | Raise e => (st, Raise e)
             | Ok remote =>
                 match snd (getfile_outcome w conn remote p) with
                 | None =>
                     for_each (commands.ScpGetCommand.get_group w) rest
                       (push (Status ("SCP: Downloaded " ++ p ++ "!"))
                          (push (ScpGet (oid conn) remote p) st))
                 | Some e => (push (ScpGet (oid conn) remote p) st, Raise e)
                 end
             end)
  /\ ((forall p, paths = [p] -> isfile w p = false) ->
      (forall e,
         most w paths = Raise e ->
         for_each (commands.ScpPutCommand.put_group w) ((conn, paths) :: rest) st
         = (st, Raise e)
         /\ for_each (commands.ScpGetCommand.get_group w) ((conn, paths) :: rest) st
            = (st, Raise e))
      /\ (forall ld e,
            most w paths = Ok ld ->
            scpfolder.to_remote_path conn ld = Raise e ->
            for_each (commands.ScpPutCommand.put_group w) ((conn, paths) :: rest) st
            = (st, Raise e)
            /\ for_each (commands.ScpGetCommand.get_group w) ((conn, paths) :: rest) st
               = (st, Raise e))
      /\ (forall ld rd e,
            most w paths = Ok ld ->
            scpfolder.to_remote_path conn ld = Ok rd ->
            (forall st0,
               snd (commands.ScpPutCommand.pack w (next_tmp w st) ld paths st0)
               = Raise e) ->
            for_each (commands.ScpPutCommand.put_group w) ((conn, paths) :: rest) st
            = (fst (commands.ScpPutCommand.put_group w (conn, paths) st), Raise e))).
Proof.
  assert (forall r st1,
            commands.ScpPutCommand.put_group w (conn, paths) st = (st1, r) ->
            for_each (commands.ScpPutCommand.put_group w) ((conn, paths) :: rest) st
            = goes_on r st1 (for_each (commands.ScpPutCommand.put_group w) rest))
    as Hput_step.
  { intros r st1 H. cbn [for_each]. unfold bind at 1. rewrite H.
    now destruct r as [[]|]. }
  assert (forall r st1,
            commands.ScpGetCommand.get_group w (conn, paths) st = (st1, r) ->
            for_each (commands.ScpGetCommand.get_group w) ((conn, paths) :: rest) st
            = goes_on r st1 (for_each (commands.ScpGetCommand.get_group w) rest))
    as Hget_step.
  { intros r st1 H. cbn [for_each]. unfold bind at 1. rewrite H.
    now destruct r as [[]|]. }
  split; [| split; [| split]].
  - intros Hbulk ld rd Hmost Hdir Hpack o_up o_cmd.
    destruct (bulk_group_run w conn paths Hbulk) as (Hput & _).
    assert (exists st1,
              commands.ScpPutCommand.puttree w conn paths st
              = (st1, caught o_up (caught o_cmd (Ok tt)))
              /\ (caught o_up (caught o_cmd (Ok tt)) = Ok tt ->
                  exists earlier,
                    sel is_status st1
                    = (earlier ++ [Status (put_verdict ld o_up o_cmd)])%list))
      as (st1 & Hrun & Hverdict).
    { rewrite (puttree_run w conn paths st ld rd Hmost Hdir).
      set (s0 := push _ (created w st)).
      destruct (pack_state w (next_tmp w st) ld paths s0)
        as (s1 & r & Hrun & Htmp & _).
      specialize (Hpack s0). rewrite Hrun in Hpack. simpl in Hpack. subst r.
      rewrite (bind_run _ _ _ _ _ Hrun).
      apply (put_try_verdict conn ld rd (next_tmp w st) s1).
      unfold tmp_exists. rewrite Htmp. exact (created_exists w st). }
    exists st1. rewrite Hput. split; [exact Hrun |]. split; [exact Hverdict |].
    apply Hput_step. now rewrite Hput.
  - intros Hbulk ld rd Hmost Hdir o_cmd o_down o_ex.
    destruct (bulk_group_run w conn paths Hbulk) as (_ & Hget).
    destruct (get_try_verdict conn ld rd (next_tmp w st) (created w st))
      as (st1 & Hrun & Hverdict).
    rewrite <- (gettree_run w conn paths st ld rd Hmost Hdir) in Hrun.
    exists st1. rewrite Hget. split; [exact Hrun |]. split; [exact Hverdict |].
    apply Hget_step. now rewrite Hget.
  - intros p Hp Hfile. split.
    + pose proof (put_single_run w conn p st Hfile) as H. rewrite <- Hp in H.
      destruct (scpfolder.to_remote_path conn p) as [remote|e];
        [| now rewrite (Hput_step _ _ H)].
      destruct (snd (putfile_outcome w conn p remote));
        now rewrite (Hput_step _ _ H).
    + pose proof (get_single_run w conn p st Hfile) as H. rewrite <- Hp in H.
      destruct (scpfolder.to_remote_path conn p) as [remote|e];
        [| now rewrite (Hget_step _ _ H)].
      destruct (snd (getfile_outcome w conn remote p));
        now rewrite (Hget_step _ _ H).
  - intros Hbulk. destruct (bulk_group_run w conn paths Hbulk) as (Hput & Hget).
    split; [| split].
    + intros e Hmost. split.
      * rewrite (Hput_step (Raise e) st); [reflexivity |].
        rewrite Hput. unfold commands.ScpPutCommand.puttree, bind at 1, lift.
        now rewrite Hmost.
      * rewrite (Hget_step (Raise e) st); [reflexivity |].
        rewrite Hget. unfold commands.ScpGetCommand.gettree, bind at 1, lift.
        now rewrite Hmost.
    + intros ld e Hmost Hdir. split.
      * rewrite (Hput_step (Raise e) st); [reflexivity |].
        rewrite Hput. unfold commands.ScpPutCommand.puttree.
        unfold bind at 1, lift. rewrite Hmost.
        unfold bind at 1, lift. now rewrite Hdir.
      * rewrite (Hget_step (Raise e) st); [reflexivity |].
        rewrite Hget. unfold commands.ScpGetCommand.gettree.
        unfold bind at 1, lift. rewrite Hmost.
        unfold bind at 1, lift. now rewrite Hdir.
    + intros ld rd e Hmost Hdir Hpack.
      destruct (puttree_pack_failure w conn paths st ld rd e Hmost Hdir Hpack)
        as (Hr & _).
      rewrite <- Hput in Hr.
      rewrite (Hput_step _ _ (surjective_pairing _)), Hr. reflexivity.
Qed.

End GroupFailures.

(** C3, witness: the upload of the archive of [/proj] fails with a command
    error; the group ends normally with the failure line, and the group of
    [/docs] is processed. *)
Lemma command_error_keeps_groups_going_witness :
  exists st1,
    @commands.ScpPutCommand.put_group Scenario.posix_root Scenario.offline
      (Scenario.proj, ["/proj/src"; "/proj/README.md"])
      (Scenario.registry [Scenario.proj; Scenario.docs]) = (st1, Ok tt)
    /\ (exists earlier,
          sel is_status st1
          = (earlier ++ [Status "SCP: Failed to upload /proj!"])%list)
    /\ for_each (@commands.ScpPutCommand.put_group Scenario.posix_root Scenario.offline)
         [(Scenario.proj, ["/proj/src"; "/proj/README.md"]);
          (Scenario.docs, ["/docs/index.md"])]
         (Scenario.registry [Scenario.proj; Scenario.docs])
       = for_each (@commands.ScpPutCommand.put_group Scenario.posix_root Scenario.offline)
           [(Scenario.docs, ["/docs/index.md"])] st1.
Proof.
  assert (forall p, ["/proj/src"; "/proj/README.md"] = [p] ->
                    isfile Scenario.offline p = false) as Hbulk by discriminate.
  destruct (@command_error_keeps_groups_going Scenario.posix_root Scenario.offline
              Scenario.proj ["/proj/src"; "/proj/README.md"]
              (Scenario.registry [Scenario.proj; Scenario.docs])
              [(Scenario.docs, ["/docs/index.md"])]) as (Hput & _).
  destruct (Hput Hbulk "/proj" "/home/guest/proj" eq_refl eq_refl
              (fun _ => eq_refl)) as (st1 & Hrun & Hverdict & Hloop).
  exists st1. split; [exact Hrun |]. split; [exact (Hverdict eq_refl) | exact Hloop].
Defined.

(** C3, counterexample to the claim as stated: two groups of one file each;
    the upload of the first raises, the exception leaves the executor, and
    the file of the second group is never sent. *)
Lemma failed_group_stops_executor :
  snd (@commands.group_paths Scenario.posix_root
         ["/proj/README.md"; "/docs/index.md"] []
         (Scenario.registry [Scenario.proj; Scenario.docs]))
  = Ok [(Scenario.proj, ["/proj/README.md"]); (Scenario.docs, ["/docs/index.md"])]
  /\ snd (@commands.ScpPutCommand.executor Scenario.posix_root Scenario.offline
            ["/proj/README.md"; "/docs/index.md"]
            (Scenario.registry [Scenario.proj; Scenario.docs]))
     = Raise (SCPCommandError "lost connection")
  /\ trace (fst (@commands.ScpPutCommand.executor Scenario.posix_root Scenario.offline
                   ["/proj/README.md"; "/docs/index.md"]
                   (Scenario.registry [Scenario.proj; Scenario.docs])))
     = [ScpPut 0 "/proj/README.md" "/home/guest/proj/README.md"].
Proof. repeat split; reflexivity. Qed.

(** ** BulkTransferEngine: the local archive *)

Section Cleanup.
Context {os_path : OsPath} (w : World).

(** After [gettree] the temporary file it created is gone, whatever
    happened in between. *)
Lemma gettree_removes_archive (conn : SCPFolder) (paths : list string)
    (st : State) (ld rd : string) :
  most w paths = Ok ld ->
  scpfolder.to_remote_path conn ld = Ok rd ->
  tmp_exists (fst (commands.ScpGetCommand.gettree w conn paths st)) (next_tmp w st)
  = false.
Proof.
  intros Hm Ht.
  destruct (gettree_spec w conn paths st ld rd Hm Ht) as (st' & Hrun & Hgone & _).
  now rewrite Hrun.
Qed.

(** After [puttree] the temporary file is gone, provided packing returned. *)
Lemma puttree_removes_archive (conn : SCPFolder) (paths : list string)
    (st : State) (ld rd : string) :
  most w paths = Ok ld ->
  scpfolder.to_remote_path conn ld = Ok rd ->
  (forall st0, snd (commands.ScpPutCommand.pack w (next_tmp w st) ld paths st0) = Ok tt) ->
  tmp_exists (fst (commands.ScpPutCommand.puttree w conn paths st)) (next_tmp w st)
  = false.
Proof.
  intros Hm Ht Hpack.
  destruct (puttree_spec w conn paths st ld rd Hm Ht Hpack) as (st' & Hrun & Hgone & _).
  now rewrite Hrun.
Qed.

End Cleanup.

(** C2, the failing input: a put of two files of [/proj], one of which
    cannot be read.  Packing raises before the [try] of [puttree] is entered,
    so its [finally] never runs: the call ends with the exception and the
    temporary archive it created is still there. *)
Lemma puttree_leaves_archive_when_packing_fails :
  snd (@commands.ScpPutCommand.executor Scenario.posix_root Scenario.host
         ["/proj/README.md"; "/proj/secret.key"]
         (Scenario.registry [Scenario.proj]))
  = Raise (OSError "Permission denied")
  /\ trace (fst (@commands.ScpPutCommand.executor Scenario.posix_root Scenario.host
                   ["/proj/README.md"; "/proj/secret.key"]
                   (Scenario.registry [Scenario.proj])))
     = [Mkstemp "/tmp/scp_0"; Status "SCP: preparing upload ...";
        TarAdd "/tmp/scp_0"
          [{| path := "README.md"; uid := 0; gid := 0; uname := "root";
              gname := "root"; isdir := false |}]]
  /\ tmp_exists
       (fst (@commands.ScpPutCommand.executor Scenario.posix_root Scenario.host
               ["/proj/README.md"; "/proj/secret.key"]
               (Scenario.registry [Scenario.proj])))
       "/tmp/scp_0" = true.
Proof. repeat split; reflexivity. Qed.

(** ** BulkTransferEngine: what is packed and what is dropped *)

Section Filter.
Context {os_path : OsPath}.

Lemma dropped_iff (p : string) :
  dropped p = true <-> Py.contains ".scp" p = true \/ Py.contains ".git" p = true.
Proof.
  unfold dropped, DROPPED. simpl. rewrite orb_false_r. apply orb_true_iff.
Qed.

Lemma tarfilter_dropped (ti : TarInfo) :
  commands.ScpPutCommand.tarfilter ti
  = if dropped (path ti) then None
    else Some {| path := path ti; uid := 0; gid := 0; uname := "root";
                 gname := "root"; isdir := isdir ti |}.
Proof.
  unfold commands.ScpPutCommand.tarfilter, dropped, DROPPED. simpl.
  destruct (Py.contains ".scp" (path ti)); [reflexivity |].
  now destruct (Py.contains ".git" (path ti)).
Qed.

Lemma tarfilter_neutral (ti ti' : TarInfo) :
  commands.ScpPutCommand.tarfilter ti = Some ti' ->
  path ti' = path ti /\ isdir ti' = isdir ti /\ neutral ti'.
Proof.
  rewrite tarfilter_dropped. destruct (dropped (path ti)) eqn:E; [discriminate |].
  intros [= <-]. unfold neutral. simpl. repeat split; auto.
Qed.

Lemma tar_add_filtered (filter : TarInfo -> option TarInfo) (n : Node) :
  forall arcname entries,
    commands.ScpPutCommand.tar_add filter arcname n = Ok entries ->
    Forall (fun ti => exists ti0, filter ti0 = Some ti) entries.
Proof.
  induction n as [name u g un gn readable | name u g un gn children IH];
    intros arcname entries; simpl.
  - destruct (filter _) as [ti|] eqn:E.
    + destruct readable; [| discriminate]. intros [= <-]. repeat constructor. eauto.
    + intros [= <-]. constructor.
  - destruct (filter _) as [ti|] eqn:E.
    + assert (forall es,
                commands.ScpPutCommand.add_each
                  (fun child => commands.ScpPutCommand.tar_add filter
                                  (path_join arcname (node_name child)) child)
                  children = Ok es ->
                Forall (fun ti => exists ti0, filter ti0 = Some ti) es) as Hch.
      { clear E. induction IH as [|child Hchild cs Hcs IHcs]; simpl; intros es.
        - intros [= <-]. constructor.
        - destruct (commands.ScpPutCommand.tar_add filter _ child) as [es1|] eqn:E1;
            [| discriminate].
          destruct (commands.ScpPutCommand.add_each _ cs) as [es2|] eqn:E2;
            [| discriminate].
          intros [= <-]. apply Forall_app. split; eauto. }
      destruct (commands.ScpPutCommand.add_each _ children) as [es|]; [| discriminate].
      intros [= <-]. constructor; eauto.
    + intros [= <-]. constructor.
Qed.

Lemma component_dropped (p : string) :
  has_component ".scp" p \/ has_component ".git" p -> dropped p = true.
Proof.
  intros H. apply dropped_iff.
  destruct H as [H|H]; [left | right]; exact (component_contains _ _ H).
Qed.

Lemma tar_add_neutral (arcname : string) (n : Node) (entries : list TarInfo) :
  commands.ScpPutCommand.tar_add commands.ScpPutCommand.tarfilter arcname n
  = Ok entries ->
  Forall neutral entries.
Proof.
  intros H. apply tar_add_filtered in H.
  apply (Forall_impl neutral) with (2 := H).
  intros ti (ti0 & Hf). exact (proj2 (proj2 (tarfilter_neutral ti0 ti Hf))).
Qed.

(** C7.  With [.scp] the mapping-declaration file name and [.git] the
    version-control directory: [tarfilter] answers [None] for every entry
    whose path has one of them as a component, so neither the entry nor,
    for a directory, anything below it is written; an entry it lets through
    keeps its path and has uid and gid 0 and user and group name [root];
    and every entry that [tar.add] writes with this filter is of that kind
    and has no such component. *)
Theorem archive_entries_filtered_and_neutral :
  (forall ti,
     has_component ".scp" (path ti) \/ has_component ".git" (path ti) ->
     commands.ScpPutCommand.tarfilter ti = None)
  /\ (forall ti ti',
        commands.ScpPutCommand.tarfilter ti = Some ti' ->
        path ti' = path ti /\ uid ti' = 0 /\ gid ti' = 0
        /\ uname ti' = "root" /\ gname ti' = "root")
  /\ (forall arcname n entries,
        commands.ScpPutCommand.tar_add commands.ScpPutCommand.tarfilter arcname n
        = Ok entries ->
        Forall (fun ti =>
                  ~ has_component ".scp" (path ti)
                  /\ ~ has_component ".git" (path ti)
                  /\ uid ti = 0 /\ gid ti = 0
                  /\ uname ti = "root" /\ gname ti = "root") entries).
Proof.
  split; [| split].
  - intros ti H. rewrite tarfilter_dropped. now rewrite (component_dropped _ H).
  - intros ti ti' H. destruct (tarfilter_neutral ti ti' H) as (Hp & _ & _ & Ho).
    tauto.
  - intros arcname n entries H. apply tar_add_neutral in H.
    apply (Forall_impl _) with (2 := H).
    intros ti (Hd & Ho).
    assert (~ (has_component ".scp" (path ti) \/ has_component ".git" (path ti))) as Hn.
    { intros Hc. apply component_dropped in Hc. congruence. }
    tauto.
Qed.

End Filter.

Section PackedEntries.
Context {os_path : OsPath} (w : World).

Lemma neutralb_spec (ti : TarInfo) : neutral ti -> neutralb ti = true.
Proof.
  intros (Hd & Hu & Hg & Hun & Hgn). unfold neutralb.
  now rewrite Hd, Hu, Hg, Hun, Hgn.
Qed.

Lemma preserves_mkstemp_sel (kind : event -> bool) (prefix : string) :
  (forall file, kind (Mkstemp file) = false) ->
  preserves (sel kind) (mkstemp w prefix).
Proof.
  intros H st. unfold sel. simpl. rewrite filter_app. simpl. rewrite H.
  apply app_nil_r.
Qed.

Lemma add_path_neutral (tmp ld p : string) :
  preserves (sel is_foreign) (commands.ScpPutCommand.add_path w tmp ld p).
Proof.
  intros st. unfold commands.ScpPutCommand.add_path, bind, lift.
  destruct (path_relpath p ld) as [arcname|e]; [| reflexivity].
  destruct (lstat w p) as [n|]; [| reflexivity].
  destruct (commands.ScpPutCommand.tar_add commands.ScpPutCommand.tarfilter arcname n)
    as [entries|e] eqn:E; [| reflexivity].
  simpl. rewrite sel_push. cbn [is_foreign].
  assert (forallb neutralb entries = true) as ->; [| apply app_nil_r].
  apply forallb_forall. intros ti Hin. apply neutralb_spec.
  apply tar_add_neutral in E. rewrite Forall_forall in E. auto.
Qed.

(** Every archive entry that [puttree] writes has passed [tarfilter]: its
    path holds none of the dropped names and it belongs to root. *)
Lemma puttree_writes_neutral (conn : SCPFolder) (paths : list string) :
  preserves (sel is_foreign) (commands.ScpPutCommand.puttree w conn paths).
Proof.
  unfold commands.ScpPutCommand.puttree.
  apply preserves_bind; [apply preserves_lift | intros ld].
  apply preserves_bind; [apply preserves_lift | intros rd].
  apply preserves_bind; [now apply preserves_mkstemp_sel | intros tmp].
  apply preserves_bind; [apply preserves_status; frame | intros _].
  apply preserves_bind.
  { apply preserves_for_each. intros p. apply add_path_neutral. }
  intros _. unfold commands.ScpPutCommand.put_try.
  apply preserves_try_finally; [| now apply preserves_os_remove_sel].
  apply preserves_try_except.
  - apply preserves_bind.
    { apply preserves_putfile; [frame |].
      intros g n [= <-]. apply preserves_put_progress. intros msg. frame. }
    intros _. apply preserves_bind; [apply preserves_status; frame | intros _].
    apply preserves_bind; [apply preserves_format2 | intros cmd].
    apply preserves_bind; [apply preserves_plink; frame | intros _].
    apply preserves_status; frame.
  - intros e h. apply preserves_on_command_error; intros msg; frame.
Qed.

End PackedEntries.

(** C7, witness: packing [/proj/src], which holds a [.git] directory. *)
Lemma archive_entries_filtered_and_neutral_witness :
  @commands.ScpPutCommand.tar_add Scenario.posix_root
    commands.ScpPutCommand.tarfilter "src" Scenario.src
  = Ok [{| path := "src"; uid := 0; gid := 0; uname := "root"; gname := "root";
           isdir := true |};
        {| path := "src/main.py"; uid := 0; gid := 0; uname := "root";
           gname := "root"; isdir := false |}]
  /\ Forall (fun ti =>
               ~ has_component ".scp" (path ti)
               /\ ~ has_component ".git" (path ti)
               /\ uid ti = 0 /\ gid ti = 0
               /\ uname ti = "root" /\ gname ti = "root")
       [{| path := "src"; uid := 0; gid := 0; uname := "root"; gname := "root";
           isdir := true |};
        {| path := "src/main.py"; uid := 0; gid := 0; uname := "root";
           gname := "root"; isdir := false |}].
Proof.
  split; [reflexivity |].
  destruct (@archive_entries_filtered_and_neutral Scenario.posix_root) as (_ & _ & H).
  apply (H "src" Scenario.src). reflexivity.
Defined.

Section Grouping.
Context {os_path : OsPath}.

Lemma grouped_setdefault (g : commands.groups) (conn : SCPFolder) (path p : string) :
  grouped (commands.setdefault_append g conn path) p -> grouped g p \/ p = path.
Proof.
  induction g as [|[c ps] g IH]; simpl.
  - intros (c' & ps' & [[= <- <-] | []] & Hp). destruct Hp as [<- | []]. now right.
  - destruct (oid c =? oid conn)%nat.
    + intros (c' & ps' & [[= <- <-] | Hin] & Hp).
      * apply in_app_or in Hp as [Hp | [<- | []]]; [left | now right].
        exists c, ps. simpl. auto.
      * left. exists c', ps'. simpl. auto.
    + intros (c' & ps' & [[= <- <-] | Hin] & Hp).
      * left. exists c, ps. simpl. auto.
      * destruct IH as [(c2 & ps2 & Hin2 & Hp2) | ->]; [now exists c', ps' | | now right].
        left. exists c2, ps2. simpl. auto.
Qed.

(** Whatever the grouping loop puts into a group is a path of the request
    that the drop rule let through. *)
Lemma group_paths_grouped (paths : list string) :
  forall g st st' g',
    commands.group_paths paths g st = (st', Ok g') ->
    forall p, grouped g' p -> grouped g p \/ (In p paths /\ dropped p = false).
Proof.
  induction paths as [|path rest IH]; intros g st st' g'; simpl.
  - intros [= <- <-] p Hp. now left.
  - destruct (dropped path) eqn:Ed.
    + intros H p Hp. destruct (IH _ _ _ _ H p Hp) as [Hg | [Hin Hd]]; auto.
    + unfold bind at 1, try_except, bind at 1. rewrite connection_result.
      destruct (Py.truthy path); [| discriminate].
      destruct (find _ _) as [conn|]; [| discriminate].
      simpl. intros H p Hp.
      destruct (IH _ _ _ _ H p Hp) as [Hg | [Hin Hd]]; [| auto].
      apply grouped_setdefault in Hg as [Hg | ->]; auto.
Qed.

End Grouping.

(** ** Cancelling *)

Section Cancel.
Context {os_path : OsPath}.





End Cancel.



(** ** PathMapper: [root_dir], and connecting twice *)

Section RootDir.
Context {os_path : OsPath} (w : World).

(** What the sources rely on in [os.path.split]: the head is a prefix of the
    path, and it is shorter whenever there is a tail. *)
Hypothesis split_prefix :
  forall p, Py.startswith p (fst (path_split p)) = true.
Hypothesis split_shorter :
  forall p, snd (path_split p) = "" \/ String.length (fst (path_split p)) < String.length p.

Lemma startswith_trans (a b c : string) :
  Py.startswith a b = true -> Py.startswith b c = true -> Py.startswith a c = true.
Proof.
  rewrite !startswith_app. intros [x ->] [y ->]. exists (y ++ x).
  apply append_assoc.
Qed.

Lemma root_dir_loop_prefix (fuel : nat) :
  forall path name r,
    scpfolder.root_dir_loop w fuel path name = Some r ->
    Py.startswith path r = true /\ r <> "".
Proof.
  induction fuel as [|fuel IH]; intros path name r; simpl; [discriminate |].
  destruct (Py.truthy path) eqn:Ep; simpl; [| discriminate].
  destruct (Py.truthy name && negb (name =? ".scp")); [| discriminate].
  destruct (exists_ w (path_join path ".scp")).
  - intros [= <-]. split; [apply startswith_refl |]. now destruct path.
  - pose proof (split_prefix path) as Hs.
    destruct (path_split path) as [h t]. simpl in Hs. intros H.
    destruct (IH _ _ _ H) as [Hr Hne]. split; [| exact Hne].
    exact (startswith_trans _ _ _ Hs Hr).
Qed.

Lemma root_dir_prefix (file_name r : string) :
  scpfolder.root_dir w file_name = Some r ->
  Py.startswith file_name r = true /\ r <> "".
Proof.
  unfold scpfolder.root_dir. destruct (Py.truthy file_name); [| discriminate].
  apply root_dir_loop_prefix.
Qed.

(** The loop of [root_dir] never runs out of fuel: any fuel of at least
    [turns path name] gives the same answer. *)
Lemma root_dir_loop_fuel (fuel : nat) :
  forall path name extra,
    turns path name <= fuel ->
    scpfolder.root_dir_loop w (fuel + extra) path name
    = scpfolder.root_dir_loop w fuel path name.
Proof.
  induction fuel as [|fuel IH]; intros path name extra Hm.
  - destruct name; simpl in Hm; lia.
  - simpl. destruct (Py.truthy path) eqn:Ep; simpl; [| reflexivity].
    destruct name as [|a name']; [reflexivity |].
    destruct (Py.truthy (String a name') && negb (String a name' =? ".scp"));
      [| reflexivity].
    destruct (exists_ w (path_join path ".scp")); [reflexivity |].
    pose proof (split_shorter path) as Hs.
    destruct (path_split path) as [h t]. simpl in Hs.
    assert (1 <= String.length path) as Hlen
      by (destruct path; [discriminate | simpl; lia]).
    apply IH. simpl in Hm. destruct Hs as [-> | Hlt]; [simpl; lia |].
    unfold turns. destruct t; lia.
Qed.

Lemma root_dir_fuel (file_name : string) (extra : nat) :
  scpfolder.root_dir w file_name
  = if Py.truthy file_name
    then scpfolder.root_dir_loop w (S (String.length file_name) + extra) file_name "."
    else None.
Proof.
  unfold scpfolder.root_dir. destruct (Py.truthy file_name); [| reflexivity].
  symmetry. apply root_dir_loop_fuel. simpl. lia.
Qed.

Lemma find_app_none {A} (f : A -> bool) (l : list A) (x : A) :
  find f l = None -> find f (l ++ [x]) = if f x then Some x else None.
Proof.
  induction l as [|a l IH]; simpl; [reflexivity |].
  destruct (f a); [discriminate | exact IH].
Qed.

(** Connecting keeps every session rooted. *)
Lemma connect_rooted (path : string) (st : State) :
  rooted st -> rooted (fst (scpfolder.connect w path st)).
Proof.
  intros Hr. unfold scpfolder.connect, try_except, bind at 1.
  rewrite connection_result.
  assert (rooted (fst (try_except
                           (client <- scpfolder.new_SCPFolder w (scpfolder.platform_case path) ;;
                            scpfolder.append_connection client ;; ret (Some client))
                           (fun _ => Some (ret None)) st))) as Hnew.
  { unfold try_except, bind at 1, scpfolder.new_SCPFolder.
    destruct (scpfolder.root_dir w (scpfolder.platform_case path)) as [r|] eqn:Er;
      [| exact Hr].
    destruct (read_mapping w r); [| exact Hr]. simpl.
    unfold rooted. simpl. apply Forall_app. split; [exact Hr |].
    constructor; [| constructor]. simpl. exact (proj2 (root_dir_prefix _ _ Er)). }
  destruct (Py.truthy path); [| exact Hnew].
  destruct (find _ _); [exact Hr | exact Hnew].
Qed.

(** After a call of [connect] that returned a session, that session is the
    connection of the path. *)
Lemma connected_after_connect (path : string) (st st1 : State) (client : SCPFolder) :
  scpfolder.connect w path st = (st1, Ok (Some client)) ->
  scpfolder.connection path st1 = (st1, Ok client).
Proof.
  intros H.
  unfold scpfolder.connect, try_except, bind at 1 in H.
  rewrite connection_result in H. rewrite connection_result.
  destruct (Py.truthy path) eqn:Ep.
  - destruct (find (owns path) (connections st)) as [c|] eqn:Ef.
    + injection H as <- <-. now rewrite Ef.
    + unfold try_except, bind at 1, scpfolder.new_SCPFolder in H.
      destruct (scpfolder.root_dir w (scpfolder.platform_case path)) as [r|] eqn:Er;
        [| discriminate].
      destruct (read_mapping w r); [| discriminate].
      simpl in H. injection H as <- <-. simpl.
      rewrite (find_app_none _ _ _ Ef). unfold owns at 1. simpl.
      now rewrite (proj1 (root_dir_prefix _ _ Er)).
  - unfold try_except, bind at 1, scpfolder.new_SCPFolder in H.
    destruct (scpfolder.root_dir w (scpfolder.platform_case path)) as [r|] eqn:Er;
      [| discriminate].
    apply root_dir_prefix in Er as [Hpre Hne].
    apply startswith_truthy in Hpre; [| exact Hne].
    apply platform_case_truthy in Hpre. congruence.
Qed.

(** Connecting again: whatever state the first call started from, when it
    returned a session, a second call returns that same session and changes
    nothing. *)
Lemma connect_twice (path : string) (st st1 : State) (client : SCPFolder) :
  scpfolder.connect w path st = (st1, Ok (Some client)) ->
  scpfolder.connect w path st1 = (st1, Ok (Some client)).
Proof.
  intros H. apply connect_connected. exact (connected_after_connect _ _ _ _ H).
Qed.

End RootDir.

(** [posixpath.split] is as the two assumptions say. *)
Section PosixSplit.

Lemma rpartition_app (p : string) :
  p = fst (posixpath.rpartition p) ++ snd (posixpath.rpartition p).
Proof.
  induction p as [|a p IH]; simpl; [reflexivity |].
  destruct (posixpath.rpartition p) as [[|b h] t]; simpl in *.
  - destruct (posixpath.is_sep a); simpl; now rewrite IH.
  - now rewrite IH.
Qed.

Lemma rstrip_prefix (f : ascii -> bool) (s : string) :
  exists rest, s = Py.rstrip f s ++ rest.
Proof.
  induction s as [|a s [rest IH]]; simpl; [now exists "" |].
  destruct (Py.rstrip f s) as [|b r] eqn:E.
  - destruct (f a); [now exists (String a s) |]. exists s. reflexivity.
  - exists rest. simpl. now rewrite IH at 1.
Qed.

Lemma length_append (a b : string) :
  String.length (a ++ b) = String.length a + String.length b.
Proof. induction a; simpl; congruence. Qed.

Lemma posix_split_prefix (p : string) :
  Py.startswith p (fst (posixpath.split p)) = true.
Proof.
  apply startswith_app. unfold posixpath.split.
  pose proof (rpartition_app p) as Hp.
  destruct (posixpath.rpartition p) as [h t]. simpl in Hp.
  destruct (Py.truthy h && negb (posixpath.all_sep h)); simpl.
  - destruct (rstrip_prefix posixpath.is_sep h) as [rest Hh].
    exists (rest ++ t). rewrite <- append_assoc, <- Hh. exact Hp.
  - now exists t.
Qed.

Lemma posix_split_shorter (p : string) :
  snd (posixpath.split p) = ""
  \/ String.length (fst (posixpath.split p)) < String.length p.
Proof.
  unfold posixpath.split. pose proof (rpartition_app p) as Hp.
  destruct (posixpath.rpartition p) as [h [|b t]]; simpl in Hp.
  - left. now destruct (Py.truthy h && negb (posixpath.all_sep h)).
  - right.
    assert (String.length p = String.length h + S (String.length t)) as Hlen
      by (rewrite Hp at 1; now rewrite length_append).
    destruct (Py.truthy h && negb (posixpath.all_sep h)); simpl; [| lia].
    destruct (rstrip_prefix posixpath.is_sep h) as [rest Hh].
    assert (String.length h
            = String.length (Py.rstrip posixpath.is_sep h) + String.length rest)
      by (rewrite Hh at 1; now rewrite length_append).
    lia.
Qed.

End PosixSplit.

(** On a POSIX host: connecting a path of an unconnected mapped folder
    creates the session, and connecting it again returns that session. *)
Lemma connect_twice_posix :
  let first := @scpfolder.connect Scenario.posix_root Scenario.host
                 "/proj/src/main.py" init_state in
  snd first = Ok (Some Scenario.proj)
  /\ @scpfolder.connect Scenario.posix_root Scenario.host "/proj/src/main.py" (fst first)
     = (fst first, Ok (Some Scenario.proj)).
Proof.
  cbv zeta. split; [reflexivity |].
  apply (@connect_twice Scenario.posix_root Scenario.host posix_split_prefix
           "/proj/src/main.py" init_state).
  reflexivity.
Qed.

(** The loop of [root_dir] never runs out of fuel on a POSIX host. *)
Lemma root_dir_posix_fuel (cwd : string) (w : World) (file_name : string)
    (extra : nat) :
  @scpfolder.root_dir (posix cwd) w file_name
  = if Py.truthy file_name
    then @scpfolder.root_dir_loop (posix cwd) w
           (S (String.length file_name) + extra) file_name "."
    else None.
Proof. apply (@root_dir_fuel (posix cwd) w posix_split_shorter). Qed.

(** ** The registry during transfers *)

Section RegistryUntouched.
Context {os_path : OsPath} (w : World).

Lemma preserves_connection {X} (f : State -> X) (path : string) :
  preserves f (scpfolder.connection path).
Proof. intros st. now rewrite connection_result. Qed.

Lemma preserves_group_paths {X} (f : State -> X) (paths : list string) :
  forall g, preserves f (commands.group_paths paths g).
Proof.
  induction paths as [|path rest IH]; intros g; simpl; [frame |].
  destruct (dropped path); [apply IH |].
  apply preserves_bind; [| intros g'; apply IH].
  apply preserves_try_except.
  - apply preserves_bind; [apply preserves_connection | intros conn; frame].
  - intros e h. destruct e; try discriminate. intros [= <-]. frame.
Qed.

Lemma gettree_keeps_registry (conn : SCPFolder) (paths : list string) :
  preserves connections (commands.ScpGetCommand.gettree w conn paths).
Proof.
  unfold commands.ScpGetCommand.gettree.
  apply preserves_bind; [frame | intros ld].
  apply preserves_bind; [frame | intros rd].
  apply preserves_bind; [now intros st | intros tmp].
  unfold commands.ScpGetCommand.get_try.
  apply preserves_try_finally.
  - apply preserves_try_except.
    + apply preserves_bind; [apply preserves_status; frame | intros _].
      apply preserves_bind; [frame | intros cmd].
      apply preserves_bind; [apply preserves_plink; frame | intros _].
      apply preserves_bind.
      { apply preserves_getfile; [frame |].
        intros g n [= <-]. apply preserves_get_progress. intros msg. frame. }
      intros _. apply preserves_bind; [apply preserves_status; frame | intros _].
      apply preserves_bind; [apply preserves_extract; frame | intros _].
      apply preserves_status; frame.
    + intros e h. apply preserves_on_command_error; intros msg; frame.
  - apply preserves_bind.
    + apply preserves_except_pass. apply preserves_remove. frame.
    + intros _. apply preserves_except_pass. intros st. unfold os_remove.
      now destruct (tmp_exists st tmp).
Qed.

Lemma puttree_keeps_registry (conn : SCPFolder) (paths : list string) :
  preserves connections (commands.ScpPutCommand.puttree w conn paths).
Proof.
  unfold commands.ScpPutCommand.puttree.
  apply preserves_bind; [frame | intros ld].
  apply preserves_bind; [frame | intros rd].
  apply preserves_bind; [now intros st | intros tmp].
  apply preserves_bind; [apply preserves_status; frame | intros _].
  apply preserves_bind; [apply preserves_pack; intros es; frame | intros _].
  unfold commands.ScpPutCommand.put_try.
  apply preserves_try_finally.
  - apply preserves_try_except.
    + apply preserves_bind.
      { apply preserves_putfile; [frame |].
        intros g n [= <-]. apply preserves_put_progress. intros msg. frame. }
      intros _. apply preserves_bind; [apply preserves_status; frame | intros _].
      apply preserves_bind; [frame | intros cmd].
      apply preserves_bind; [apply preserves_plink; frame | intros _].
      apply preserves_status; frame.
    + intros e h. apply preserves_on_command_error; intros msg; frame.
  - intros st. unfold os_remove. now destruct (tmp_exists st tmp).
Qed.

(** No transfer touches the registry: after a get or a put of any paths,
    however it ends, the sessions are the ones there were. *)
Lemma executors_keep_registry (paths : list string) :
  preserves connections (commands.ScpGetCommand.executor w paths)
  /\ preserves connections (commands.ScpPutCommand.executor w paths).
Proof.
  split.
  - unfold commands.ScpGetCommand.executor.
    apply preserves_bind; [apply preserves_group_paths | intros g].
    apply preserves_for_each. intros [conn ps].
    unfold commands.ScpGetCommand.get_group.
    destruct ps as [|p [|q ps]]; try apply gettree_keeps_registry.
    destruct (isfile w p); [| apply gettree_keeps_registry].
    apply preserves_bind; [| intros _; apply preserves_status; frame].
    apply preserves_scpfolder_getfile. intros remote. frame.
  - unfold commands.ScpPutCommand.executor.
    apply preserves_bind; [apply preserves_group_paths | intros g].
    apply preserves_for_each. intros [conn ps].
    unfold commands.ScpPutCommand.put_group.
    destruct ps as [|p [|q ps]]; try apply puttree_keeps_registry.
    destruct (isfile w p); [| apply puttree_keeps_registry].
    apply preserves_bind; [| intros _; apply preserves_status; frame].
    apply preserves_scpfolder_putfile. intros remote. frame.
Qed.

End RegistryUntouched.

(** ** The drop rule, and what it keeps from being transferred *)

Section DropRule.
Context {os_path : OsPath} (w : World).

Lemma preserves_for_each_in {A X} (f : State -> X) (g : A -> M unit) (l : list A) :
  (forall a, In a l -> preserves f (g a)) -> preserves f (for_each g l).
Proof.
  induction l as [|a l IH]; intros H; simpl; [apply preserves_ret |].
  apply preserves_bind; [apply H; now left | intros _].
  apply IH. intros b Hb. apply H. now right.
Qed.

Lemma moves_quiet (p : string) (e : event) :
  incidental e = true -> moves p e = false.
Proof. destruct e; simpl; congruence. Qed.

Lemma next_tmp_scratch (p : string) (st : State) :
  ~ scratch w p -> (next_tmp w st =? p) = false.
Proof.
  intros H. apply String.eqb_neq. intros E. apply H.
  exists (tmp_serial st). now rewrite <- E.
Qed.

Lemma puttree_moves (p : string) (conn : SCPFolder) (paths : list string) :
  ~ scratch w p ->
  preserves (sel (moves p)) (commands.ScpPutCommand.puttree w conn paths).
Proof.
  intros Hp st.
  destruct (most w paths) as [ld|e] eqn:Hm;
    [| unfold commands.ScpPutCommand.puttree, bind at 1, lift; now rewrite Hm].
  destruct (scpfolder.to_remote_path conn ld) as [rd|e] eqn:Hd.
  - rewrite (puttree_kind w (moves p) (moves_quiet p) conn paths st ld rd Hm Hd)
      by (simpl; now apply next_tmp_scratch).
    now apply created_sel.
  - unfold commands.ScpPutCommand.puttree. unfold bind at 1, lift. rewrite Hm.
    unfold bind at 1, lift. now rewrite Hd.
Qed.

Lemma gettree_moves (p : string) (conn : SCPFolder) (paths : list string) :
  ~ scratch w p ->
  preserves (sel (moves p)) (commands.ScpGetCommand.gettree w conn paths).
Proof.
  intros Hp st.
  destruct (most w paths) as [ld|e] eqn:Hm;
    [| unfold commands.ScpGetCommand.gettree, bind at 1, lift; now rewrite Hm].
  destruct (scpfolder.to_remote_path conn ld) as [rd|e] eqn:Hd.
  - rewrite (gettree_kind w (moves p) (moves_quiet p) conn paths st ld rd Hm Hd)
      by (simpl; now apply next_tmp_scratch).
    now apply created_sel.
  - unfold commands.ScpGetCommand.gettree. unfold bind at 1, lift. rewrite Hm.
    unfold bind at 1, lift. now rewrite Hd.
Qed.

Lemma group_moves (p : string) (conn : SCPFolder) (ps : list string) :
  ~ scratch w p -> ~ In p ps ->
  preserves (sel (moves p)) (commands.ScpPutCommand.put_group w (conn, ps))
  /\ preserves (sel (moves p)) (commands.ScpGetCommand.get_group w (conn, ps)).
Proof.
  intros Hp Hin.
  unfold commands.ScpPutCommand.put_group, commands.ScpGetCommand.get_group.
  destruct ps as [|q [|q' ps]];
    try (split; [now apply puttree_moves | now apply gettree_moves]).
  assert ((q =? p) = false) as Hq
    by (apply String.eqb_neq; intros ->; apply Hin; now left).
  destruct (isfile w q);
    [| split; [now apply puttree_moves | now apply gettree_moves]].
  split.
  - apply preserves_bind; [| intros _; apply preserves_status; frame].
    apply preserves_scpfolder_putfile. intros remote. now apply blind_sel.
  - apply preserves_bind; [| intros _; apply preserves_status; frame].
    apply preserves_scpfolder_getfile. intros remote. now apply blind_sel.
Qed.

Lemma dropped_in_no_group (p : string) (paths : list string) (st st' : State)
    (g : commands.groups) :
  dropped p = true ->
  commands.group_paths paths [] st = (st', Ok g) ->
  forall conn ps, In (conn, ps) g -> ~ In p ps.
Proof.
  intros Hd E conn ps Hin Hp.
  destruct (group_paths_grouped paths _ _ _ _ E p) as [(c & qs & [] & _) | [_ Hn]];
    [now exists conn, ps | congruence].
Qed.

Lemma executors_move_no_dropped (p : string) (paths : list string) (st : State) :
  dropped p = true -> ~ scratch w p ->
  sel (moves p) (fst (commands.ScpPutCommand.executor w paths st)) = sel (moves p) st
  /\ sel (moves p) (fst (commands.ScpGetCommand.executor w paths st))
     = sel (moves p) st.
Proof.
  intros Hd Hp.
  unfold commands.ScpPutCommand.executor, commands.ScpGetCommand.executor, bind.
  pose proof (preserves_group_paths (fun s => s) paths [] st) as Hst.
  destruct (commands.group_paths paths [] st) as [st' [g|e]] eqn:E;
    simpl in Hst; subst st'; [| now split].
  pose proof (dropped_in_no_group p paths st st g Hd E) as Hg.
  split.
  - apply (preserves_for_each_in (sel (moves p))). intros [conn ps] Hin.
    exact (proj1 (group_moves p conn ps Hp (Hg conn ps Hin))).
  - apply (preserves_for_each_in (sel (moves p))). intros [conn ps] Hin.
    exact (proj2 (group_moves p conn ps Hp (Hg conn ps Hin))).
Qed.

Lemma put_writes_neutral (paths : list string) :
  preserves (sel is_foreign) (commands.ScpPutCommand.executor w paths).
Proof.
  unfold commands.ScpPutCommand.executor.
  apply preserves_bind; [apply preserves_group_paths | intros g].
  apply preserves_for_each. intros [conn ps].
  unfold commands.ScpPutCommand.put_group.
  destruct ps as [|q [|q' ps]]; try apply puttree_writes_neutral.
  destruct (isfile w q); [| apply puttree_writes_neutral].
  apply preserves_bind; [| intros _; apply preserves_status; frame].
  apply preserves_scpfolder_putfile. intros remote. frame.
Qed.

(** C9 (as amended).  A path in whose text [.scp] or [.git] occurs anywhere
    is dropped: the grouping loop of both executors passes over it without
    a word, so it is in no group, and [tarfilter] keeps every archive entry
    of that path out.  The test is on the text, not on components:
    [.gitignore] and [notes.scpx] are dropped though no component of their
    paths is [.git] or [.scp].

    A put therefore never uploads such a path: no archive entry that a put
    writes has a dropped path, and the file itself is never handed to the
    transport (a path that is not the name of one of the command's own
    temporary archives).  A get never asks the transport for the file
    itself either; but the archive pipeline of a get looks at the requested
    paths through their common folder only, and packs that folder whole,
    so what the folder holds on the remote side comes down whatever its
    name. *)
Theorem substring_drop_rule (p : string)
    (Hsub : Py.contains ".scp" p = true \/ Py.contains ".git" p = true) :
  dropped p = true
  /\ (forall rest g, commands.group_paths (p :: rest) g = commands.group_paths rest g)
  /\ (forall paths st g',
        snd (commands.group_paths paths [] st) = Ok g' -> ~ grouped g' p)
  /\ (forall ti, path ti = p -> commands.ScpPutCommand.tarfilter ti = None)
  /\ (dropped "/proj/.gitignore" = true
      /\ has_componentb ".git" "/proj/.gitignore" = false)
  /\ (dropped "/proj/notes.scpx" = true
      /\ has_componentb ".scp" "/proj/notes.scpx" = false)
  /\ (forall paths st,
        sel is_foreign (fst (commands.ScpPutCommand.executor w paths st))
        = sel is_foreign st)
  /\ (~ scratch w p ->
      forall paths st,
        sel (moves p) (fst (commands.ScpPutCommand.executor w paths st))
        = sel (moves p) st
        /\ sel (moves p) (fst (commands.ScpGetCommand.executor w paths st))
           = sel (moves p) st)
  /\ (forall conn paths paths' st,
        most w paths = most w paths' ->
        commands.ScpGetCommand.gettree w conn paths st
        = commands.ScpGetCommand.gettree w conn paths' st)
  /\ (forall conn paths st ld rd,
        most w paths = Ok ld ->
        scpfolder.to_remote_path conn ld = Ok rd ->
        sel is_plink (fst (commands.ScpGetCommand.gettree w conn paths st))
        = (sel is_plink st
           ++ [Plink (oid conn)
                 ("tar -C " ++ rd ++ " -cf " ++ remote_tmp_of w st ++ " .")])%list).
Proof.
  assert (dropped p = true) as Hd by now apply dropped_iff.
  split; [exact Hd |].
  split; [intros rest g; simpl; now rewrite Hd |].
  split.
  { intros paths st g' H Hg.
    destruct (commands.group_paths paths [] st) as [st' r] eqn:E. simpl in H. subst r.
    destruct (group_paths_grouped paths _ _ _ _ E p Hg) as [(c & ps & [] & _) | [_ Hn]].
    congruence. }
  split; [intros ti <-; rewrite tarfilter_dropped; now rewrite Hd |].
  split; [split; reflexivity |]. split; [split; reflexivity |].
  split; [intros paths st; apply put_writes_neutral |].
  split; [intros Hp paths st; now apply executors_move_no_dropped |].
  split.
  - intros conn paths paths' st Hm. unfold commands.ScpGetCommand.gettree.
    now rewrite Hm.
  - intros conn paths st ld rd Hm Hdir.
    destruct (gettree_spec w conn paths st ld rd Hm Hdir) as (st' & Hrun & _ & Hsel).
    rewrite Hrun. exact Hsel.
Qed.

End DropRule.

(** C9, witness: [/proj/.gitignore] among the paths of a put. *)
Lemma substring_drop_rule_witness :
  Py.contains ".git" "/proj/.gitignore" = true
  /\ snd (@commands.group_paths Scenario.posix_root
            ["/proj/.gitignore"; "/proj/README.md"] []
            (Scenario.registry [Scenario.proj]))
     = Ok [(Scenario.proj, ["/proj/README.md"])]
  /\ ~ grouped [(Scenario.proj, ["/proj/README.md"])] "/proj/.gitignore"
  /\ sel (moves "/proj/.gitignore")
       (fst (@commands.ScpPutCommand.executor Scenario.posix_root Scenario.host
               ["/proj/.gitignore"; "/proj/README.md"]
               (Scenario.registry [Scenario.proj])))
     = [].
Proof.
  split; [reflexivity |]. split; [reflexivity |].
  destruct (@substring_drop_rule Scenario.posix_root Scenario.host "/proj/.gitignore"
              (or_intror eq_refl)) as (_ & _ & H & _ & _ & _ & _ & Hput & _).
  split.
  - apply (H ["/proj/.gitignore"; "/proj/README.md"] (Scenario.registry [Scenario.proj])).
    reflexivity.
  - assert (~ scratch Scenario.host "/proj/.gitignore") as Hs.
    { intros [n Hn].
      assert (Py.startswith
                (tempdir Scenario.host ++ "/" ++ "scp_" ++ Py.str_of_nat n) "/t"
              = true) as Ht by reflexivity.
      rewrite <- Hn in Ht. discriminate. }
    exact (proj1 (Hput Hs ["/proj/.gitignore"; "/proj/README.md"]
                    (Scenario.registry [Scenario.proj]))).
Defined.

(** C9, counterexample to the claim as stated: a get of three files of
    [/proj], one of them [/proj/src/.gitignore].  The path is dropped and is
    in no group; the two others go through the archive pipeline, which packs
    the whole remote folder of [/proj] and extracts all of it into [/proj],
    under which the dropped path lies.  The request runs exactly as the
    request for the folder [/proj] itself does: whatever is called
    [src/.gitignore] on the remote side is downloaded. *)
Lemma get_downloads_dropped_names :
  dropped "/proj/src/.gitignore" = true
  /\ snd (@commands.group_paths Scenario.posix_root
            ["/proj/README.md"; "/proj/src/.gitignore"; "/proj/src/main.py"] []
            (Scenario.registry [Scenario.proj]))
     = Ok [(Scenario.proj, ["/proj/README.md"; "/proj/src/main.py"])]
  /\ @commands.ScpGetCommand.executor Scenario.posix_root Scenario.host
       ["/proj/README.md"; "/proj/src/.gitignore"; "/proj/src/main.py"]
       (Scenario.registry [Scenario.proj])
     = @commands.ScpGetCommand.executor Scenario.posix_root Scenario.host
         ["/proj"] (Scenario.registry [Scenario.proj])
  /\ trace (fst (@commands.ScpGetCommand.executor Scenario.posix_root Scenario.host
                   ["/proj/README.md"; "/proj/src/.gitignore"; "/proj/src/main.py"]
                   (Scenario.registry [Scenario.proj])))
     = [Mkstemp "/tmp/scp_0";
        Status "SCP: preparing download ...";
        Plink 0 "tar -C /home/guest/proj -cf /tmp/scp_0 .";
        ScpGet 0 "/tmp/scp_0" "/tmp/scp_0";
        Status "SCP: downloading [50%] ...";
        Status "SCP: downloading [100%] ...";
        Status "SCP: extracting ...";
        TarExtract "/tmp/scp_0" "/proj";
        Status "SCP: Downloaded /proj!";
        ScpRemove 0 "/tmp/scp_0";
        OsRemove "/tmp/scp_0"]
  /\ Py.startswith "/proj/src/.gitignore" "/proj/" = true.
Proof.
  split; [reflexivity |]. split; [vm_compute; reflexivity |].
  split; [vm_compute; reflexivity |]. split; vm_compute; reflexivity.
Qed.

(** ** ConnectionRegistry: what [connect] and [disconnect] do to it *)

Section ConnectOutcomes.
Context {os_path : OsPath} (w : World).

Lemma root_dir_loop_declared (fuel : nat) :
  forall path name r,
    scpfolder.root_dir_loop w fuel path name = Some r ->
    r <> "" /\ exists_ w (path_join r ".scp") = true.
Proof.
  induction fuel as [|fuel IH]; intros path name r; simpl; [discriminate |].
  destruct (Py.truthy path) eqn:Ep; simpl; [| discriminate].
  destruct (Py.truthy name && negb (name =? ".scp")); [| discriminate].
  destruct (exists_ w (path_join path ".scp")) eqn:Ex.
  - intros [= <-]. split; [now destruct path | exact Ex].
  - destruct (path_split path) as [h t]. apply IH.
Qed.

Lemma root_dir_declared (file_name r : string) :
  scpfolder.root_dir w file_name = Some r ->
  r <> "" /\ exists_ w (path_join r ".scp") = true.
Proof.
  unfold scpfolder.root_dir. destruct (Py.truthy file_name); [| discriminate].
  apply root_dir_loop_declared.
Qed.

Lemma not_connected_raises (path : string) (st : State) :
  scpfolder.is_connected path st = false ->
  scpfolder.connection path st
  = (st, Raise (ScpNotConnectedError ("No SCP connection for " ++ path ++ "!"))).
Proof.
  intros H. rewrite is_connected_connection, connection_result in H. simpl in H.
  rewrite connection_result. destruct (Py.truthy path); [| reflexivity].
  now destruct (find _ _).
Qed.

(** [connect] on a path that has no session: the session is built from the
    nearest declaration, or the call answers [False]. *)
Lemma connect_unconnected_run (path : string) (st : State) :
  scpfolder.is_connected path st = false ->
  scpfolder.connect w path st
  = match scpfolder.root_dir w (scpfolder.platform_case path) with
    | None => (st, Ok None)
    | Some r =>
        match read_mapping w r with
        | None => (st, Ok None)
        | Some m =>
            (registered (session_of (next_oid st) r m) st,
             Ok (Some (session_of (next_oid st) r m)))
        end
    end.
Proof.
  intros H. unfold scpfolder.connect, try_except. unfold bind at 1.
  rewrite (not_connected_raises path st H).
  unfold bind at 1, scpfolder.new_SCPFolder.
  destruct (scpfolder.root_dir w (scpfolder.platform_case path)) as [r|];
    [| reflexivity].
  now destruct (read_mapping w r).
Qed.

(** X1.  [connect] never raises: whatever goes wrong while the session is
    built is swallowed by the bare [except], the call answers [False], and
    the state is then exactly what it was, with no session added. *)
Theorem connect_never_raises (path : string) (st : State) :
  exists answer,
    snd (scpfolder.connect w path st) = Ok answer
    /\ (answer = None -> fst (scpfolder.connect w path st) = st).
Proof.
  destruct (scpfolder.is_connected path st) eqn:E.
  - destruct (connected_connection path st E) as (client & Hc & _ & _).
    rewrite (connect_connected w path st client Hc). simpl.
    exists (Some client). split; [reflexivity | discriminate].
  - rewrite (connect_unconnected_run path st E).
    destruct (scpfolder.root_dir w (scpfolder.platform_case path)) as [r|];
      [| now exists None].
    destruct (read_mapping w r) as [m|]; [| now exists None].
    simpl. eexists. split; [reflexivity | discriminate].
Qed.

(** X2.  Connecting a path that has no session yet, below a folder whose
    declaration can be read: a new session is appended after the existing
    ones and returned.  Its root is the folder [root_dir] finds for the path
    (the lower-cased path on Windows), and keys the declaration leaves out
    take their defaults: port 22, user [guest], remote path [/]. *)
Theorem connect_creates_session (path r : string) (m : Mapping) (st : State)
    (Hnew : scpfolder.is_connected path st = false)
    (Hroot : scpfolder.root_dir w (scpfolder.platform_case path) = Some r)
    (Hread : read_mapping w r = Some m) :
  exists client,
    scpfolder.connect w path st = (registered client st, Ok (Some client))
    /\ connections (registered client st) = (connections st ++ [client])%list
    /\ root client = r /\ host client = m_host m /\ passwd client = m_passwd m
    /\ port client = match m_port m with Some n => n | None => 22 end
    /\ user client = match m_user m with Some u => u | None => "guest" end
    /\ remote_path client = match m_path m with Some p => p | None => "/" end.
Proof.
  exists (session_of (next_oid st) r m).
  rewrite (connect_unconnected_run path st Hnew), Hroot, Hread.
  repeat split.
Qed.

End ConnectOutcomes.

(** X2, witness: the first connection of a file of [/proj], whose
    declaration names neither port nor user. *)
Lemma connect_creates_session_witness :
  exists client,
    @scpfolder.connect Scenario.posix_root Scenario.host "/proj/README.md" init_state
    = (registered client init_state, Ok (Some client))
    /\ connections (registered client init_state) = [client]
    /\ root client = "/proj" /\ host client = "192.168.0.1"
    /\ passwd client = Some "guest"
    /\ port client = 22 /\ user client = "guest"
    /\ remote_path client = "/home/guest/proj".
Proof.
  exact (@connect_creates_session Scenario.posix_root Scenario.host
           "/proj/README.md" "/proj"
           {| m_host := "192.168.0.1"; m_port := None; m_user := None;
              m_passwd := Some "guest"; m_path := Some "/home/guest/proj" |}
           init_state eq_refl eq_refl eq_refl).
Defined.

Section DisconnectFacts.
Context {os_path : OsPath}.

Lemma set_connections_same (st : State) : set_connections (connections st) st = st.
Proof. now destruct st. Qed.

Lemma set_connections_twice (l l' : list SCPFolder) (st : State) :
  set_connections l (set_connections l' st) = set_connections l st.
Proof. reflexivity. Qed.

Lemma find_none_filter {A} (f : A -> bool) (l : list A) :
  find f l = None -> filter (fun x => negb (f x)) l = l.
Proof.
  induction l as [|a l IH]; simpl; [reflexivity |].
  destruct (f a); [discriminate |]. simpl. intros H. now rewrite IH.
Qed.

Lemma list_remove_middle (c : SCPFolder) (l1 l2 : list SCPFolder) :
  ~ In (oid c) (map oid l1) ->
  scpfolder.list_remove c (l1 ++ c :: l2) = Some (l1 ++ l2)%list.
Proof.
  induction l1 as [|a l1 IH]; simpl; intros Hn.
  - now rewrite Nat.eqb_refl.
  - destruct (Nat.eqb_spec (oid a) (oid c)) as [E|E]; [tauto |].
    rewrite IH; tauto.
Qed.

Lemma filter_without_owner {A} (f : A -> bool) (l1 l2 : list A) (c : A) :
  f c = true ->
  filter (fun x => negb (f x)) (l1 ++ c :: l2)
  = filter (fun x => negb (f x)) (l1 ++ l2).
Proof. intros H. rewrite !filter_app. simpl. now rewrite H. Qed.

(** The loop of [disconnect] ends by the exception of [connection], never
    by its fuel: with any fuel above the number of sessions it stops in the
    state where no session owns the path. *)
Lemma disconnect_loop_run (path : string) (fuel : nat) :
  forall st,
    Py.truthy path = true ->
    NoDup (map oid (connections st)) ->
    length (connections st) < fuel ->
    scpfolder.disconnect_loop fuel path st
    = (set_connections (filter (fun c => negb (owns path c)) (connections st)) st,
       Raise (ScpNotConnectedError ("No SCP connection for " ++ path ++ "!"))).
Proof.
  intros st Ht. revert st.
  induction fuel as [|fuel IH]; intros st Hids Hlen; [lia |].
  simpl. unfold bind at 1. rewrite connection_result, Ht.
  destruct (find (owns path) (connections st)) as [c|] eqn:Ef.
  - apply find_first in Ef as (l1 & l2 & Hl & Ho & Hl1).
    assert (~ In (oid c) (map oid l1)) as Hfresh.
    { rewrite Hl, map_app in Hids. simpl in Hids.
      apply NoDup_remove_2 in Hids. intros Hin. apply Hids.
      apply in_or_app. now left. }
    unfold bind at 1, scpfolder.remove_connection.
    rewrite Hl, (list_remove_middle c l1 l2 Hfresh).
    change ({| connections := (l1 ++ l2)%list; next_oid := next_oid st;
               cancelled := cancelled st; tmpfiles := tmpfiles st;
               tmp_serial := tmp_serial st; trace := trace st |})
      with (set_connections (l1 ++ l2)%list st).
    rewrite IH.
    + simpl. rewrite set_connections_twice.
      now rewrite (filter_without_owner (owns path) l1 l2 c Ho).
    + simpl. rewrite Hl, map_app in Hids. simpl in Hids.
      apply NoDup_remove_1 in Hids. now rewrite map_app.
    + simpl. rewrite Hl in Hlen. rewrite length_app in *. simpl in Hlen. lia.
  - rewrite (find_none_filter _ _ Ef). now rewrite set_connections_same.
Qed.

Lemma disconnect_run (path : string) (st : State) :
  NoDup (map oid (connections st)) ->
  scpfolder.disconnect path st
  = (set_connections (others path (connections st)) st, Ok tt).
Proof.
  intros Hids. unfold scpfolder.disconnect, try_except, others.
  destruct (Py.truthy path) eqn:Ht.
  - rewrite (disconnect_loop_run path _ st Ht Hids) by lia. reflexivity.
  - simpl. unfold bind at 1. rewrite connection_result, Ht. simpl.
    now rewrite set_connections_same.
Qed.

Lemma others_not_owned (path : string) (l : list SCPFolder) :
  existsb (owns path) (others path l) = false \/ Py.truthy path = false.
Proof.
  unfold others. destruct (Py.truthy path); [left | now right].
  induction l as [|c l IH]; simpl; [reflexivity |].
  destruct (owns path c) eqn:E; simpl; [exact IH |]. now rewrite E.
Qed.

Lemma is_connected_owns (path : string) (st : State) :
  scpfolder.is_connected path st
  = Py.truthy path && existsb (owns path) (connections st).
Proof. unfold scpfolder.is_connected, owns. now destruct (Py.truthy path). Qed.

Lemma others_subset (path : string) (l : list SCPFolder) (c : SCPFolder) :
  In c (others path l) -> In c l.
Proof.
  unfold others. destruct (Py.truthy path); [| auto].
  intros H. now apply filter_In in H.
Qed.

Lemma others_keep (path q : string) (l : list SCPFolder) :
  existsb (owns q) l = false -> existsb (owns q) (others path l) = false.
Proof.
  intros H. destruct (existsb (owns q) (others path l)) eqn:E; [| reflexivity].
  apply existsb_exists in E as (c & Hin & Ho).
  assert (existsb (owns q) l = true) as H'
    by (apply existsb_exists; exists c; split; [now apply (others_subset path) | exact Ho]).
  congruence.
Qed.

(** X3.  [disconnect(path)] removes every session whose root is a prefix of
    the path (the lower-cased path on Windows), keeps the other sessions in
    their order, touches nothing else and returns normally; afterwards the
    path is not connected.  With an empty path nothing is removed.  The
    sessions are told apart by identity, as [list.remove] does. *)
Theorem disconnect_removes_owners (path : string) (st : State)
    (Hids : NoDup (map oid (connections st))) :
  scpfolder.disconnect path st
  = (set_connections
       (if Py.truthy path
        then filter (fun c => negb (Py.startswith (scpfolder.platform_case path) (root c)))
               (connections st)
        else connections st) st, Ok tt)
  /\ scpfolder.is_connected path (fst (scpfolder.disconnect path st)) = false
  /\ (forall fuel,
        Py.truthy path = true -> length (connections st) < fuel ->
        exists msg,
          scpfolder.disconnect_loop fuel path st
          = (fst (scpfolder.disconnect path st), Raise (ScpNotConnectedError msg))).
Proof.
  rewrite (disconnect_run path st Hids). split; [reflexivity |]. split.
  - simpl. rewrite is_connected_owns. simpl.
    destruct (others_not_owned path (connections st)) as [-> | ->];
      [apply andb_false_r | reflexivity].
  - intros fuel Ht Hlen. rewrite (disconnect_loop_run path fuel st Ht Hids Hlen).
    simpl. unfold others. rewrite Ht. eauto.
Qed.

End DisconnectFacts.

(** X3, witness: with [/proj] and [/docs] connected, disconnecting a file of
    [/proj] leaves [/docs]. *)
Lemma disconnect_removes_owners_witness :
  @scpfolder.disconnect Scenario.posix_root "/proj/README.md"
    (Scenario.registry [Scenario.proj; Scenario.docs])
  = (set_connections [Scenario.docs]
       (Scenario.registry [Scenario.proj; Scenario.docs]), Ok tt).
Proof.
  assert (NoDup (map oid (connections (Scenario.registry [Scenario.proj; Scenario.docs]))))
    as Hids.
  { simpl. repeat constructor; simpl; intuition discriminate. }
  exact (proj1 (@disconnect_removes_owners Scenario.posix_root "/proj/README.md"
                  (Scenario.registry [Scenario.proj; Scenario.docs]) Hids)).
Defined.

Section RegistryInvariant.
Context {os_path : OsPath} (w : World).

Lemma NoDup_map_filter {A B} (f : A -> B) (g : A -> bool) (l : list A) :
  NoDup (map f l) -> NoDup (map f (filter g l)).
Proof.
  induction l as [|a l IH]; simpl; [auto |].
  intros H. inversion H as [|x l' Hn Hd]; subst.
  destruct (g a); simpl; [| auto].
  constructor; [| auto].
  intros Hin. apply Hn. apply in_map_iff in Hin as (y & Hy & Hin).
  apply in_map_iff. exists y. split; [exact Hy |]. now apply filter_In in Hin.
Qed.

Lemma others_Forall (P : SCPFolder -> Prop) (path : string) (l : list SCPFolder) :
  Forall P l -> Forall P (others path l).
Proof.
  intros H. rewrite Forall_forall in *. intros c Hin.
  apply H. now apply (others_subset path).
Qed.

Lemma others_NoDup (path : string) (l : list SCPFolder) :
  NoDup (map oid l) -> NoDup (map oid (others path l)).
Proof.
  unfold others. destruct (Py.truthy path); [apply NoDup_map_filter | auto].
Qed.

Lemma wf_registry_init : wf_registry w init_state.
Proof. repeat split; constructor. Qed.

Lemma connect_keeps_wf (path : string) (st : State) :
  wf_registry w st -> wf_registry w (fst (scpfolder.connect w path st)).
Proof.
  intros (Hroot & Hdecl & Hids & Hold).
  destruct (scpfolder.is_connected path st) eqn:E.
  - destruct (connected_connection path st E) as (client & Hc & _ & _).
    rewrite (connect_connected w path st client Hc). simpl. now repeat split.
  - rewrite (connect_unconnected_run w path st E).
    destruct (scpfolder.root_dir w (scpfolder.platform_case path)) as [r|] eqn:Er;
      [| now repeat split].
    destruct (read_mapping w r) as [m|]; [| now repeat split].
    destruct (root_dir_declared w _ _ Er) as [Hne Hex].
    unfold wf_registry, rooted. simpl. repeat split.
    + apply Forall_app. split; [exact Hroot |]. now repeat constructor.
    + apply Forall_app. split; [exact Hdecl |]. now repeat constructor.
    + rewrite map_app. simpl. apply NoDup_app; [exact Hids | | ].
      * repeat constructor. intros [].
      * intros i Hi [<- | []]. apply in_map_iff in Hi as (c & Hc & Hin).
        rewrite Forall_forall in Hold. specialize (Hold c Hin). lia.
    + apply Forall_app. split.
      * apply (Forall_impl _) with (2 := Hold). intros c Hc. lia.
      * constructor; [simpl; lia | constructor].
Qed.

Lemma disconnect_keeps_wf (path : string) (st : State) :
  wf_registry w st -> wf_registry w (fst (scpfolder.disconnect path st)).
Proof.
  intros (Hroot & Hdecl & Hids & Hold).
  rewrite (disconnect_run path st Hids). unfold wf_registry, rooted. simpl.
  repeat split.
  - now apply others_Forall.
  - now apply others_Forall.
  - now apply others_NoDup.
  - now apply others_Forall.
Qed.

(** X4.  The registry stays well formed.  From the empty registry on, after
    any [connect] and any [disconnect]: every session has a non-empty root,
    a declaration file lies directly under each root, and no session occurs
    twice. *)
Theorem registry_stays_well_formed (path : string) (st : State)
    (Hwf : wf_registry w st) :
  wf_registry w init_state
  /\ wf_registry w (fst (scpfolder.connect w path st))
  /\ wf_registry w (fst (scpfolder.disconnect path st)).
Proof.
  split; [apply wf_registry_init |].
  split; [now apply connect_keeps_wf | now apply disconnect_keeps_wf].
Qed.

End RegistryInvariant.

(** X4, witness: the first connection, from the empty registry. *)
Lemma registry_stays_well_formed_witness :
  @wf_registry Scenario.posix_root Scenario.host init_state
  /\ @wf_registry Scenario.posix_root Scenario.host
    (fst (@scpfolder.connect Scenario.posix_root Scenario.host "/proj/README.md"
            init_state))
  /\ @wf_registry Scenario.posix_root Scenario.host
       (fst (@scpfolder.disconnect Scenario.posix_root "/proj/README.md" init_state)).
Proof.
  apply (@registry_stays_well_formed Scenario.posix_root Scenario.host).
  repeat split; constructor.
Defined.

Section FindFacts.
Context {os_path : OsPath} (w : World).

Lemma existsb_false_find {A} (f : A -> bool) (l : list A) :
  find f l = None <-> existsb f l = false.
Proof.
  induction l as [|a l IH]; simpl; [tauto |].
  destruct (f a); simpl; [split; discriminate | exact IH].
Qed.

Lemma connect_never_raises_aux (path : string) (st : State) :
  exists answer, snd (scpfolder.connect w path st) = Ok answer.
Proof.
  destruct (scpfolder.is_connected path st) eqn:E.
  - destruct (connected_connection path st E) as (client & Hc & _ & _).
    rewrite (connect_connected w path st client Hc). eexists. reflexivity.
  - rewrite (connect_unconnected_run w path st E).
    destruct (scpfolder.root_dir w (scpfolder.platform_case path)) as [r|];
      [| eexists; reflexivity].
    destruct (read_mapping w r) as [m|]; eexists; reflexivity.
Qed.

End FindFacts.

Section RoundTrip.
Context {os_path : OsPath} (w : World).
Hypothesis split_prefix :
  forall p, Py.startswith p (fst (path_split p)) = true.

Lemma others_none (path : string) (l : list SCPFolder) :
  existsb (owns path) l = false -> others path l = l.
Proof.
  intros H. unfold others. destruct (Py.truthy path); [| reflexivity].
  induction l as [|c l IH]; simpl in *; [reflexivity |].
  apply orb_false_iff in H as [Hc Hl]. rewrite Hc. simpl. now rewrite IH.
Qed.

Lemma not_connected_no_owner (path : string) (st : State) :
  scpfolder.is_connected path st = false ->
  others path (connections st) = connections st.
Proof.
  rewrite is_connected_owns. unfold others at 1.
  destruct (Py.truthy path) eqn:Ht; [| reflexivity].
  simpl. intros H. pose proof (others_none path _ H) as Ho.
  unfold others in Ho. now rewrite Ht in Ho.
Qed.

(** X5.  Connecting a path that had no session and disconnecting it again
    gives back the sessions there were, in their order, whether the
    connection succeeded or not; and the path is not connected then. *)
Theorem connect_then_disconnect (path : string) (st : State)
    (Hwf : wf_registry w st)
    (Hnew : scpfolder.is_connected path st = false) :
  connections
    (fst (scpfolder.disconnect path (fst (scpfolder.connect w path st))))
  = connections st
  /\ scpfolder.is_connected path
       (fst (scpfolder.disconnect path (fst (scpfolder.connect w path st))))
     = false.
Proof.
  pose proof (connect_keeps_wf w path st Hwf) as (_ & _ & Hids & _).
  rewrite (disconnect_run path _ Hids). simpl. split.
  - destruct (scpfolder.connect w path st) as [st1 [[client|]|e]] eqn:Ec.
    + pose proof (connected_after_connect w split_prefix path st st1 client Ec) as Hc.
      rewrite (connect_unconnected_run w path st Hnew) in Ec.
      destruct (scpfolder.root_dir w (scpfolder.platform_case path)) as [r|];
        [| discriminate].
      destruct (read_mapping w r) as [m|]; [| discriminate].
      injection Ec as <- <-. simpl.
      rewrite connection_result in Hc. simpl in Hc.
      destruct (Py.truthy path) eqn:Ht; [| discriminate].
      unfold others. rewrite Ht. rewrite filter_app. simpl.
      pose proof (not_connected_no_owner path st Hnew) as Hkeep.
      unfold others in Hkeep. rewrite Ht in Hkeep. rewrite Hkeep.
      assert (owns path (session_of (next_oid st) r m) = true) as ->.
      { rewrite is_connected_owns, Ht in Hnew. simpl in Hnew.
        rewrite (find_app_none _ _ _ (proj2 (existsb_false_find _ _) Hnew)) in Hc.
        now destruct (owns path (session_of (next_oid st) r m)). }
      simpl. apply app_nil_r.
    + rewrite (connect_unconnected_run w path st Hnew) in Ec.
      destruct (scpfolder.root_dir w (scpfolder.platform_case path)) as [r|].
      * destruct (read_mapping w r) as [m|]; [discriminate |].
        injection Ec as <-. simpl. now apply not_connected_no_owner.
      * injection Ec as <-. simpl. now apply not_connected_no_owner.
    + destruct (connect_never_raises_aux w path st) as (answer & Ha).
      rewrite Ec in Ha. discriminate.
  - rewrite is_connected_owns. unfold set_connections. cbn [connections].
    destruct (others_not_owned path (connections (fst (scpfolder.connect w path st))))
      as [-> | ->]; [apply andb_false_r | reflexivity].
Qed.

End RoundTrip.

(** X5, witness: with [/docs] connected, connecting and disconnecting a file
    of [/proj] leaves [/docs] alone. *)
Lemma connect_then_disconnect_witness :
  connections
    (fst (@scpfolder.disconnect Scenario.posix_root "/proj/README.md"
            (fst (@scpfolder.connect Scenario.posix_root Scenario.host
                    "/proj/README.md"
                    (set_connections [Scenario.docs] (Scenario.registry [Scenario.proj; Scenario.docs]))))))
  = [Scenario.docs]
  /\ connections
       (fst (@scpfolder.connect Scenario.posix_root Scenario.host "/proj/README.md"
               (set_connections [Scenario.docs] (Scenario.registry [Scenario.proj; Scenario.docs]))))
     = [Scenario.docs; Scenario.session 2 "/proj" "/home/guest/proj"].
Proof.
  split; [| reflexivity].
  apply (@connect_then_disconnect Scenario.posix_root Scenario.host posix_split_prefix
           "/proj/README.md"
           (set_connections [Scenario.docs] (Scenario.registry [Scenario.proj; Scenario.docs]))).
  - unfold wf_registry, rooted. simpl. repeat split; repeat constructor; simpl;
      try discriminate; try lia; intuition.
  - reflexivity.
Defined.

(** ** PathMapper: what [root_dir] finds *)

Section RootDirFinds.
Context {os_path : OsPath} (w : World).

(** X6.  On a platform whose [os.path.split] returns a prefix of its
    argument as the head: the folder that [root_dir] returns for a file name
    is a non-empty prefix of that name, and the declaration file [.scp]
    exists directly under it. *)
Theorem root_dir_finds_declaration
    (Hsplit : forall p, Py.startswith p (fst (path_split p)) = true)
    (file_name r : string)
    (Hfound : scpfolder.root_dir w file_name = Some r) :
  r <> ""
  /\ Py.startswith file_name r = true
  /\ exists_ w (path_join r ".scp") = true.
Proof.
  destruct (root_dir_prefix w Hsplit file_name r Hfound) as [Hpre Hne].
  destruct (root_dir_declared w file_name r Hfound) as [_ Hex].
  auto.
Qed.

Lemma root_dir_loop_stops
    (Hshort : forall p,
        snd (path_split p) = ""
        \/ String.length (fst (path_split p)) < String.length p)
    (fuel : nat) :
  forall path name,
    turns path name <= fuel ->
    exists n,
      S n <= turns path name
      /\ root_stops w (root_walk n (path, name)) = true
      /\ (forall k, k < n -> root_stops w (root_walk k (path, name)) = false)
      /\ scpfolder.root_dir_loop w fuel path name
         = root_answer (root_walk n (path, name)).
Proof.
  induction fuel as [|fuel IH]; intros path name Hm.
  - destruct name; simpl in Hm; lia.
  - cbn [scpfolder.root_dir_loop].
    assert (1 <= turns path name) as Hone by (destruct name; simpl; lia).
    destruct (Py.truthy path && Py.truthy name && negb (name =? ".scp")) eqn:Ec.
    + apply andb_true_iff in Ec as [Ec Escp].
      apply andb_true_iff in Ec as [Ep En]. rewrite Ep. cbn [andb].
      destruct (exists_ w (path_join path ".scp")) eqn:Ex.
      * exists 0. split; [exact Hone |]. split.
        { unfold root_stops. cbn [root_walk fst]. rewrite Ex. apply orb_true_r. }
        split; [intros k Hk; lia |].
        unfold root_answer, root_loops. cbn [root_walk fst snd].
        now rewrite Ep, En, Escp.
      * pose proof (Hshort path) as Hs.
        destruct (path_split path) as [h t] eqn:Esplit. cbn [fst snd] in Hs.
        assert (turns path name = S (String.length path)) as Ht
          by (destruct name; [discriminate | reflexivity]).
        assert (1 <= String.length path) as Hlen
          by (destruct path; [discriminate | simpl; lia]).
        assert (turns h t <= String.length path) as Hdec.
        { destruct Hs as [-> | Hlt]; [simpl; lia |].
          unfold turns. destruct t; lia. }
        destruct (IH h t) as (n & Hn & Hstop & Hearly & Hrun); [lia |].
        exists (S n). split; [lia |].
        cbn [root_walk fst]. rewrite Esplit.
        split; [exact Hstop |]. split; [| exact Hrun].
        intros [|k] Hk.
        -- unfold root_stops, root_loops. cbn [root_walk fst snd].
           now rewrite Ep, En, Escp, Ex.
        -- cbn [root_walk fst]. rewrite Esplit. apply Hearly. lia.
    + exists 0. split; [exact Hone |]. split.
      { unfold root_stops, root_loops. cbn [root_walk fst snd]. now rewrite Ec. }
      split; [intros k Hk; lia |].
      unfold root_answer, root_loops. cbn [root_walk fst snd]. now rewrite Ec.
Qed.

(** X7.  The loop of [root_dir] terminates: on a platform whose
    [os.path.split] returns a shorter head whenever it returns a tail, the
    loop comes to a turn that ends it, by its condition or by finding the
    declaration file, after at most as many splits as the file name has
    bytes, and no turn before that one ends it.  What [root_dir] answers is
    what that turn gives: the path of the turn when the loop condition still
    held, [False] otherwise.  The bound by which the model cuts the loop off
    is therefore never reached, and a larger one changes nothing. *)
Theorem root_dir_terminates
    (Hshort : forall p,
        snd (path_split p) = ""
        \/ String.length (fst (path_split p)) < String.length p)
    (file_name : string) :
  (exists n,
     n <= String.length file_name
     /\ root_stops w (root_walk n (file_name, ".")) = true
     /\ (forall k, k < n -> root_stops w (root_walk k (file_name, ".")) = false)
     /\ scpfolder.root_dir w file_name = root_answer (root_walk n (file_name, ".")))
  /\ (forall extra,
        scpfolder.root_dir w file_name
        = if Py.truthy file_name
          then scpfolder.root_dir_loop w (S (String.length file_name) + extra)
                 file_name "."
          else None).
Proof.
  split; [| intros extra; exact (root_dir_fuel w Hshort file_name extra)].
  unfold scpfolder.root_dir. destruct (Py.truthy file_name) eqn:Et.
  - destruct (root_dir_loop_stops Hshort (S (String.length file_name))
                file_name "." (le_n _)) as (n & Hn & Hstop & Hearly & Hrun).
    exists n. simpl in Hn. split; [lia | auto].
  - exists 0. split; [lia |]. split.
    { unfold root_stops, root_loops. cbn [root_walk fst]. now rewrite Et. }
    split; [intros k Hk; lia |].
    unfold root_answer, root_loops. cbn [root_walk fst]. now rewrite Et.
Qed.

End RootDirFinds.

(** X6, witness: the folder of a file two levels below [/proj]. *)
Lemma root_dir_finds_declaration_witness :
  @scpfolder.root_dir Scenario.posix_root Scenario.host "/proj/src/main.py"
  = Some "/proj"
  /\ Py.startswith "/proj/src/main.py" "/proj" = true
  /\ exists_ Scenario.host (@path_join Scenario.posix_root "/proj" ".scp") = true.
Proof.
  split; [reflexivity |].
  destruct (@root_dir_finds_declaration Scenario.posix_root Scenario.host
              posix_split_prefix "/proj/src/main.py" "/proj" eq_refl)
    as (_ & H1 & H2).
  split; [exact H1 | exact H2].
Defined.

(** X7, witness: for a file two levels below [/proj] the loop ends at its
    third turn, after two splits, on the declaration file of [/proj]. *)
Lemma root_dir_terminates_witness :
  (exists n,
     n <= String.length "/proj/src/main.py"
     /\ @root_stops Scenario.posix_root Scenario.host
          (@root_walk Scenario.posix_root n ("/proj/src/main.py", ".")) = true
     /\ (forall k, k < n ->
           @root_stops Scenario.posix_root Scenario.host
             (@root_walk Scenario.posix_root k ("/proj/src/main.py", ".")) = false)
     /\ @scpfolder.root_dir Scenario.posix_root Scenario.host "/proj/src/main.py"
        = root_answer (@root_walk Scenario.posix_root n ("/proj/src/main.py", ".")))
  /\ @root_walk Scenario.posix_root 2 ("/proj/src/main.py", ".") = ("/proj", "src")
  /\ @root_stops Scenario.posix_root Scenario.host ("/proj", "src") = true.
Proof.
  split; [| split; reflexivity].
  exact (proj1 (@root_dir_terminates Scenario.posix_root Scenario.host
                  posix_split_shorter "/proj/src/main.py")).
Defined.

(** ** The declaration file itself, and the menus *)

Section DeclarationFile.
Context (cwd : string) (w : World).

Lemma rpartition_declaration (d : string) :
  posixpath.rpartition (d ++ "/.scp") = (d ++ "/", ".scp").
Proof.
  induction d as [|a d IH]; [reflexivity |].
  change (String a d ++ "/.scp") with (String a (d ++ "/.scp")).
  cbn [posixpath.rpartition]. rewrite IH. now destruct d.
Qed.

Lemma split_declaration (d : string) :
  snd (posixpath.split (d ++ "/.scp")) = ".scp".
Proof.
  unfold posixpath.split. rewrite rpartition_declaration.
  now destruct (Py.truthy (d ++ "/") && negb (posixpath.all_sep (d ++ "/"))).
Qed.

Lemma root_dir_declaration (d : string) :
  exists_ w (posixpath.join (d ++ "/.scp") ".scp") = false ->
  @scpfolder.root_dir (posix cwd) w (d ++ "/.scp") = None.
Proof.
  intros Hno. unfold scpfolder.root_dir.
  assert (Py.truthy (d ++ "/.scp") = true) as Ht by now destruct d.
  rewrite Ht.
  change (@scpfolder.root_dir_loop (posix cwd) w (S (String.length (d ++ "/.scp")))
            (d ++ "/.scp") ".")
    with (if Py.truthy (d ++ "/.scp") && true && true
          then if Py.truthy (d ++ "/.scp")
                  && exists_ w (posixpath.join (d ++ "/.scp") ".scp")
               then Some (d ++ "/.scp")
               else let (path', name') := posixpath.split (d ++ "/.scp") in
                    @scpfolder.root_dir_loop (posix cwd) w
                      (String.length (d ++ "/.scp")) path' name'
          else None).
  rewrite Ht, Hno. cbn [andb].
  pose proof (split_declaration d) as Hs.
  destruct (posixpath.split (d ++ "/.scp")) as [h t]. cbn [snd] in Hs. subst t.
  destruct (String.length (d ++ "/.scp")); [reflexivity |].
  change (@scpfolder.root_dir_loop (posix cwd) w (S n) h ".scp")
    with (if Py.truthy h && true && false
          then if Py.truthy h && exists_ w (posixpath.join h ".scp")
               then Some h
               else let (path', name') := posixpath.split h in
                    @scpfolder.root_dir_loop (posix cwd) w n path' name'
          else None).
  now rewrite andb_false_r.
Qed.

(** X8.  On a POSIX host the declaration file itself lies in no mapped
    folder: for [dir/.scp], unless something called [dir/.scp/.scp] exists,
    [root_dir] answers [False], so that connecting the file fails when no
    session owns it already, and the command that offers to map a folder
    stays visible for it. *)
Theorem declaration_file_is_unmapped (d : string)
    (Hplain : exists_ w (posixpath.join (d ++ "/.scp") ".scp") = false) :
  @scpfolder.root_dir (posix cwd) w (d ++ "/.scp") = None
  /\ (forall st,
        @scpfolder.is_connected (posix cwd) (d ++ "/.scp") st = false ->
        @scpfolder.connect (posix cwd) w (d ++ "/.scp") st = (st, Ok None))
  /\ @commands.ScpMapToRemoteCommand.is_visible (posix cwd) w [d ++ "/.scp"] = true.
Proof.
  pose proof (root_dir_declaration d Hplain) as Hr.
  split; [exact Hr |]. split.
  - intros st Hnew.
    rewrite (@connect_unconnected_run (posix cwd) w _ st Hnew).
    change (@scpfolder.platform_case (posix cwd) (d ++ "/.scp")) with (d ++ "/.scp").
    now rewrite Hr.
  - unfold commands.ScpMapToRemoteCommand.is_visible,
      commands.ScpMapToRemoteCommand.mapped. simpl. now rewrite Hr.
Qed.

End DeclarationFile.

(** X8, witness: the declaration file of [/proj]. *)
Lemma declaration_file_is_unmapped_witness :
  @scpfolder.root_dir Scenario.posix_root Scenario.host "/proj/.scp" = None
  /\ @scpfolder.root_dir Scenario.posix_root Scenario.host "/proj/README.md"
     = Some "/proj"
  /\ @scpfolder.connect Scenario.posix_root Scenario.host "/proj/.scp" init_state
     = (init_state, Ok None).
Proof.
  destruct (declaration_file_is_unmapped "/" Scenario.host "/proj" eq_refl)
    as (Hr & Hc & _).
  split; [exact Hr |]. split; [reflexivity |].
  exact (Hc init_state eq_refl).
Defined.

Section Menus.
Context {os_path : OsPath} (w : World).

(** X9.  The menu entries for mapping a folder and for connecting are never
    visible together: connecting is offered only when some path lies in a
    mapped folder, mapping only when none does.  And connecting is offered
    only while some path of a mapped folder has no session. *)
Theorem map_and_connect_exclude (paths : list string) (st : State) :
  commands.ScpMapToRemoteCommand.is_visible w paths
  && commands.ScpConnectCommand.is_visible w paths st = false
  /\ (commands.ScpConnectCommand.is_visible w paths st = true ->
      exists p, In p (commands.ensure_paths w paths)
                /\ scpfolder.root_dir w p <> None
                /\ scpfolder.is_connected p st = false).
Proof.
  unfold commands.ScpMapToRemoteCommand.is_visible,
    commands.ScpConnectCommand.is_visible.
  split.
  - destruct (existsb (fun path => _ && _) _) eqn:E; [| apply andb_false_r].
    apply existsb_exists in E as (p & Hin & Hp).
    apply andb_true_iff in Hp as [Hm _].
    assert (existsb (commands.ScpMapToRemoteCommand.mapped w)
              (commands.ensure_paths w paths) = true) as ->
      by (apply existsb_exists; now exists p).
    reflexivity.
  - intros E. apply existsb_exists in E as (p & Hin & Hp).
    apply andb_true_iff in Hp as [Hm Hc]. exists p.
    split; [exact Hin |]. split.
    + unfold commands.ScpMapToRemoteCommand.mapped in Hm.
      now destruct (scpfolder.root_dir w p).
    + now destruct (scpfolder.is_connected p st).
Qed.

(** X10.  After a call of [connect] that returned a session for a path, the
    transfer commands are visible for that path and the connect command is
    not, on a platform whose [os.path.split] returns a prefix as the head. *)
Theorem menus_after_connect
    (Hsplit : forall p, Py.startswith p (fst (path_split p)) = true)
    (path : string) (st st1 : State) (client : SCPFolder)
    (Hconn : scpfolder.connect w path st = (st1, Ok (Some client))) :
  commands.ScpWindowCommand.is_visible w [path] st1 = true
  /\ commands.ScpConnectCommand.is_visible w [path] st1 = false.
Proof.
  pose proof (connected_after_connect w Hsplit path st st1 client Hconn) as Hc.
  assert (scpfolder.is_connected path st1 = true) as Hi
    by now rewrite is_connected_connection, Hc.
  unfold commands.ScpWindowCommand.is_visible, commands.ScpConnectCommand.is_visible.
  simpl. rewrite Hi. split; [reflexivity |].
  now rewrite andb_false_r.
Qed.

End Menus.

(** X10, witness: the first connection of a file of [/proj]. *)
Lemma menus_after_connect_witness :
  @commands.ScpConnectCommand.is_visible Scenario.posix_root Scenario.host
    ["/proj/README.md"] init_state = true
  /\ @commands.ScpWindowCommand.is_visible Scenario.posix_root Scenario.host
       ["/proj/README.md"]
       (fst (@scpfolder.connect Scenario.posix_root Scenario.host
               "/proj/README.md" init_state)) = true
  /\ @commands.ScpConnectCommand.is_visible Scenario.posix_root Scenario.host
       ["/proj/README.md"]
       (fst (@scpfolder.connect Scenario.posix_root Scenario.host
               "/proj/README.md" init_state)) = false.
Proof.
  split; [reflexivity |].
  exact (@menus_after_connect Scenario.posix_root Scenario.host posix_split_prefix
           "/proj/README.md" init_state _ _ eq_refl).
Defined.

(** ** PathMapper on a POSIX host *)

Section PosixPaths.

Lemma no_slash_cons (a : ascii) (c : string) :
  Py.contains "/" (String a c) = false ->
  Ascii.eqb a "/" = false /\ Py.contains "/" c = false.
Proof.
  simpl. destruct (Ascii.eqb a "/"); simpl.
  - destruct c; discriminate.
  - destruct c; auto.
Qed.

Lemma split_sep_cons (s : string) :
  Py.split "/" (String "/" s) = "" :: Py.split "/" s.
Proof. reflexivity. Qed.

Lemma split_app_sep (c s : string) :
  Py.contains "/" c = false ->
  Py.split "/" (c ++ "/" ++ s) = c :: Py.split "/" s.
Proof.
  induction c as [|a c IH]; intros H; [reflexivity |].
  apply no_slash_cons in H as [Ha Hc].
  change (String a c ++ "/" ++ s) with (String a (c ++ "/" ++ s)).
  cbn [Py.split]. rewrite Ha, (IH Hc). reflexivity.
Qed.

Lemma split_no_sep (c : string) :
  Py.contains "/" c = false -> Py.split "/" c = [c].
Proof.
  induction c as [|a c IH]; intros H; [reflexivity |].
  apply no_slash_cons in H as [Ha Hc].
  cbn [Py.split]. rewrite Ha, (IH Hc). reflexivity.
Qed.

Lemma split_concat (comps : list string) :
  comps <> [] -> Forall plain comps ->
  Py.split "/" (String.concat "/" comps) = comps.
Proof.
  induction comps as [|c [|c2 rest] IH]; intros Hne Hall; [congruence | |].
  - inversion Hall as [|? ? (_ & Hc & _) _]; subst. simpl. now apply split_no_sep.
  - inversion Hall as [|? ? (_ & Hc & _) Hrest]; subst.
    change (String.concat "/" (c :: c2 :: rest))
      with (c ++ "/" ++ String.concat "/" (c2 :: rest)).
    rewrite (split_app_sep _ _ Hc), IH; [reflexivity | discriminate | exact Hrest].
Qed.

Lemma concat_app (l1 l2 : list string) :
  l1 <> [] -> l2 <> [] ->
  String.concat "/" (l1 ++ l2)
  = String.concat "/" l1 ++ "/" ++ String.concat "/" l2.
Proof.
  induction l1 as [|a [|b l1] IH]; intros H1 H2; [congruence | |].
  - destruct l2; [congruence | reflexivity].
  - change (String.concat "/" ((a :: b :: l1) ++ l2))
      with (a ++ "/" ++ String.concat "/" ((b :: l1) ++ l2)).
    rewrite IH by (discriminate || assumption).
    change (String.concat "/" (a :: b :: l1))
      with (a ++ "/" ++ String.concat "/" (b :: l1)).
    now rewrite !append_assoc.
Qed.

Lemma norm_comps_plain (comps acc : list string) :
  Forall plain comps ->
  posixpath.norm_comps comps acc = (rev acc ++ comps)%list.
Proof.
  revert acc. induction comps as [|c comps IH]; intros acc Hall; simpl.
  - now rewrite app_nil_r.
  - inversion Hall as [|? ? (H1 & _ & H2 & H3) Hrest]; subst.
    apply String.eqb_neq in H1, H2, H3. rewrite H1, H2, H3. simpl.
    rewrite (IH _ Hrest). simpl. now rewrite <- app_assoc.
Qed.

Lemma abs_comps_absolute (cwd : string) (comps : list string) :
  comps <> [] -> Forall plain comps ->
  posixpath.abs_comps cwd (absolute comps) = comps.
Proof.
  intros Hne Hall. unfold posixpath.abs_comps, absolute.
  change (Py.startswith ("/" ++ String.concat "/" comps) "/") with true.
  cbv iota. change ("/" ++ String.concat "/" comps)
    with (String "/" (String.concat "/" comps)).
  rewrite split_sep_cons, (split_concat _ Hne Hall).
  cbn [posixpath.norm_comps String.eqb orb]. now apply norm_comps_plain.
Qed.

Lemma common_len_app (l1 l2 : list string) :
  posixpath.common_len l1 (l1 ++ l2) = length l1.
Proof.
  induction l1 as [|a l1 IH]; simpl; [reflexivity |].
  now rewrite String.eqb_refl, IH.
Qed.

Lemma plain_not_absolute (c : string) : plain c -> Py.startswith c "/" = false.
Proof.
  intros (Hne & Hs & _). destruct c as [|a c]; [congruence |].
  apply no_slash_cons in Hs as [Ha _]. simpl. now rewrite Ha.
Qed.

Lemma endswith_app (a b : string) (c : ascii) :
  b <> "" -> Py.endswith (a ++ b) c = Py.endswith b c.
Proof.
  intros Hb. induction a as [|x a IH]; [reflexivity |].
  change (String x a ++ b) with (String x (a ++ b)).
  destruct (a ++ b) eqn:E.
  - destruct a; [simpl in E; congruence | discriminate].
  - cbn [Py.endswith]. exact IH.
Qed.

Lemma plain_no_trailing_sep (c : string) :
  c <> "" -> Py.contains "/" c = false -> Py.endswith c "/" = false.
Proof.
  induction c as [|a c IH]; intros Hne Hs; [congruence |].
  apply no_slash_cons in Hs as [Ha Hc].
  destruct c as [|b c]; [exact Ha |].
  cbn [Py.endswith]. apply IH; [discriminate | exact Hc].
Qed.

Lemma join_plain (a b : string) :
  Py.truthy a = true -> Py.endswith a "/" = false -> plain b ->
  posixpath.join a b = a ++ "/" ++ b.
Proof.
  intros Ha He Hb. unfold posixpath.join.
  now rewrite (plain_not_absolute b Hb), Ha, He.
Qed.

Lemma join_all_plain (rs : list string) :
  forall a,
    Py.truthy a = true -> Py.endswith a "/" = false -> Forall plain rs ->
    posixpath.join_all a rs = String.concat "/" (a :: rs).
Proof.
  induction rs as [|b rs IH]; intros a Ha He Hall; [reflexivity |].
  inversion Hall as [|? ? Hb Hrest]; subst.
  cbn [posixpath.join_all]. rewrite (join_plain a b Ha He Hb).
  rewrite IH; [| now destruct a | | exact Hrest].
  - destruct rs as [|c rs]; [reflexivity |].
    change (String.concat "/" ((a ++ "/" ++ b) :: c :: rs))
      with ((a ++ "/" ++ b) ++ "/" ++ String.concat "/" (c :: rs)).
    change (String.concat "/" (a :: b :: c :: rs))
      with (a ++ "/" ++ b ++ "/" ++ String.concat "/" (c :: rs)).
    now rewrite !append_assoc.
  - destruct Hb as (Hne & Hs & _).
    rewrite <- append_assoc.
    rewrite (endswith_app (a ++ "/") b "/" Hne).
    now apply plain_no_trailing_sep.
Qed.

(** The relative path, from a folder, of a path below it. *)
Lemma relpath_below (cwd : string) (rc pc : list string) :
  rc <> [] -> pc <> [] -> Forall plain rc -> Forall plain pc ->
  posixpath.relpath cwd (absolute rc ++ "/" ++ String.concat "/" pc) (absolute rc)
  = Ok (String.concat "/" pc).
Proof.
  intros Hr Hp Hrc Hpc.
  assert (absolute rc ++ "/" ++ String.concat "/" pc = absolute (rc ++ pc)) as ->.
  { unfold absolute. rewrite (concat_app rc pc Hr Hp). now rewrite append_assoc. }
  unfold posixpath.relpath.
  change (Py.truthy (absolute (rc ++ pc))) with true. cbv iota. cbn [negb].
  rewrite (abs_comps_absolute cwd rc Hr Hrc).
  rewrite (abs_comps_absolute cwd (rc ++ pc));
    [| now destruct rc | now apply Forall_app].
  rewrite common_len_app, Nat.sub_diag. cbn [repeat app].
  rewrite skipn_app, skipn_all, Nat.sub_diag. cbn [skipn app].
  destruct pc as [|r rs]; [congruence |].
  inversion Hpc as [|? ? Hb Hrest]; subst.
  rewrite join_all_plain; [reflexivity | | | exact Hrest].
  - destruct Hb as (Hne & _). now destruct r.
  - destruct Hb as (Hne & Hs & _). now apply plain_no_trailing_sep.
Qed.

(** [relpath] of absolute paths does not depend on the current directory. *)
Lemma relpath_absolute (cwd cwd' p start : string) :
  Py.startswith p "/" = true -> Py.startswith start "/" = true ->
  posixpath.relpath cwd p start = posixpath.relpath cwd' p start.
Proof.
  intros Hp Hs. unfold posixpath.relpath, posixpath.abs_comps.
  now rewrite Hp, Hs.
Qed.

End PosixPaths.

Section PosixMapping.
Context (cwd : string).

Lemma append_longer (s t : string) (a : ascii) : s ++ String a t <> s.
Proof.
  intros H. assert (String.length (s ++ String a t) = String.length s) as Hl
    by now rewrite H.
  rewrite length_append in Hl. simpl in Hl. lia.
Qed.

Lemma concat_plain_relative (pc : list string) :
  pc <> [] -> Forall plain pc ->
  Py.startswith (String.concat "/" pc) "/" = false.
Proof.
  intros Hne Hall. destruct pc as [|b rs]; [congruence |].
  inversion Hall as [|? ? Hb _]; subst.
  pose proof (plain_not_absolute b Hb) as Hs. destruct Hb as (Hb & _).
  destruct b as [|x b]; [congruence |].
  destruct rs; simpl in *; exact Hs.
Qed.

(** X11.  On a POSIX host, for a mapping rooted at [/r1/.../rn] and a path
    [/r1/.../rn/p1/.../pk] below it, all components plain names: the
    relative path is [p1/.../pk], and [to_remote_path] returns the remote
    path joined with it, [remote/p1/.../pk] for a remote path that does not
    end in a slash, unless that text holds [..], in which case it raises. *)
Theorem to_remote_path_below_root (m : SCPFolder) (rc pc : list string)
    (Hr : rc <> []) (Hp : pc <> [])
    (Hrc : Forall plain rc) (Hpc : Forall plain pc)
    (Hroot : root m = absolute rc) :
  let rel := String.concat "/" pc in
  let joined := Py.replace backslash "/" (posixpath.join (remote_path m) rel) in
  posixpath.relpath cwd (root m ++ "/" ++ rel) (root m) = Ok rel
  /\ @scpfolder.to_remote_path (posix cwd) m (root m ++ "/" ++ rel)
     = (if Py.contains ".." joined then Raise (ValueError "Invalid path!")
        else Ok joined)
  /\ (Py.truthy (remote_path m) = true ->
      Py.endswith (remote_path m) "/" = false ->
      joined = Py.replace backslash "/" (remote_path m ++ "/" ++ rel)).
Proof.
  intros rel joined.
  assert (posixpath.relpath cwd (root m ++ "/" ++ rel) (root m) = Ok rel) as Hrel
    by (rewrite Hroot; now apply relpath_below).
  split; [exact Hrel |]. split.
  - apply (@to_remote_path_below (posix cwd) m (root m ++ "/" ++ rel) rel).
    + apply append_longer.
    + exact Hrel.
  - intros Ht He. unfold joined, rel, posixpath.join.
    now rewrite (concat_plain_relative pc Hp Hpc), Ht, He.
Qed.

End PosixMapping.

(** X11, witness: [/proj/src/main.py] under the mapping of [/proj]. *)
Lemma to_remote_path_below_root_witness :
  @scpfolder.to_remote_path (posix "/") Scenario.proj "/proj/src/main.py"
  = Ok "/home/guest/proj/src/main.py".
Proof.
  assert (forall c, In c ["proj"; "src"; "main.py"] -> plain c) as Hplain.
  { intros c [<- | [<- | [<- | []]]]; repeat split; discriminate. }
  assert (Forall plain ["proj"]) as Hrc
    by (repeat constructor; apply Hplain; simpl; auto).
  assert (Forall plain ["src"; "main.py"]) as Hpc
    by (repeat constructor; apply Hplain; simpl; auto).
  assert (["proj"] <> []) as Hr by discriminate.
  assert (["src"; "main.py"] <> []) as Hp by discriminate.
  exact (proj1 (proj2 (to_remote_path_below_root "/" Scenario.proj
                         ["proj"] ["src"; "main.py"] Hr Hp Hrc Hpc eq_refl))).
Defined.

Section DotDotText.
Context (cwd : string).

Lemma replace_app (a b : ascii) (x y : string) :
  Py.replace a b (x ++ y) = Py.replace a b x ++ Py.replace a b y.
Proof. induction x as [|c x IH]; simpl; [reflexivity | now rewrite IH]. Qed.

Lemma contains_replace (s : string) :
  Py.contains ".." s = true ->
  Py.contains ".." (Py.replace backslash "/" s) = true.
Proof.
  intros H. apply contains_app in H as (a & b & ->).
  apply contains_app. rewrite !replace_app.
  now exists (Py.replace backslash "/" a), (Py.replace backslash "/" b).
Qed.

Lemma contains_join_r (s a b : string) :
  Py.contains s b = true -> Py.contains s (posixpath.join a b) = true.
Proof.
  intros H. apply contains_app in H as (x & y & ->). apply contains_app.
  unfold posixpath.join. destruct (Py.startswith _ "/"); [now exists x, y |].
  destruct (negb (Py.truthy a) || Py.endswith a "/").
  - exists (a ++ x), y. now rewrite !append_assoc.
  - exists (a ++ "/" ++ x), y. now rewrite !append_assoc.
Qed.

Lemma contains_join_l (s a b : string) :
  Py.contains s a = true -> Py.startswith b "/" = false ->
  Py.contains s (posixpath.join a b) = true.
Proof.
  intros H Hb. apply contains_app in H as (x & y & ->). apply contains_app.
  unfold posixpath.join. rewrite Hb.
  destruct (negb (Py.truthy _) || Py.endswith _ "/").
  - exists x, (y ++ b). now rewrite !append_assoc.
  - exists x, (y ++ "/" ++ b). now rewrite !append_assoc.
Qed.

(** A string that can start a relative path: not empty, no leading slash. *)
Lemma split_relative (s : string) :
  Forall (fun c => Py.startswith c "/" = false) (Py.split "/" s).
Proof.
  induction s as [|a s IH]; simpl; [now repeat constructor |].
  destruct (Ascii.eqb a "/") eqn:Ea; [now constructor |].
  destruct (Py.split "/" s) as [|seg segs]; simpl.
  - repeat constructor. simpl. now rewrite Ea.
  - inversion IH; subst. constructor; [| assumption]. simpl. now rewrite Ea.
Qed.

Lemma norm_comps_kept (Q : string -> Prop) (comps : list string) :
  forall acc,
    (forall c, In c comps -> c <> "" -> Q c) -> Forall Q acc ->
    Forall Q (posixpath.norm_comps comps acc).
Proof.
  induction comps as [|c comps IH]; intros acc Hc Hacc; simpl.
  - now apply Forall_rev.
  - destruct (String.eqb_spec c "") as [E|E]; simpl.
    + apply IH; [intros; apply Hc; simpl; auto | exact Hacc].
    + destruct (c =? "."); [apply IH; [intros; apply Hc; simpl; auto | exact Hacc] |].
      destruct (c =? "..").
      * apply IH; [intros; apply Hc; simpl; auto |].
        destruct acc; [constructor | now inversion Hacc].
      * apply IH; [intros; apply Hc; simpl; auto |].
        constructor; [apply Hc; simpl; auto | exact Hacc].
Qed.

Lemma abs_comps_relative (p : string) :
  Forall (fun c => c <> "" /\ Py.startswith c "/" = false)
         (posixpath.abs_comps cwd p).
Proof.
  unfold posixpath.abs_comps. apply norm_comps_kept; [| constructor].
  intros c Hin Hne. split; [exact Hne |].
  match type of Hin with In _ (Py.split "/" ?s) =>
    pose proof (split_relative s) as H end.
  rewrite Forall_forall in H. now apply H.
Qed.

Lemma startswith_app_nonempty (a x : string) :
  a <> "" -> Py.startswith (a ++ x) "/" = Py.startswith a "/".
Proof. destruct a; [congruence | reflexivity]. Qed.

Lemma join_all_relative (rs : list string) :
  forall a,
    a <> "" -> Py.startswith a "/" = false ->
    Forall (fun c => c <> "" /\ Py.startswith c "/" = false) rs ->
    Py.startswith (posixpath.join_all a rs) "/" = false.
Proof.
  induction rs as [|b rs IH]; intros a Ha Hs Hall; [exact Hs |].
  inversion Hall as [|? ? [Hb Hbs] Hrest]; subst. simpl.
  apply IH; [| | exact Hrest]; unfold posixpath.join; rewrite Hbs;
    destruct (negb (Py.truthy a) || Py.endswith a "/");
    try (now destruct a); now rewrite startswith_app_nonempty.
Qed.

(** [relpath] never answers an absolute path. *)
Lemma relpath_relative (p start rel : string) :
  posixpath.relpath cwd p start = Ok rel -> Py.startswith rel "/" = false.
Proof.
  unfold posixpath.relpath. destruct (negb (Py.truthy p)); [discriminate |].
  set (sl := posixpath.abs_comps cwd start).
  set (pl := posixpath.abs_comps cwd p).
  set (i := posixpath.common_len sl pl).
  assert (Forall (fun c => c <> "" /\ Py.startswith c "/" = false)
            (repeat ".." (length sl - i) ++ skipn i pl)%list) as Hall.
  { apply Forall_app. split.
    - apply Forall_forall. intros c Hc. apply repeat_spec in Hc. subst.
      split; [discriminate | reflexivity].
    - pose proof (abs_comps_relative p) as H. fold pl in H.
      rewrite Forall_forall in *. intros c Hc. apply H.
      rewrite <- (firstn_skipn i pl). apply in_or_app. now right. }
  destruct (repeat ".." (length sl - i) ++ skipn i pl)%list as [|r rs].
  - now intros [= <-].
  - intros [= <-]. inversion Hall as [|? ? [Hr Hrs] Hrest]; subst.
    now apply join_all_relative.
Qed.

(** X12.  The guard of [to_remote_path] is a test on the text.  On a POSIX
    host, for every path other than the root: when [..] occurs anywhere in
    the relative path, also inside a file name such as [notes..txt], the call
    raises [ValueError]; and when [..] occurs in the mapping's remote path,
    every such path is rejected, so that mapping translates its root only. *)
Theorem dotdot_text_is_rejected (m : SCPFolder) (p : string)
    (Hp : p <> root m) :
  (forall rel,
     posixpath.relpath cwd p (root m) = Ok rel ->
     Py.contains ".." rel = true ->
     @scpfolder.to_remote_path (posix cwd) m p = Raise (ValueError "Invalid path!"))
  /\ (Py.contains ".." (remote_path m) = true ->
      exists msg,
        @scpfolder.to_remote_path (posix cwd) m p = Raise (ValueError msg)).
Proof.
  split.
  - intros rel Hrel Hc.
    rewrite (@to_remote_path_below (posix cwd) m p rel Hp Hrel). cbv zeta.
    cbn [path_join posix].
    now rewrite (contains_replace _ (contains_join_r ".." (remote_path m) rel Hc)).
  - intros Hc.
    destruct (posixpath.relpath cwd p (root m)) as [rel|e] eqn:Hrel.
    + exists "Invalid path!".
      rewrite (@to_remote_path_below (posix cwd) m p rel Hp Hrel). cbv zeta.
    cbn [path_join posix].
      now rewrite (contains_replace _
                     (contains_join_l ".." (remote_path m) rel Hc
                        (relpath_relative p (root m) rel Hrel))).
    + unfold scpfolder.to_remote_path. apply String.eqb_neq in Hp. rewrite Hp.
      cbn [path_relpath posix]. rewrite Hrel.
      unfold posixpath.relpath in Hrel.
      destruct (negb (Py.truthy p)).
      * injection Hrel as <-. eauto.
      * now destruct (repeat _ _ ++ _)%list.
Qed.

End DotDotText.

(** X12, witness: a file name with two dots in a row, and a file under the
    mapping whose remote path is [/srv/../www]. *)
Lemma dotdot_text_is_rejected_witness :
  @scpfolder.to_remote_path (posix "/") Scenario.proj "/proj/notes..txt"
  = Raise (ValueError "Invalid path!")
  /\ has_componentb ".." "/home/guest/proj/notes..txt" = false
  /\ exists msg,
       @scpfolder.to_remote_path (posix "/") Scenario.shared "/proj/README.md"
       = Raise (ValueError msg).
Proof.
  assert ("/proj/notes..txt" <> root Scenario.proj) as H1 by discriminate.
  assert ("/proj/README.md" <> root Scenario.shared) as H2 by discriminate.
  split; [| split; [reflexivity |]].
  - exact (proj1 (dotdot_text_is_rejected "/" Scenario.proj "/proj/notes..txt" H1)
             "notes..txt" eq_refl eq_refl).
  - exact (proj2 (dotdot_text_is_rejected "/" Scenario.shared "/proj/README.md" H2)
             eq_refl).
Defined.

(** ** RemoteSession: the operations that translate a path *)

Section Wrappers.
Context {os_path : OsPath} (w : World).

Lemma remove_run (m : SCPFolder) (p : string) (st : State) :
  scpfolder.remove w m p st
  = match scpfolder.to_remote_path m p with
    | Raise e => (st, Raise e)
    | Ok remote =>
        (push (ScpRemove (oid m) remote) st, as_result (remove_outcome w m remote))
    end.
Proof.
  unfold scpfolder.remove.
  destruct (scpfolder.to_remote_path m p) as [remote|e]; [| reflexivity].
  unfold SCPClient.remove, bind, lift. simpl. now rewrite outcome_run.
Qed.

(** X13.  [putfile], [getfile] and [remove] of a session translate the
    local path before anything else.  When the translation raises, the
    exception is passed on and nothing has happened: no call reaches the
    transport.  Otherwise exactly one call is made, with the local path and
    the translated remote path, and its outcome is the outcome of the
    operation. *)
Theorem translation_comes_first (m : SCPFolder) (p : string) (st : State) :
  match scpfolder.to_remote_path m p with
  | Raise e =>
      scpfolder.putfile w m p st = (st, Raise e)
      /\ scpfolder.getfile w m p st = (st, Raise e)
      /\ scpfolder.remove w m p st = (st, Raise e)
  | Ok remote =>
      scpfolder.putfile w m p st
      = (push (ScpPut (oid m) p remote) st,
         as_result (snd (putfile_outcome w m p remote)))
      /\ scpfolder.getfile w m p st
         = (push (ScpGet (oid m) remote p) st,
            as_result (snd (getfile_outcome w m remote p)))
      /\ scpfolder.remove w m p st
         = (push (ScpRemove (oid m) remote) st,
            as_result (remove_outcome w m remote))
  end.
Proof.
  unfold scpfolder.putfile, scpfolder.getfile, scpfolder.remove.
  destruct (scpfolder.to_remote_path m p) as [remote|e]; [| now repeat split].
  unfold SCPClient.putfile, SCPClient.getfile, SCPClient.remove, bind, lift.
  simpl. now rewrite !outcome_run.
Qed.

End Wrappers.

(** ** Deleting *)

Section Deleting.
Context {os_path : OsPath} (w : World).

Lemma connection_found (p : string) (st : State) (conn : SCPFolder) :
  Py.truthy p = true ->
  find (owns p) (connections st) = Some conn ->
  scpfolder.connection p st = (st, Ok conn).
Proof. intros Ht Hf. now rewrite connection_result, Ht, Hf. Qed.

Lemma del_path_run (p : string) (st : State) :
  deletable w (connections st) p ->
  exists st',
    commands.ScpDelCommand.del_path w p st = (st', Ok tt)
    /\ connections st' = connections st
    /\ sel is_remove st'
       = (sel is_remove st ++ del_request (connections st) p)%list.
Proof.
  intros (Ht & conn & remote & Hf & Hr & Ho).
  unfold commands.ScpDelCommand.del_path, try_except, del_request.
  rewrite Hf, Hr.
  rewrite (bind_run _ _ _ _ _ (connection_found p st conn Ht Hf)).
  pose proof (remove_run w conn p st) as Hrun.
  rewrite Hr in Hrun. rewrite (bind_run _ _ _ _ _ Hrun).
  destruct (remove_outcome w conn remote) as [[]|]; simpl in Ho; try contradiction;
    simpl; eexists; (split; [reflexivity |]); split; try reflexivity;
    rewrite ?sel_push; simpl; now rewrite ?app_nil_r.
Qed.

Lemma del_executor_run (paths : list string) :
  forall st,
    Forall (deletable w (connections st)) paths ->
    exists st',
      commands.ScpDelCommand.executor w paths st = (st', Ok tt)
      /\ connections st' = connections st
      /\ sel is_remove st'
         = (sel is_remove st ++ flat_map (del_request (connections st)) paths)%list.
Proof.
  induction paths as [|p rest IH]; intros st Hall.
  - exists st. simpl. now rewrite app_nil_r.
  - inversion Hall as [|? ? Hp Hrest]; subst.
    destruct (del_path_run p st Hp) as (s1 & Hrun & Hc & Hs).
    rewrite <- Hc in Hrest. destruct (IH s1 Hrest) as (s2 & Hrun2 & Hc2 & Hs2).
    exists s2. unfold commands.ScpDelCommand.executor in *. simpl.
    rewrite (bind_run _ _ _ _ _ Hrun). split; [exact Hrun2 |].
    split; [congruence |]. rewrite Hs2, Hs, Hc. now rewrite app_assoc.
Qed.

(** X14.  The delete command works path by path and takes no notice of the
    drop rule.  When every path has a session that translates it, and every
    remote removal returns or raises [SCPCommandError] or
    [SCPNotConnectedError], the command ends normally having asked once for
    each path, in the order of the request: a removal that failed does not
    keep the later ones from being tried.  But a path that no session owns
    ends the command on the spot with the [ScpNotConnectedError] of
    [connection], which neither [except] clause matches. *)
Theorem delete_tries_every_path (paths : list string) (st : State)
    (Hall : Forall (deletable w (connections st)) paths) :
  (exists st',
     commands.ScpDelCommand.executor w paths st = (st', Ok tt)
     /\ connections st' = connections st
     /\ sel is_remove st'
        = (sel is_remove st ++ flat_map (del_request (connections st)) paths)%list
     /\ length (flat_map (del_request (connections st)) paths) = length paths)
  /\ (forall p rest,
        scpfolder.is_connected p st = false ->
        commands.ScpDelCommand.executor w (p :: rest) st
        = (st, Raise (ScpNotConnectedError ("No SCP connection for " ++ p ++ "!")))).
Proof.
  split.
  - destruct (del_executor_run paths st Hall) as (st' & Hrun & Hc & Hs).
    exists st'. repeat split; try assumption.
    clear Hrun Hs. induction Hall as [|p rest (Ht & conn & remote & Hf & Hr & _) _ IH];
      [reflexivity |].
    simpl. rewrite length_app, IH. unfold del_request. now rewrite Hf, Hr.
  - intros p rest Hnot. unfold commands.ScpDelCommand.executor. simpl.
    unfold bind at 1, commands.ScpDelCommand.del_path, try_except, bind at 1.
    now rewrite (not_connected_raises p st Hnot).
Qed.

End Deleting.

(** X14, witness: the first removal fails with a command error, the second
    path is a [.gitignore]; both removals are asked for. *)
Lemma delete_tries_every_path_witness :
  exists st',
    @commands.ScpDelCommand.executor Scenario.posix_root Scenario.readonly
      ["/proj/README.md"; "/proj/src/.gitignore"] (Scenario.registry [Scenario.proj])
    = (st', Ok tt)
    /\ sel is_remove st'
       = [ScpRemove 0 "/home/guest/proj/README.md";
          ScpRemove 0 "/home/guest/proj/src/.gitignore"].
Proof.
  assert (Forall (@deletable Scenario.posix_root Scenario.readonly
                    (connections (Scenario.registry [Scenario.proj])))
            ["/proj/README.md"; "/proj/src/.gitignore"]) as Hall.
  { repeat constructor.
    - exists Scenario.proj, "/home/guest/proj/README.md". now repeat split.
    - exists Scenario.proj, "/home/guest/proj/src/.gitignore". now repeat split. }
  destruct (@delete_tries_every_path Scenario.posix_root Scenario.readonly _ _ Hall)
    as ((st' & Hrun & _ & Hs & _) & _).
  exists st'. split; [exact Hrun | exact Hs].
Defined.

(** ** Grouping *)

Section GroupingRuns.
Context {os_path : OsPath} (w : World).

Lemma group_paths_state (paths : list string) (g : commands.groups) (st : State) :
  fst (commands.group_paths paths g st) = st.
Proof. exact (preserves_group_paths (fun s => s) paths g st). Qed.

Lemma group_step_connected (path : string) (rest : list string)
    (g : commands.groups) (st : State) (conn : SCPFolder) :
  dropped path = false ->
  scpfolder.connection path st = (st, Ok conn) ->
  commands.group_paths (path :: rest) g st
  = commands.group_paths rest (commands.setdefault_append g conn path) st.
Proof.
  intros Hd Hc. simpl. rewrite Hd. unfold bind at 1, try_except, bind at 1.
  now rewrite Hc.
Qed.

Lemma group_step_unconnected (path : string) (rest : list string)
    (g : commands.groups) (st : State) :
  dropped path = false ->
  scpfolder.is_connected path st = false ->
  commands.group_paths (path :: rest) g st
  = (st, Raise (ScpNotConnectedError ("No SCP connection for " ++ path ++ "!"))).
Proof.
  intros Hd Hc. simpl. rewrite Hd. unfold bind at 1, try_except, bind at 1.
  now rewrite (not_connected_raises path st Hc).
Qed.

Lemma group_paths_unconnected (paths : list string) (st : State) (p : string) :
  In p paths -> dropped p = false -> scpfolder.is_connected p st = false ->
  forall g, exists msg,
    commands.group_paths paths g st = (st, Raise (ScpNotConnectedError msg)).
Proof.
  intros Hin Hd Hnot. induction paths as [|q rest IH]; [contradiction |].
  intros g. destruct (dropped q) eqn:Eq.
  - destruct Hin as [-> | Hin]; [congruence |].
    destruct (IH Hin g) as [msg H]. exists msg. simpl. now rewrite Eq.
  - destruct (scpfolder.is_connected q st) eqn:Ec.
    + destruct Hin as [-> | Hin]; [congruence |].
      destruct (connected_connection q st Ec) as (conn & Hc & _ & _).
      rewrite (group_step_connected q rest g st conn Eq Hc). now apply IH.
    + rewrite (group_step_unconnected q rest g st Eq Ec). eauto.
Qed.

(** X15.  One path without session stops a whole get or put.  When any path
    of the request that passes the drop rule lies in no connected folder,
    the executor ends with the [ScpNotConnectedError] of [connection], which
    the clause [except SCPNotConnectedError] of the grouping loop does not
    match; the state is what it was: nothing has been transferred, for the
    connected paths of the request neither. *)
Theorem unconnected_path_stops_transfer (paths : list string) (st : State)
    (p : string)
    (Hin : In p paths)
    (Hkept : dropped p = false)
    (Hnot : scpfolder.is_connected p st = false) :
  exists msg,
    commands.ScpGetCommand.executor w paths st
    = (st, Raise (ScpNotConnectedError msg))
    /\ commands.ScpPutCommand.executor w paths st
       = (st, Raise (ScpNotConnectedError msg)).
Proof.
  destruct (group_paths_unconnected paths st p Hin Hkept Hnot []) as [msg H].
  exists msg. unfold commands.ScpGetCommand.executor, commands.ScpPutCommand.executor.
  now rewrite !(bind_run _ _ _ _ _ H).
Qed.

End GroupingRuns.

(** X15, witness: a file of the connected [/proj] and a file elsewhere. *)
Lemma unconnected_path_stops_transfer_witness :
  exists msg,
    @commands.ScpGetCommand.executor Scenario.posix_root Scenario.host
      ["/proj/README.md"; "/elsewhere/notes.txt"] (Scenario.registry [Scenario.proj])
    = (Scenario.registry [Scenario.proj], Raise (ScpNotConnectedError msg))
    /\ @commands.ScpPutCommand.executor Scenario.posix_root Scenario.host
         ["/proj/README.md"; "/elsewhere/notes.txt"] (Scenario.registry [Scenario.proj])
       = (Scenario.registry [Scenario.proj], Raise (ScpNotConnectedError msg)).
Proof.
  exact (@unconnected_path_stops_transfer Scenario.posix_root Scenario.host
           ["/proj/README.md"; "/elsewhere/notes.txt"]
           (Scenario.registry [Scenario.proj]) "/elsewhere/notes.txt"
           (or_intror (or_introl eq_refl)) eq_refl eq_refl).
Defined.

Section GroupingPartition.
Context {os_path : OsPath}.

Lemma setdefault_ids (g : commands.groups) (conn : SCPFolder) (p : string) (i : nat) :
  In i (group_ids (commands.setdefault_append g conn p)) ->
  In i (group_ids g) \/ i = oid conn.
Proof.
  induction g as [|[c ps] g IH]; simpl.
  - intros [<- | []]. now right.
  - destruct (oid c =? oid conn)%nat; simpl.
    + intros [H | H]; auto.
    + intros [H | H]; [auto |]. destruct (IH H); auto.
Qed.

Lemma setdefault_NoDup (g : commands.groups) (conn : SCPFolder) (p : string) :
  NoDup (group_ids g) -> NoDup (group_ids (commands.setdefault_append g conn p)).
Proof.
  induction g as [|[c ps] g IH]; simpl; intros H.
  - repeat constructor. intros [].
  - inversion H as [|? ? Hn Hd]; subst.
    destruct (Nat.eqb_spec (oid c) (oid conn)) as [E|E]; simpl.
    + now constructor.
    + constructor; [| now apply IH].
      intros Hin. apply setdefault_ids in Hin as [Hin | Hin]; [now apply Hn |].
      congruence.
Qed.

Lemma members_absent (g : commands.groups) (i : nat) :
  ~ In i (group_ids g) -> members g i = [].
Proof.
  induction g as [|[c ps] g IH]; simpl; intros H; [reflexivity |].
  destruct (Nat.eqb_spec (oid c) i) as [E|E]; [tauto |].
  apply IH. tauto.
Qed.

Lemma members_setdefault (g : commands.groups) (conn : SCPFolder) (p : string)
    (i : nat) :
  NoDup (group_ids g) ->
  members (commands.setdefault_append g conn p) i
  = (members g i ++ if (oid conn =? i)%nat then [p] else [])%list.
Proof.
  induction g as [|[c ps] g IH]; simpl; intros H.
  - now rewrite app_nil_r.
  - inversion H as [|? ? Hn Hd]; subst.
    destruct (Nat.eqb_spec (oid c) (oid conn)) as [E|E]; simpl.
    + rewrite <- E. destruct (Nat.eqb_spec (oid c) i) as [Ei|Ei].
      * subst i. rewrite (members_absent g _ Hn). now rewrite !app_nil_r.
      * now rewrite app_nil_r.
    + rewrite (IH Hd). now rewrite app_assoc.
Qed.

Lemma members_of_group (g : commands.groups) (c : SCPFolder) (ps : list string) :
  NoDup (group_ids g) -> In (c, ps) g -> members g (oid c) = ps.
Proof.
  induction g as [|[c0 ps0] g IH]; simpl; intros H Hin; [contradiction |].
  inversion H as [|? ? Hn Hd]; subst. destruct Hin as [[= -> ->] | Hin].
  - rewrite Nat.eqb_refl, (members_absent g _ Hn). apply app_nil_r.
  - destruct (Nat.eqb_spec (oid c0) (oid c)) as [E|E].
    + exfalso. apply Hn. rewrite E. unfold group_ids.
      apply in_map_iff. now exists (c, ps).
    + now apply IH.
Qed.

Lemma setdefault_groups (l : list SCPFolder) (g : commands.groups)
    (conn : SCPFolder) (p : string) :
  In conn l ->
  Forall (fun x => In (fst x) l /\ snd x <> []) g ->
  Forall (fun x => In (fst x) l /\ snd x <> [])
         (commands.setdefault_append g conn p).
Proof.
  intros Hc. induction g as [|[c ps] g IH]; simpl; intros H.
  - repeat constructor; [exact Hc | discriminate].
  - inversion H as [|? ? [H1 H2] Hrest]; subst. simpl in *.
    destruct (oid c =? oid conn)%nat.
    + constructor; [| exact Hrest]. split; [exact H1 | now destruct ps].
    + constructor; [now split | now apply IH].
Qed.

Lemma group_paths_partition (st : State) (paths : list string) :
  forall g,
    NoDup (group_ids g) ->
    Forall (fun x => In (fst x) (connections st) /\ snd x <> []) g ->
    (forall p, In p paths -> dropped p = false ->
               scpfolder.is_connected p st = true) ->
    exists g',
      commands.group_paths paths g st = (st, Ok g')
      /\ NoDup (group_ids g')
      /\ Forall (fun x => In (fst x) (connections st) /\ snd x <> []) g'
      /\ forall i,
           members g' i
           = (members g i
              ++ filter (fun p => negb (dropped p)
                                  && owner_is (connections st) i p) paths)%list.
Proof.
  induction paths as [|p rest IH]; intros g Hids Hinv Hall.
  - exists g. simpl. repeat split; auto. intros i. now rewrite app_nil_r.
  - destruct (dropped p) eqn:Ed.
    + destruct (IH g Hids Hinv) as (g' & Hrun & H1 & H2 & H3).
      { intros q Hq. apply Hall. now right. }
      exists g'. simpl. rewrite Ed. simpl. auto.
    + assert (scpfolder.is_connected p st = true) as Hc
        by (apply Hall; [now left | exact Ed]).
      destruct (connected_connection p st Hc) as (conn & Hconn & Hin & _).
      rewrite (group_step_connected p rest g st conn Ed Hconn).
      destruct (IH (commands.setdefault_append g conn p)) as (g' & Hrun & H1 & H2 & H3).
      { now apply setdefault_NoDup. }
      { now apply setdefault_groups. }
      { intros q Hq. apply Hall. now right. }
      exists g'. repeat split; auto. intros i.
      rewrite H3, (members_setdefault g conn p i Hids). simpl. rewrite Ed. simpl.
      assert (owner_is (connections st) i p = (oid conn =? i)%nat) as ->.
      { unfold owner_is. rewrite connection_result in Hconn.
        destruct (Py.truthy p); [| discriminate].
        destruct (find (owns p) (connections st)); [| discriminate].
        now injection Hconn as ->. }
      rewrite <- app_assoc. now destruct (oid conn =? i)%nat.
Qed.

(** X16.  Grouping loses no path and mixes none up.  When every path that
    passes the drop rule has a session, the grouping loop of the executors
    returns, without touching the state, one group for each session that
    owns a path, no session twice; and the group of a session holds exactly
    the paths of the request that pass the drop rule and have that session
    as their first owner, in the order of the request, and is not empty. *)
Theorem grouping_partitions_request (st : State) (paths : list string)
    (Hall : forall p, In p paths -> dropped p = false ->
                      scpfolder.is_connected p st = true) :
  exists g,
    commands.group_paths paths [] st = (st, Ok g)
    /\ NoDup (group_ids g)
    /\ (forall conn ps,
          In (conn, ps) g ->
          In conn (connections st) /\ ps <> []
          /\ ps = filter (fun p => negb (dropped p)
                                   && owner_is (connections st) (oid conn) p) paths)
    /\ (forall p, In p paths -> dropped p = false -> grouped g p).
Proof.
  destruct (group_paths_partition st paths [] (NoDup_nil _) (Forall_nil _) Hall)
    as (g & Hrun & Hids & Hinv & Hmem).
  exists g. split; [exact Hrun |]. split; [exact Hids |]. split.
  - intros conn ps Hin. rewrite Forall_forall in Hinv.
    destruct (Hinv _ Hin) as [H1 H2]. split; [exact H1 |]. split; [exact H2 |].
    rewrite <- (members_of_group g conn ps Hids Hin). now rewrite Hmem.
  - intros p Hp Hd.
    destruct (connected_connection p st (Hall p Hp Hd)) as (conn & Hconn & _ & _).
    assert (In p (members g (oid conn))) as Hm.
    { rewrite Hmem. simpl. apply filter_In. split; [exact Hp |].
      rewrite Hd. simpl. unfold owner_is. rewrite connection_result in Hconn.
      destruct (Py.truthy p); [| discriminate].
      destruct (find (owns p) (connections st)); [| discriminate].
      injection Hconn as ->. apply Nat.eqb_refl. }
    unfold members in Hm. apply in_flat_map in Hm as ([c ps] & Hin & Hps).
    simpl in Hps. destruct (oid c =? oid conn)%nat; [| contradiction].
    now exists c, ps.
Qed.

End GroupingPartition.

(** X16, witness: a request over two connected folders, with one path of a
    repository directory in between. *)
Lemma grouping_partitions_request_witness :
  exists g,
    @commands.group_paths Scenario.posix_root
      ["/proj/README.md"; "/docs/index.md"; "/proj/.git/HEAD"; "/proj/src/main.py"]
      [] (Scenario.registry [Scenario.proj; Scenario.docs])
    = (Scenario.registry [Scenario.proj; Scenario.docs], Ok g)
    /\ NoDup (group_ids g)
    /\ (forall conn ps,
          In (conn, ps) g ->
          In conn [Scenario.proj; Scenario.docs] /\ ps <> []
          /\ ps = filter (fun p => negb (dropped p)
                                   && @owner_is Scenario.posix_root
                                        [Scenario.proj; Scenario.docs] (oid conn) p)
                         ["/proj/README.md"; "/docs/index.md"; "/proj/.git/HEAD";
                          "/proj/src/main.py"])
    /\ (forall p,
          In p ["/proj/README.md"; "/docs/index.md"; "/proj/.git/HEAD";
                "/proj/src/main.py"] ->
          dropped p = false -> grouped g p).
Proof.
  apply (@grouping_partitions_request Scenario.posix_root
           (Scenario.registry [Scenario.proj; Scenario.docs])
           ["/proj/README.md"; "/docs/index.md"; "/proj/.git/HEAD"; "/proj/src/main.py"]).
  intros p [<- | [<- | [<- | [<- | []]]]]; vm_compute; congruence.
Defined.

(** ** BulkTransferEngine: what is removed on the remote side *)

Section RemoteCleanup.
Context {os_path : OsPath} (w : World).

Lemma get_body_keeps_removals (conn : SCPFolder) (ld rd rtmp tmp : string) :
  preserves (sel is_remove)
    (try_except
       (status_message "SCP: preparing download ..." ;;
        cmd <- commands.format2 "tar -C {0} -cf {1} ." rd rtmp ;;
        SCPClient.plink w conn cmd ;;
        SCPClient.getfile w conn rtmp tmp (Some commands.ScpGetCommand.progress) ;;
        status_message "SCP: extracting ..." ;;
        commands.ScpGetCommand.extract w tmp ld ;;
        status_message ("SCP: Downloaded " ++ ld ++ "!"))
       (commands.on_command_error ("SCP: Failed to download " ++ ld ++ "!"))).
Proof.
  apply preserves_try_except.
  - apply preserves_bind; [apply preserves_status; frame | intros _].
    apply preserves_bind; [frame | intros cmd].
    apply preserves_bind; [apply preserves_plink; frame | intros _].
    apply preserves_bind.
    { apply preserves_getfile; [frame |].
      intros g n [= <-]. apply preserves_get_progress. intros msg. frame. }
    intros _. apply preserves_bind; [apply preserves_status; frame | intros _].
    apply preserves_bind; [apply preserves_extract; frame | intros _].
    apply preserves_status; frame.
  - intros e h. apply preserves_on_command_error; intros msg; frame.
Qed.

Lemma get_finally_removals (conn : SCPFolder) (rtmp tmp : string) (st : State) :
  sel is_remove
    (fst ((except_pass (SCPClient.remove w conn rtmp) ;;
           except_pass (os_remove tmp)) st))
  = (sel is_remove st ++ [ScpRemove (oid conn) rtmp])%list.
Proof.
  assert (exists s1, except_pass (SCPClient.remove w conn rtmp) st = (s1, Ok tt)
                     /\ sel is_remove s1
                        = (sel is_remove st ++ [ScpRemove (oid conn) rtmp])%list)
    as (s1 & H1 & P1).
  { unfold except_pass, try_except, SCPClient.remove, bind. simpl.
    rewrite outcome_run. destruct (remove_outcome w conn rtmp); simpl;
      eexists; (split; [reflexivity |]); now rewrite sel_push. }
  rewrite (bind_run _ _ _ _ _ H1). rewrite <- P1.
  apply (preserves_except_pass (sel is_remove)).
  now apply preserves_os_remove_sel.
Qed.

Lemma puttree_keeps_removals (conn : SCPFolder) (paths : list string) :
  preserves (sel is_remove) (commands.ScpPutCommand.puttree w conn paths).
Proof.
  unfold commands.ScpPutCommand.puttree.
  apply preserves_bind; [frame | intros ld].
  apply preserves_bind; [frame | intros rd].
  apply preserves_bind; [intros st; now apply created_sel | intros tmp].
  apply preserves_bind; [apply preserves_status; frame | intros _].
  apply preserves_bind; [apply preserves_pack; intros es; frame | intros _].
  unfold commands.ScpPutCommand.put_try.
  apply preserves_try_finally.
  - apply preserves_try_except.
    + apply preserves_bind.
      { apply preserves_putfile; [frame |].
        intros g n [= <-]. apply preserves_put_progress. intros msg. frame. }
      intros _. apply preserves_bind; [apply preserves_status; frame | intros _].
      apply preserves_bind; [frame | intros cmd].
      apply preserves_bind; [apply preserves_plink; frame | intros _].
      apply preserves_status; frame.
    + intros e h. apply preserves_on_command_error; intros msg; frame.
  - now apply preserves_os_remove_sel.
Qed.

(** X17.  [gettree] always asks for the removal of the remote archive, and
    never learns how that went.  Once the common folder and its remote
    counterpart are known, the call requests exactly one removal, of the
    archive under the remote [/tmp], whatever the remote command, the
    download and the extraction did, so also when the archive was never
    written; and what the call returns or raises is fixed by those three
    steps alone, the outcome of the removal has no part in it. *)
Theorem gettree_always_removes_remote_archive (conn : SCPFolder)
    (paths : list string) (st : State) (ld rd : string)
    (Hmost : most w paths = Ok ld)
    (Hdir : scpfolder.to_remote_path conn ld = Ok rd) :
  sel is_remove (fst (commands.ScpGetCommand.gettree w conn paths st))
  = (sel is_remove st ++ [ScpRemove (oid conn) (remote_tmp_of w st)])%list
  /\ snd (commands.ScpGetCommand.gettree w conn paths st)
     = caught (plink_outcome w conn (pack_command rd (remote_tmp_of w st)))
         (caught (snd (getfile_outcome w conn (remote_tmp_of w st) (next_tmp w st)))
            (caught (extract_outcome w (next_tmp w st) ld) (Ok tt))).
Proof.
  rewrite (gettree_run w conn paths st ld rd Hmost Hdir). split.
  - unfold commands.ScpGetCommand.get_try, try_finally. cbv zeta.
    fold (remote_tmp_of w st).
    pose proof (get_body_keeps_removals conn ld rd (remote_tmp_of w st)
                  (next_tmp w st) (created w st)) as Hbody.
    destruct (try_except _ _ (created w st)) as [s2 r] eqn:E. simpl in Hbody.
    pose proof (get_finally_removals conn (remote_tmp_of w st) (next_tmp w st) s2)
      as Hfin.
    destruct ((except_pass _ ;; except_pass _) s2) as [s3 [[]|e]]; simpl in *;
      rewrite Hfin, Hbody; now rewrite created_sel.
  - destruct (get_try_spec w conn ld rd (next_tmp w st) (created w st))
      as (s' & Hrun & _). rewrite Hrun. reflexivity.
Qed.

(** X18.  A put never removes a remote file through the transport: whatever
    the paths and however the command ends, no removal is requested.  The
    archive that [puttree] uploads is removed by the [rm] at the end of the
    remote command only, so nothing removes it when that command is not
    reached or fails before its last part. *)
Theorem put_never_requests_removal (paths : list string) (st : State) :
  sel is_remove (fst (commands.ScpPutCommand.executor w paths st))
  = sel is_remove st.
Proof.
  revert st. change (preserves (sel is_remove) (commands.ScpPutCommand.executor w paths)).
  unfold commands.ScpPutCommand.executor.
  apply preserves_bind; [apply preserves_group_paths | intros g].
  apply preserves_for_each. intros [conn ps].
  unfold commands.ScpPutCommand.put_group.
  destruct ps as [|p [|q ps]]; try apply puttree_keeps_removals.
  destruct (isfile w p); [| apply puttree_keeps_removals].
  apply preserves_bind; [| intros _; apply preserves_status; frame].
  apply preserves_scpfolder_putfile. intros remote. frame.
Qed.

End RemoteCleanup.

(** X17, witness: a download of the folder [/proj/src]. *)
Lemma gettree_always_removes_remote_archive_witness :
  sel is_remove
    (fst (@commands.ScpGetCommand.gettree Scenario.posix_root Scenario.host
            Scenario.proj ["/proj/src"] (Scenario.registry [Scenario.proj])))
  = [ScpRemove 0 "/tmp/scp_0"]
  /\ snd (@commands.ScpGetCommand.gettree Scenario.posix_root Scenario.host
            Scenario.proj ["/proj/src"] (Scenario.registry [Scenario.proj]))
     = Ok tt.
Proof.
  exact (@gettree_always_removes_remote_archive Scenario.posix_root Scenario.host
           Scenario.proj ["/proj/src"] (Scenario.registry [Scenario.proj])
           "/proj" "/home/guest/proj" eq_refl eq_refl).
Defined.

(** ** The commands on the registry *)

Section DisconnectCommand.
Context {os_path : OsPath} (w : World).

Lemma filter_all {A} (l : list A) : filter (fun _ => true) l = l.
Proof. induction l as [|a l IH]; simpl; congruence. Qed.

Lemma filter_twice {A} (f g : A -> bool) (l : list A) :
  filter f (filter g l) = filter (fun x => g x && f x) l.
Proof.
  induction l as [|a l IH]; simpl; [reflexivity |].
  destruct (g a); simpl; [destruct (f a) |]; now rewrite IH.
Qed.

Lemma others_filter (path : string) (l : list SCPFolder) :
  others path l = filter (fun c => negb (Py.truthy path && owns path c)) l.
Proof.
  unfold others. destruct (Py.truthy path); simpl; [reflexivity |].
  symmetry. apply filter_all.
Qed.

Lemma disconnect_each_run (paths : list string) :
  forall st,
    NoDup (map oid (connections st)) ->
    for_each scpfolder.disconnect paths st
    = (set_connections
         (filter (fun c => negb (existsb (fun p => Py.truthy p && owns p c) paths))
                 (connections st)) st, Ok tt).
Proof.
  induction paths as [|p rest IH]; intros st Hids; simpl.
  - now rewrite filter_all, set_connections_same.
  - rewrite (bind_run _ _ _ _ _ (disconnect_run p st Hids)).
    rewrite IH by (simpl; now apply others_NoDup).
    simpl. rewrite set_connections_twice, others_filter, filter_twice.
    do 2 f_equal. apply filter_ext. intros c. now rewrite negb_orb.
Qed.

Lemma kept_owns_none (paths : list string) (l : list SCPFolder) (p : string) :
  In p paths ->
  Py.truthy p
  && existsb (owns p)
       (filter (fun c => negb (existsb (fun q => Py.truthy q && owns q c) paths)) l)
  = false.
Proof.
  intros Hin. destruct (Py.truthy p) eqn:Ht; [| reflexivity]. simpl.
  destruct (existsb _ (filter _ l)) eqn:E; [| reflexivity].
  apply existsb_exists in E as (c & Hc & Ho).
  apply filter_In in Hc as [_ Hc]. apply negb_true_iff in Hc.
  assert (existsb (fun q => Py.truthy q && owns q c) paths = true) as H.
  { apply existsb_exists. exists p. split; [exact Hin |]. now rewrite Ht, Ho. }
  congruence.
Qed.

(** X19.  The disconnect command closes every session of every path it is
    given: the sessions left are those that own none of the paths, in their
    order; the command returns normally with the one status line
    [SCP: Disconnected!], also when no path had a session; and afterwards
    the entries of the window commands are hidden for the same request. *)
Theorem disconnect_command_closes_all (paths : list string) (st : State)
    (Hids : NoDup (map oid (connections st))) :
  commands.ScpDisconnectCommand.run w paths st
  = (push (Status "SCP: Disconnected!")
       (set_connections
          (filter (fun c =>
                     negb (existsb (fun p => Py.truthy p && owns p c)
                             (commands.ensure_paths w paths)))
                  (connections st)) st), Ok tt)
  /\ commands.ScpWindowCommand.is_visible w paths
       (fst (commands.ScpDisconnectCommand.run w paths st)) = false.
Proof.
  assert (commands.ScpDisconnectCommand.run w paths st
          = (push (Status "SCP: Disconnected!")
               (set_connections
                  (filter (fun c =>
                             negb (existsb (fun p => Py.truthy p && owns p c)
                                     (commands.ensure_paths w paths)))
                          (connections st)) st), Ok tt)) as Hrun.
  { unfold commands.ScpDisconnectCommand.run.
    now rewrite (bind_run _ _ _ _ _ (disconnect_each_run _ st Hids)). }
  split; [exact Hrun |]. rewrite Hrun. simpl.
  unfold commands.ScpWindowCommand.is_visible.
  destruct (existsb _ (commands.ensure_paths w paths)) eqn:E; [| reflexivity].
  apply existsb_exists in E as (p & Hin & Hc).
  rewrite is_connected_owns in Hc. simpl in Hc.
  now rewrite (kept_owns_none _ _ p Hin) in Hc.
Qed.

End DisconnectCommand.

(** X19, witness: with [/proj] and [/docs] connected, a request for a file of
    [/proj] and a folder that has no session. *)
Lemma disconnect_command_closes_all_witness :
  @commands.ScpDisconnectCommand.run Scenario.posix_root Scenario.host
    ["/proj/README.md"; "/elsewhere"]
    (Scenario.registry [Scenario.proj; Scenario.docs])
  = (push (Status "SCP: Disconnected!")
       (set_connections [Scenario.docs]
          (Scenario.registry [Scenario.proj; Scenario.docs])), Ok tt).
Proof.
  assert (NoDup (map oid (connections (Scenario.registry [Scenario.proj; Scenario.docs]))))
    as Hids.
  { simpl. repeat constructor; simpl; intuition discriminate. }
  exact (proj1 (@disconnect_command_closes_all Scenario.posix_root Scenario.host
                  ["/proj/README.md"; "/elsewhere"]
                  (Scenario.registry [Scenario.proj; Scenario.docs]) Hids)).
Defined.

Section ConnectCommand.
Context {os_path : OsPath} (w : World).

Lemma connect_keeps_connected (p q : string) (st : State) :
  scpfolder.is_connected q st = true ->
  scpfolder.is_connected q (fst (scpfolder.connect w p st)) = true.
Proof.
  intros Hq. destruct (scpfolder.is_connected p st) eqn:E.
  - destruct (connected_connection p st E) as (client & Hc & _ & _).
    now rewrite (connect_connected w p st client Hc).
  - rewrite (connect_unconnected_run w p st E).
    destruct (scpfolder.root_dir w (scpfolder.platform_case p)) as [r|];
      [| exact Hq].
    destruct (read_mapping w r) as [m|]; [| exact Hq].
    rewrite is_connected_owns in *. simpl.
    apply andb_true_iff in Hq as [-> Hq]. simpl.
    rewrite existsb_app, Hq. reflexivity.
Qed.

Lemma connect_none_state (p : string) (st st1 : State) :
  scpfolder.connect w p st = (st1, Ok None) -> st1 = st.
Proof.
  destruct (scpfolder.is_connected p st) eqn:E.
  - destruct (connected_connection p st E) as (client & Hc & _ & _).
    rewrite (connect_connected w p st client Hc). congruence.
  - rewrite (connect_unconnected_run w p st E).
    destruct (scpfolder.root_dir w (scpfolder.platform_case p)) as [r|];
      [| congruence].
    destruct (read_mapping w r) as [m|]; [discriminate | congruence].
Qed.

Lemma connect_all_keeps_connected (paths : list string) (q : string) :
  forall st,
    scpfolder.is_connected q st = true ->
    scpfolder.is_connected q (fst (commands.ScpConnectCommand.connect_all w paths st))
    = true.
Proof.
  induction paths as [|p rest IH]; intros st Hq; simpl; [exact Hq |].
  pose proof (connect_keeps_connected p q st Hq) as H1.
  unfold bind. destruct (scpfolder.connect w p st) as [st1 [[c|]|e]]; simpl in *;
    auto.
Qed.

(** X20.  The test of the connect command,
    [all(scpfolder.connect(path) for path in paths)], never raises.  When it
    is true every path of the request is connected afterwards (on a platform
    whose [os.path.split] returns a prefix as the head).  When it is false
    it stopped at the first path that could not be connected: the paths
    after that one were not tried, and the sessions opened for the paths
    before it stay open. *)
Theorem connect_all_outcome
    (Hsplit : forall p, Py.startswith p (fst (path_split p)) = true)
    (paths : list string) (st : State) :
  exists b,
    snd (commands.ScpConnectCommand.connect_all w paths st) = Ok b
    /\ (b = true ->
        forall p, In p paths ->
          scpfolder.is_connected p
            (fst (commands.ScpConnectCommand.connect_all w paths st)) = true)
    /\ (b = false ->
        exists before p after,
          paths = (before ++ p :: after)%list
          /\ commands.ScpConnectCommand.connect_all w before st
             = (fst (commands.ScpConnectCommand.connect_all w paths st), Ok true)
          /\ scpfolder.connect w p
               (fst (commands.ScpConnectCommand.connect_all w paths st))
             = (fst (commands.ScpConnectCommand.connect_all w paths st), Ok None)).
Proof.
  revert st. induction paths as [|p rest IH]; intros st.
  - exists true. simpl. split; [reflexivity |]. split; [intros _ p [] | discriminate].
  - destruct (connect_never_raises_aux w p st) as [answer Ha].
    destruct (scpfolder.connect w p st) as [st1 r] eqn:E. simpl in Ha. subst r.
    simpl. unfold bind. rewrite E. destruct answer as [c|].
    + destruct (IH st1) as (b & Hb & Htrue & Hfalse). exists b.
      split; [exact Hb |]. split.
      * intros Hbt q [<- | Hq]; [| now apply Htrue].
        apply connect_all_keeps_connected.
        pose proof (connected_after_connect w Hsplit p st st1 c E) as Hc.
        now rewrite is_connected_connection, Hc.
      * intros Hbf. destruct (Hfalse Hbf) as (l1 & q & l2 & Hl & H1 & H2).
        exists (p :: l1), q, l2. split; [now rewrite Hl |]. split; [| exact H2].
        simpl. unfold bind. now rewrite E.
    + exists false. split; [reflexivity |]. split; [discriminate |].
      intros _. exists [], p, rest.
      pose proof (connect_none_state p st st1 E) as Hs. subst st1.
      split; [reflexivity |]. split; [reflexivity | exact E].
Qed.

End ConnectCommand.

(** X20, witness: a file of the mapped [/proj], a file of [/docs], whose
    declaration cannot be decoded, and a second file of [/proj]: the test is
    false, the session of [/proj] is open. *)
Lemma connect_all_outcome_witness :
  exists b,
    snd (@commands.ScpConnectCommand.connect_all Scenario.posix_root Scenario.host
           ["/proj/README.md"; "/docs/index.md"; "/proj/src/main.py"] init_state)
    = Ok b
    /\ b = false
    /\ connections
         (fst (@commands.ScpConnectCommand.connect_all Scenario.posix_root
                 Scenario.host
                 ["/proj/README.md"; "/docs/index.md"; "/proj/src/main.py"]
                 init_state))
       = [Scenario.proj].
Proof.
  destruct (@connect_all_outcome Scenario.posix_root Scenario.host
              posix_split_prefix
              ["/proj/README.md"; "/docs/index.md"; "/proj/src/main.py"] init_state)
    as (b & Hb & _).
  exists b. split; [exact Hb |]. split; [| reflexivity].
  vm_compute in Hb. congruence.
Defined.

(** ** ConnectionRegistry: who is connected *)

Section Ownership.
Context {os_path : OsPath}.

Lemma startswith_extend (s t pre : string) :
  Py.startswith s pre = true -> Py.startswith (s ++ t) pre = true.
Proof.
  intros H. apply startswith_app in H as [post ->]. apply startswith_app.
  exists (post ++ t). apply append_assoc.
Qed.

(** X21.  [is_connected] and [connection] agree, although each has its own
    loop: [is_connected(path)] is true exactly when [connection(path)]
    returns, and then it returns a session of the registry whose root is a
    prefix of the path; otherwise [connection] raises [ScpNotConnectedError]
    with the message [No SCP connection for <path>!].  Neither changes the
    state. *)
Theorem is_connected_agrees_with_connection (path : string) (st : State) :
  (scpfolder.is_connected path st = true
   /\ exists client,
        scpfolder.connection path st = (st, Ok client)
        /\ In client (connections st)
        /\ Py.startswith (scpfolder.platform_case path) (root client) = true)
  \/ (scpfolder.is_connected path st = false
      /\ scpfolder.connection path st
         = (st, Raise (ScpNotConnectedError
                         ("No SCP connection for " ++ path ++ "!")))).
Proof.
  destruct (scpfolder.is_connected path st) eqn:E.
  - left. split; [reflexivity |]. exact (connected_connection path st E).
  - right. split; [reflexivity |]. exact (not_connected_raises path st E).
Qed.

(** X22.  Where the query is the path as it is, that is on every platform
    but Windows, ownership is a test on the text of the path: whatever is
    appended to a connected path, with or without a separator, the result
    is a connected path.  So next to a mapped folder every folder whose name
    starts with the name of the mapped one counts as connected.  (On Windows
    the query is [path.lower()], and the lower-case form of a longer text
    need not start with the lower-case form of the shorter one.) *)
Theorem connected_is_extension_closed (path more : string) (st : State)
    (Hplatform : win32 = false)
    (Hconn : scpfolder.is_connected path st = true) :
  scpfolder.is_connected (path ++ more) st = true.
Proof.
  rewrite is_connected_owns in *. apply andb_true_iff in Hconn as [Ht Hex].
  apply andb_true_iff. split; [now destruct path |].
  apply existsb_exists in Hex as (c & Hin & Ho). apply existsb_exists.
  exists c. split; [exact Hin |]. unfold owns, scpfolder.platform_case in *.
  rewrite Hplatform in *. now apply startswith_extend.
Qed.

End Ownership.

(** X22, witness: with [/proj] connected, a file of the folder
    [/projects-old] counts as connected, through the session of [/proj];
    that session cannot translate it. *)
Lemma connected_is_extension_closed_witness :
  @scpfolder.is_connected Scenario.posix_root "/projects-old/plan.txt"
    (Scenario.registry [Scenario.proj]) = true
  /\ @scpfolder.to_remote_path Scenario.posix_root Scenario.proj
       "/projects-old/plan.txt" = Raise (ValueError "Invalid path!").
Proof.
  split; [| reflexivity].
  exact (@connected_is_extension_closed Scenario.posix_root "/proj"
           "ects-old/plan.txt" (Scenario.registry [Scenario.proj]) eq_refl eq_refl).
Defined.

(** ** PathMapper: the parent of a path *)

Section PosixParent.
Context (cwd : string).

Lemma rpartition_no_sep (name : string) :
  Py.contains "/" name = false -> posixpath.rpartition name = ("", name).
Proof.
  induction name as [|a name IH]; intros H; [reflexivity |].
  apply no_slash_cons in H as [Ha Hn].
  cbn [posixpath.rpartition]. rewrite (IH Hn). unfold posixpath.is_sep.
  now rewrite Ha.
Qed.

Lemma rpartition_child (d name : string) :
  Py.contains "/" name = false ->
  posixpath.rpartition (d ++ "/" ++ name) = (d ++ "/", name).
Proof.
  intros Hn. induction d as [|a d IH].
  - change ("" ++ "/" ++ name) with (String "/" name).
    cbn [posixpath.rpartition]. now rewrite (rpartition_no_sep name Hn).
  - change (String a d ++ "/" ++ name) with (String a (d ++ "/" ++ name)).
    cbn [posixpath.rpartition]. rewrite IH. now destruct d.
Qed.

Lemma rstrip_child (d : string) :
  d <> "" -> Py.endswith d "/" = false ->
  Py.rstrip posixpath.is_sep (d ++ "/") = d.
Proof.
  induction d as [|a d IH]; intros Hd He; [congruence |].
  destruct d as [|b d].
  - simpl in *. unfold posixpath.is_sep. now rewrite He.
  - change (String a (String b d) ++ "/") with (String a (String b d ++ "/")).
    cbn [Py.rstrip]. rewrite IH; [reflexivity | discriminate | exact He].
Qed.

Lemma all_sep_child (d : string) :
  d <> "" -> Py.endswith d "/" = false -> posixpath.all_sep (d ++ "/") = false.
Proof.
  induction d as [|a d IH]; intros Hd He; [congruence |].
  destruct d as [|b d].
  - simpl in *. unfold posixpath.is_sep. now rewrite He.
  - change (String a (String b d) ++ "/") with (String a (String b d ++ "/")).
    cbn [posixpath.all_sep]. rewrite IH; [apply andb_false_r | discriminate | exact He].
Qed.

Lemma split_child (d name : string) :
  Py.contains "/" name = false -> d <> "" -> Py.endswith d "/" = false ->
  posixpath.split (d ++ "/" ++ name) = (d, name).
Proof.
  intros Hn Hd He. unfold posixpath.split. rewrite (rpartition_child d name Hn).
  rewrite (all_sep_child d Hd He), (rstrip_child d Hd He).
  now destruct d.
Qed.

(** X23.  On a POSIX host, for a path [d/name] other than the root of the
    mapping ([d] not empty and not ending in a slash, no slash in [name]):
    [to_remote_parent] answers what [to_remote_path] answers for the folder
    [d].  For a path directly under the root that is the remote path of the
    mapping as it was configured, without the test for [..]. *)
Theorem to_remote_parent_of_child (m : SCPFolder) (d name : string)
    (Hname : Py.contains "/" name = false)
    (Hd : d <> "") (Hend : Py.endswith d "/" = false)
    (Hneq : d ++ "/" ++ name <> root m) :
  @scpfolder.to_remote_parent (posix cwd) m (d ++ "/" ++ name)
  = @scpfolder.to_remote_path (posix cwd) m d
  /\ (d = root m ->
      @scpfolder.to_remote_parent (posix cwd) m (d ++ "/" ++ name)
      = Ok (remote_path m)).
Proof.
  assert (@scpfolder.to_remote_parent (posix cwd) m (d ++ "/" ++ name)
          = @scpfolder.to_remote_path (posix cwd) m d) as H.
  { unfold scpfolder.to_remote_parent. apply String.eqb_neq in Hneq.
    rewrite Hneq. unfold path_dirname. cbn [path_split posix].
    now rewrite (split_child d name Hname Hd Hend). }
  split; [exact H |]. intros ->. rewrite H.
  unfold scpfolder.to_remote_path. now rewrite String.eqb_refl.
Qed.

End PosixParent.

(** X23, witness: a file directly under the root of the mapping whose remote
    path goes through [..], and a file one level further down. *)
Lemma to_remote_parent_of_child_witness :
  @scpfolder.to_remote_parent (posix "/") Scenario.shared "/proj/README.md"
  = Ok "/srv/../www"
  /\ @scpfolder.to_remote_parent (posix "/") Scenario.proj "/proj/src/main.py"
     = Ok "/home/guest/proj/src".
Proof.
  assert ("/proj" ++ "/" ++ "README.md" <> root Scenario.shared) as H1
    by discriminate.
  assert ("/proj/src" ++ "/" ++ "main.py" <> root Scenario.proj) as H2
    by discriminate.
  assert ("/proj" <> "") as N1 by discriminate.
  assert ("/proj/src" <> "") as N2 by discriminate.
  split.
  - exact (proj2 (to_remote_parent_of_child "/" Scenario.shared "/proj" "README.md"
                    eq_refl N1 eq_refl H1) eq_refl).
  - exact (eq_trans
             (proj1 (to_remote_parent_of_child "/" Scenario.proj "/proj/src" "main.py"
                       eq_refl N2 eq_refl H2))
             eq_refl).
Defined.

(** ** Grouping: requests that are dropped as a whole *)

Section DroppedRequests.
Context {os_path : OsPath} (w : World).

Lemma group_paths_dropped (paths : list string) (g : commands.groups) (st : State) :
  (forall p, In p paths -> dropped p = true) ->
  commands.group_paths paths g st = (st, Ok g).
Proof.
  induction paths as [|p rest IH]; intros H; simpl; [reflexivity |].
  rewrite (H p) by now left. apply IH. intros q Hq. apply H. now right.
Qed.

(** X24.  A get or a put whose paths all hold [.scp] or [.git] does nothing
    at all: no session is looked up, so it does not matter whether anything
    is connected, nothing is transferred, no status line is written, and the
    command returns normally. *)
Theorem dropped_request_is_ignored (paths : list string) (st : State)
    (Hdrop : forall p, In p paths -> dropped p = true) :
  commands.ScpGetCommand.executor w paths st = (st, Ok tt)
  /\ commands.ScpPutCommand.executor w paths st = (st, Ok tt).
Proof.
  unfold commands.ScpGetCommand.executor, commands.ScpPutCommand.executor.
  now rewrite !(bind_run _ _ _ _ _ (group_paths_dropped paths [] st Hdrop)).
Qed.

End DroppedRequests.

(** X24, witness: a file of a repository directory and a file whose name
    only contains [.scp], with nothing connected. *)
Lemma dropped_request_is_ignored_witness :
  @commands.ScpGetCommand.executor Scenario.posix_root Scenario.host
    ["/proj/.git/config"; "/elsewhere/notes.scpx"] init_state
  = (init_state, Ok tt)
  /\ @commands.ScpPutCommand.executor Scenario.posix_root Scenario.host
       ["/proj/.git/config"; "/elsewhere/notes.scpx"] init_state
     = (init_state, Ok tt).
Proof.
  apply (@dropped_request_is_ignored Scenario.posix_root Scenario.host
           ["/proj/.git/config"; "/elsewhere/notes.scpx"] init_state).
  intros p [<- | [<- | []]]; reflexivity.
Defined.
